(** * GitLab reporting scripts: pagination, push-event reduction and reports

    A shallow embedding of the five scripts of the repository
    ([get_projects.py], [user_activity.py], [user_activity_commit.py],
    [user_activity_last_commit.py], [user_activity_last_commit_by_email.py])
    and the properties of their paginated fetch loops, push-event reducers
    and report builders.

    Conventions of the embedding.
    - A decoded JSON value is a [json]; a Python [dict] obtained from JSON is
      an association list whose keys are pairwise distinct.  JSON floats do
      not occur in the fields the scripts read and are not represented.
    - An HTTP endpoint is a function from the page number to a [response];
      [RequestException] stands for every failure caught by
      [except requests.exceptions.RequestException] (transport error,
      failure status raised by [raise_for_status], undecodable body).
    - [while True] loops take a fuel argument; [OutOfFuel] is the only
      outcome fuel can add, and every theorem that says a loop returns
      gives the amount of fuel that suffices.
    - An exception that no [except] clause of the script catches is the
      outcome [Raised e]: the script aborts with a traceback.
    - A Python [str] is a [string].  [str.lower()] is modelled on ASCII
      texts, where it folds the letters [A] to [Z] only; what depends on it
      is stated for ASCII texts.
    - The export functions run their calls of pandas inside
      [try ... except Exception]: a boolean [export_ok] tells whether these
      calls go through, and a failed export writes no sheet. *)

From Stdlib Require Import ZArith List String Ascii Bool Arith Lia.
From Stdlib Require Import Permutation Sorted.
Import ListNotations.

Set Warnings "-register-all".

Local Open Scope list_scope.
Local Open Scope nat_scope.

(** ** Python values *)

Inductive json : Type :=
| JNull
| JBool (b : bool)
| JInt (n : Z)
| JStr (s : string)
| JList (l : list json)
| JDict (d : list (string * json)).

(** The exceptions the scripts can run into and never catch, except where a
    clause [except Exception] is written. *)
Inductive exn : Type := KeyError | AttributeError | ValueError | TypeError.

Inductive outcome (A : Type) : Type :=
| Done (a : A)
| Raised (e : exn)
| OutOfFuel.

Arguments Done {A} a.
Arguments Raised {A} e.
Arguments OutOfFuel {A}.

Definition bind {A B : Type} (m : outcome A) (k : A -> outcome B) : outcome B :=
  match m with
  | Done a => k a
  | Raised e => Raised e
  | OutOfFuel => OutOfFuel
  end.

Notation "x <- m ;; k" := (bind m (fun x => k))
  (at level 61, m at next level, right associativity).

(** [for x in xs: body] where [body] may raise: the loop state is threaded
    through, the first exception ends the loop. *)
Fixpoint for_each {A St : Type} (body : A -> St -> outcome St) (xs : list A) (st : St)
  : outcome St :=
  match xs with
  | [] => Done st
  | x :: rest => st' <- body x st ;; for_each body rest st'
  end.

(** *** Dictionaries decoded from JSON *)

Fixpoint assoc (k : string) (d : list (string * json)) : option json :=
  match d with
  | [] => None
  | (k', v) :: rest => if String.eqb k k' then Some v else assoc k rest
  end.

(** [o.get(k, default)]: only a dict has the method. *)
Definition py_get (o : json) (k : string) (default : json) : outcome json :=
  match o with
  | JDict d => Done (match assoc k d with Some v => v | None => default end)
  | _ => Raised AttributeError
  end.

(** [o[k]] with a string key [k]. *)
Definition py_index (o : json) (k : string) : outcome json :=
  match o with
  | JDict d => match assoc k d with Some v => Done v | None => Raised KeyError end
  | _ => Raised TypeError
  end.

(** [v == s] for a string literal [s]. *)
Definition eq_str (v : json) (s : string) : bool :=
  match v with
  | JStr s' => String.eqb s' s
  | _ => false
  end.

(** Truth value of [v] in [if v:] *)
Definition truthy (v : json) : bool :=
  match v with
  | JNull => false
  | JBool b => b
  | JInt n => negb (Z.eqb n 0)
  | JStr s => negb (String.eqb s "")
  | JList l => match l with [] => false | _ => true end
  | JDict d => match d with [] => false | _ => true end
  end.

(** ** [datetime]

    The part of Python's [datetime] the reducers use: the constructor with
    its range checks, [fromisoformat] on the grammar of CPython 3.7 to 3.10
    ([YYYY-MM-DD], one separator character,
    [HH[:MM[:SS[.fff[fff]]]]], then optionally a sign and an offset
    [HH:MM[:SS[.ffffff]]]; ASCII digits only), the order between two
    datetimes, and [strftime].  An offset is kept in microseconds; [None]
    is a naive datetime.

    CPython 3.11 and later read more texts (basic format, other
    fraction lengths, a trailing ["Z"]) and read the texts of this grammar
    to the same datetime.  A [Done] of [fromisoformat] below therefore
    holds for every version; a [Raised ValueError] holds for 3.7 to 3.10
    only, and the properties are stated on the [Done] results. *)

Record datetime : Type := mkdt {
  year : Z; month : Z; day : Z;
  hour : Z; minute : Z; second : Z; microsecond : Z;
  utcoffset : option Z
}.

Definition is_leap (y : Z) : bool :=
  ((y mod 4 =? 0) && (negb (y mod 100 =? 0) || (y mod 400 =? 0)))%Z.

Definition days_before_year (y : Z) : Z :=
  (let y' := y - 1 in y' * 365 + y' / 4 - y' / 100 + y' / 400)%Z.

Definition days_in_month (y m : Z) : Z :=
  (if m =? 2 then (if is_leap y then 29 else 28)
   else if (m =? 4) || (m =? 6) || (m =? 9) || (m =? 11) then 30 else 31)%Z.

Definition days_before_month (y m : Z) : Z :=
  (nth (Z.to_nat m) [0; 0; 31; 59; 90; 120; 151; 181; 212; 243; 273; 304; 334] 0
   + (if (2 <? m) && is_leap y then 1 else 0))%Z.

Definition ymd2ord (y m d : Z) : Z :=
  (days_before_year y + days_before_month y m + d)%Z.

(** Microseconds of the wall-clock fields since the start of day 0. *)
Definition local_us (t : datetime) : Z :=
  ((((ymd2ord (year t) (month t) (day t) * 24 + hour t) * 60 + minute t) * 60
    + second t) * 1000000 + microsecond t)%Z.

Definition day_us : Z := (24 * 60 * 60 * 1000000)%Z.

(** [datetime(y, m, d, hh, mm, ss, us, tzinfo)]: [ValueError] outside the
    ranges; [timezone(offset)] wants an offset strictly within a day. *)
Definition make_datetime (y m d hh mm ss us : Z) (tz : option Z) : outcome datetime :=
  if ((1 <=? y) && (y <=? 9999) && (1 <=? m) && (m <=? 12)
      && (1 <=? d) && (d <=? days_in_month y m)
      && (0 <=? hh) && (hh <=? 23) && (0 <=? mm) && (mm <=? 59)
      && (0 <=? ss) && (ss <=? 59) && (0 <=? us) && (us <=? 999999)
      && match tz with
         | Some off => (- day_us <? off) && (off <? day_us)
         | None => true
         end)%Z
  then Done (mkdt y m d hh mm ss us tz)
  else Raised ValueError.

(** [a > b]: two aware datetimes are ordered by their UTC instants, two
    naive ones by their fields, and Python refuses to order a naive and an
    aware one. *)
Definition dt_gt (a b : datetime) : outcome bool :=
  match utcoffset a, utcoffset b with
  | Some oa, Some ob => Done (local_us b - ob <? local_us a - oa)%Z
  | None, None => Done (local_us b <? local_us a)%Z
  | _, _ => Raised TypeError
  end.

(** [t.strftime('%Y-%m-%d %H:%M:%S')]: the text is made of these six
    wall-clock fields, the offset is not printed. *)
Inductive date_cell : Type :=
| DateNA
| DateText (y m d hh mm ss : Z).

Definition strftime (t : datetime) : date_cell :=
  DateText (year t) (month t) (day t) (hour t) (minute t) (second t).

(** *** [fromisoformat] *)

Definition digit_val (c : ascii) : option Z :=
  let n := nat_of_ascii c in
  if (48 <=? n) && (n <=? 57) then Some (Z.of_nat (n - 48)) else None.

Fixpoint parse_digits (cs : list ascii) (acc : Z) : option Z :=
  match cs with
  | [] => Some acc
  | c :: rest =>
      match digit_val c with
      | Some d => parse_digits rest (acc * 10 + d)%Z
      | None => None
      end
  end.

Definition is_char (c d : ascii) : bool := Ascii.eqb c d.

Definition parse_isoformat_date (cs : list ascii) : option (Z * Z * Z) :=
  match cs with
  | [y1; y2; y3; y4; s1; m1; m2; s2; d1; d2] =>
      if is_char s1 "-" && is_char s2 "-" then
        match parse_digits [y1; y2; y3; y4] 0, parse_digits [m1; m2] 0,
              parse_digits [d1; d2] 0 with
        | Some y, Some m, Some d => Some (y, m, d)
        | _, _, _ => None
        end
      else None
  | _ => None
  end.

Definition parse_fraction (cs : list ascii) : option Z :=
  match List.length cs with
  | 3 => option_map (fun n => n * 1000)%Z (parse_digits cs 0)
  | 6 => parse_digits cs 0
  | _ => None
  end.

(** [HH[:MM[:SS[.fff[fff]]]]] *)
Definition parse_hh_mm_ss_ff (cs : list ascii) : option (Z * Z * Z * Z) :=
  match cs with
  | [h1; h2] =>
      option_map (fun h => (h, 0, 0, 0)%Z) (parse_digits [h1; h2] 0)
  | [h1; h2; c1; m1; m2] =>
      if is_char c1 ":" then
        match parse_digits [h1; h2] 0, parse_digits [m1; m2] 0 with
        | Some h, Some m => Some (h, m, 0, 0)%Z
        | _, _ => None
        end
      else None
  | h1 :: h2 :: c1 :: m1 :: m2 :: c2 :: s1 :: s2 :: rest =>
      if is_char c1 ":" && is_char c2 ":" then
        match parse_digits [h1; h2] 0, parse_digits [m1; m2] 0,
              parse_digits [s1; s2] 0 with
        | Some h, Some m, Some s =>
            match rest with
            | [] => Some (h, m, s, 0%Z)
            | dot :: frac =>
                if is_char dot "." then
                  option_map (fun us => (h, m, s, us)) (parse_fraction frac)
                else None
            end
        | _, _, _ => None
        end
      else None
  | _ => None
  end.

(** The text before the first [c] and the text after it. *)
Fixpoint split_at_char (c : ascii) (cs : list ascii)
  : option (list ascii * list ascii) :=
  match cs with
  | [] => None
  | d :: rest =>
      if is_char d c then Some ([], rest)
      else
        match split_at_char c rest with
        | Some (before, after) => Some (d :: before, after)
        | None => None
        end
  end.

(** Where the offset starts: at the first ["-"], else at the first ["+"];
    the boolean is the sign being negative. *)
Definition split_offset (tstr : list ascii)
  : list ascii * option (bool * list ascii) :=
  match split_at_char "-" tstr with
  | Some (timestr, tzstr) => (timestr, Some (true, tzstr))
  | None =>
      match split_at_char "+" tstr with
      | Some (timestr, tzstr) => (timestr, Some (false, tzstr))
      | None => (tstr, None)
      end
  end.

Definition offset_length_ok (tzstr : list ascii) : bool :=
  let n := List.length tzstr in (n =? 5) || (n =? 8) || (n =? 15).

Definition parse_offset (negative : bool) (tzstr : list ascii) : option Z :=
  if offset_length_ok tzstr then
    match parse_hh_mm_ss_ff tzstr with
    | Some (h, m, s, us) =>
        let td := (((h * 60 + m) * 60 + s) * 1000000 + us)%Z in
        Some (if negative then (- td)%Z else td)
    | None => None
    end
  else None.

(** The time part with its offset: a text with no sign is naive, a text
    with a sign is aware or refused. *)
Definition parse_isoformat_time (tstr : list ascii)
  : option (Z * Z * Z * Z * option Z) :=
  if List.length tstr <? 2 then None
  else
    let '(timestr, tz) := split_offset tstr in
    match parse_hh_mm_ss_ff timestr with
    | Some (h, m, s, us) =>
        match tz with
        | None => Some (h, m, s, us, None)
        | Some (negative, tzstr) =>
            match parse_offset negative tzstr with
            | Some off => Some (h, m, s, us, Some off)
            | None => None
            end
        end
    | None => None
    end.

Definition fromisoformat (date_string : string) : outcome datetime :=
  let cs := list_ascii_of_string date_string in
  match parse_isoformat_date (firstn 10 cs) with
  | Some (y, m, d) =>
      match skipn 11 cs with
      | [] => make_datetime y m d 0 0 0 0 None
      | tstr =>
          match parse_isoformat_time tstr with
          | Some (hh, mm, ss, us, tz) => make_datetime y m d hh mm ss us tz
          | None => Raised ValueError
          end
      end
  | None => Raised ValueError
  end.

(** [s.replace('Z', '+00:00')]: every ["Z"] of the text is replaced. *)
Fixpoint replace_Z (s : string) : string :=
  match s with
  | EmptyString => EmptyString
  | String c rest =>
      if is_char c "Z" then String.append "+00:00" (replace_Z rest)
      else String c (replace_Z rest)
  end.

(** [v.replace('Z', '+00:00')] on a decoded value: only a string has the
    method. *)
Definition py_replace_Z (v : json) : outcome string :=
  match v with
  | JStr s => Done (replace_Z s)
  | _ => Raised AttributeError
  end.

(** [datetime.datetime(1, 1, 1, tzinfo=datetime.timezone.utc)] *)
Definition EPOCH_ONE : datetime := mkdt 1 1 1 0 0 0 0 (Some 0%Z).

(** ** The HTTP boundary *)

Inductive response : Type :=
| Page (records : list json)
| RequestException.

Definition endpoint : Type := nat -> response.

Definition records_of (r : response) : list json :=
  match r with
  | Page l => l
  | RequestException => []
  end.

(** The records of pages [first], ..., [first + count - 1], in fetch order. *)
Definition fetched (srv : endpoint) (first count : nat) : list json :=
  flat_map (fun p => records_of (srv p)) (seq first count).

Definition is_empty {A} (l : list A) : bool :=
  match l with [] => true | _ => false end.

(** *** The paginated event loop

    The four user-activity scripts repeat the same [while True] loop over
    the pages of [/users/:id/events]; they differ in the body of
    [for event in events:] and in the state it updates.  The loop is
    written once, over that body.  A [RequestException] is caught and
    breaks the loop; any other exception of the body leaves the function. *)

Definition EVENTS_PER_PAGE : nat := 100.
Definition USERS_PER_PAGE : nat := 100.

Section EventPages.

Context {St : Type}.
Variable body : json -> St -> outcome St.

Fixpoint event_pages (srv : endpoint) (fuel page : nat) (st : St) (log : list nat)
  : outcome (St * list nat) :=
  match fuel with
  | 0 => OutOfFuel
  | S fuel' =>
      let log' := log ++ [page] in
      match srv page with
      | RequestException => Done (st, log')
      | Page events =>
          if is_empty events then Done (st, log')
          else
            st' <- for_each body events st ;;
            if List.length events <? EVENTS_PER_PAGE then Done (st', log')
            else event_pages srv fuel' (S page) st' log'
      end
  end.

End EventPages.

(** *** The paginated user loop

    [get_all_users] of the four user-activity scripts: it breaks at an empty
    page only, and on a [RequestException] it returns [None], whatever was
    appended before.  The scripts differ in the body of [for user in users:]. *)

Section UserPages.

Context {Entry : Type}.
Variable body : json -> list Entry -> outcome (list Entry).

Fixpoint user_pages (srv : endpoint) (fuel page : nat) (all_users : list Entry)
    (log : list nat)
  : outcome (option (list Entry) * list nat) :=
  match fuel with
  | 0 => OutOfFuel
  | S fuel' =>
      let log' := log ++ [page] in
      match srv page with
      | RequestException => Done (None, log')
      | Page users =>
          if is_empty users then Done (Some all_users, log')
          else
            all_users' <- for_each body users all_users ;;
            user_pages srv fuel' (S page) all_users' log'
      end
  end.

End UserPages.

(** ** [get_projects.py] *)

Module GetProjects.

(** The body of [for project in projects:].  The loop runs inside the
    [try]; an exception of a record that is no dict is caught by
    [except Exception] and ends the whole fetch ([false]), the rows
    appended so far stay in the list. *)
Fixpoint scan_projects (projects : list json) (all_project_ids : list (json * json))
  : list (json * json) * bool :=
  match projects with
  | [] => (all_project_ids, true)
  | JDict d :: rest =>
      let project_id := match assoc "id" d with Some v => v | None => JNull end in
      let project_name :=
        match assoc "path_with_namespace" d with Some v => v | None => JNull end in
      scan_projects rest
        (if truthy project_id
         then all_project_ids ++ [(project_id, project_name)]
         else all_project_ids)
  | _ :: _ => (all_project_ids, false)
  end.

(** The [while True] loop; the second component is the log of the page
    numbers requested. *)
Fixpoint projects_loop (srv : endpoint) (fuel page : nat)
    (all_project_ids : list (json * json)) (log : list nat)
  : outcome (list (json * json) * list nat) :=
  match fuel with
  | 0 => OutOfFuel
  | S fuel' =>
      let log' := log ++ [page] in
      match srv page with
      | RequestException => Done (all_project_ids, log')
      | Page projects =>
          if is_empty projects then Done (all_project_ids, log')
          else
            let '(acc, ok) := scan_projects projects all_project_ids in
            if ok then projects_loop srv fuel' (S page) acc log'
            else Done (acc, log')
      end
  end.

Definition get_all_project_ids (srv : endpoint) (fuel : nat)
  : outcome (list (json * json) * list nat) :=
  projects_loop srv fuel 1 [] [].

End GetProjects.

(** ** Report helpers *)

(** [sorted(rows, key=..., reverse=True)].  Python's sort is stable, also
    with [reverse=True]: the result is the one arrangement in descending
    key order that keeps rows of equal key in their original order.
    Inserting from the right, each row before the first row whose key is
    not greater, computes that arrangement. *)
Section SortedReverse.

Context {R : Type}.
Variable key : R -> nat.

Fixpoint insert_desc (x : R) (rows : list R) : list R :=
  match rows with
  | [] => [x]
  | y :: rest =>
      if key y <=? key x then x :: y :: rest else y :: insert_desc x rest
  end.

Definition sorted_reverse (rows : list R) : list R :=
  fold_right insert_desc [] rows.

End SortedReverse.

(** [DataFrame.sort_values(by=column, ascending=False)] of pandas, called
    with the default [kind='quicksort'].  The library is not part of the
    repository: the scripts are modelled over any function of this type, and
    [sorts_descending] is what pandas documents for the default kind (the
    rows in descending order of the column; only [kind='mergesort'] and
    [kind='stable'] promise to keep the order of equal rows).  The order
    of the rows of equal count in a sheet is what the library makes of
    it: the model leaves it open. *)
Definition frame_sort : Type := forall R : Type, (R -> nat) -> list R -> list R.

Definition descending {R : Type} (key : R -> nat) (rows : list R) : Prop :=
  StronglySorted (fun a b => key b <= key a) rows.

Definition sorts_descending (sort_values : frame_sort) : Prop :=
  forall (R : Type) (key : R -> nat) (rows : list R),
    Permutation (sort_values R key rows) rows /\ descending key (sort_values R key rows).

(** A [dict] built by a script, in insertion order.  Keys are compared as
    Python compares them ([True == 1]); lists and dicts cannot be keys. *)
Definition hashable (k : json) : bool :=
  match k with
  | JList _ | JDict _ => false
  | _ => true
  end.

Definition key_eqb (a b : json) : bool :=
  match a, b with
  | JNull, JNull => true
  | JStr s, JStr t => String.eqb s t
  | JInt n, JInt m => Z.eqb n m
  | JBool x, JBool y => Bool.eqb x y
  | JBool x, JInt n => Z.eqb n (if x then 1 else 0)
  | JInt n, JBool x => Z.eqb n (if x then 1 else 0)
  | _, _ => false
  end.

Fixpoint dict_set {V : Type} (d : list (json * V)) (k : json) (v : V) : list (json * V) :=
  match d with
  | [] => [(k, v)]
  | (k', v') :: rest =>
      if key_eqb k' k then (k', v) :: rest else (k', v') :: dict_set rest k v
  end.

(** [d[k] = v] *)
Definition py_setitem {V : Type} (d : list (json * V)) (k : json) (v : V)
  : outcome (list (json * V)) :=
  if hashable k then Done (dict_set d k v) else Raised TypeError.

(** [f"{v:<20}"]: a width can be applied to a string or a number, on any
    other value the format specification raises [TypeError]. *)
Definition py_format_width (v : json) : outcome unit :=
  match v with
  | JStr _ | JInt _ | JBool _ => Done tt
  | _ => Raised TypeError
  end.

(** [v[:8]]: a string and a list can be sliced; a number, a boolean and
    [None] cannot be subscripted, and a dict takes no slice as a key
    ([TypeError] up to Python 3.11). *)
Definition py_slice8 (v : json) : outcome json :=
  match v with
  | JStr s => Done (JStr (String.substring 0 8 s))
  | JList l => Done (JList (firstn 8 l))
  | _ => Raised TypeError
  end.

(** ** The main block of [get_projects.py] *)

Module GetProjectsMain.

(** What the block prints: the configuration error, the listing with its
    total, or the line that no project could be retrieved. *)
Inductive console : Type :=
| ConfigurationError
| Retrieved (project_data : list (json * json)) (total : nat)
| CouldNotRetrieve.

(** Body of [for project_id, project_name in project_data:]; the id is
    formatted with a width. *)
Definition print_project (row : json * json) (_ : unit) : outcome unit :=
  py_format_width (fst row).

Definition main (configured : bool) (srv : endpoint) (fuel : nat) : outcome console :=
  if configured then
    r <- GetProjects.get_all_project_ids srv fuel ;;
    let project_data := fst r in
    if is_empty project_data then Done CouldNotRetrieve
    else
      _ <- for_each print_project project_data tt ;;
      Done (Retrieved project_data (List.length project_data))
  else Done ConfigurationError.

End GetProjectsMain.

(** ** [user_activity.py] *)

Module UserActivity.

Record user_entry : Type := { user_id : json; username : json }.

(** Body of [for user in users:] *)
Definition add_user (user : json) (all_users : list user_entry)
  : outcome (list user_entry) :=
  i <- py_get user "id" JNull ;;
  n <- py_get user "username" JNull ;;
  Done (all_users ++ [{| user_id := i; username := n |}]).

Definition get_all_users (srv : endpoint) (fuel : nat)
  : outcome (option (list user_entry) * list nat) :=
  user_pages add_user srv fuel 1 [] [].

(** Body of [for event in events:] *)
Definition count_event (event : json) (push_count : nat) : outcome nat :=
  a <- py_get event "action_name" JNull ;;
  Done (if eq_str a "pushed to" then S push_count else push_count).

Definition get_user_push_count (srv : endpoint) (fuel : nat)
  : outcome (nat * list nat) :=
  event_pages count_event srv fuel 1 0 [].

(** What the main block prints at the end: the table rows in print
    order and the two totals; [results] is the mapping it was built
    from. *)
Record report : Type := {
  results : list (json * nat);
  table : list (json * nat);
  unique_contributors : nat;
  total_pushes : nat
}.

(** Body of [for user in user_list:]; the state is
    [(results, total_pushes)]. *)
Definition visit_user (events_api : json -> endpoint) (fuel : nat)
    (user : user_entry) (st : list (json * nat) * nat)
  : outcome (list (json * nat) * nat) :=
  r <- get_user_push_count (events_api (user_id user)) fuel ;;
  let count := fst r in
  if 0 <? count then
    results' <- py_setitem (fst st) (username user) count ;;
    _ <- py_format_width (username user) ;;
    Done (results', snd st + count)
  else Done st.

(** The main block.  [configured] is [GITLAB_URL and PRIVATE_TOKEN];
    [None] is a run that reports nothing (no configuration, or a user
    list that is [None] or empty). *)
Definition main (configured : bool) (users_api : endpoint)
    (events_api : json -> endpoint) (fuel : nat) : outcome (option report) :=
  if configured then
    r <- get_all_users users_api fuel ;;
    match fst r with
    | None | Some [] => Done None
    | Some user_list =>
        st <- for_each (visit_user events_api fuel) user_list ([], 0) ;;
        Done (Some {| results := fst st;
                      table := sorted_reverse snd (fst st);
                      unique_contributors := List.length (fst st);
                      total_pushes := snd st |})
    end
  else Done None.

End UserActivity.

(** ** [user_activity_commit.py] *)

Module UserActivityCommit.

(** [get_all_users] has the text of [user_activity.py]. *)
Definition get_all_users := UserActivity.get_all_users.

(** One row of the sheet "Detailed Activity" *)
Record event_data : Type := {
  Username : json;
  Activity_Name : json;
  Project_Name : json;
  Project_Path : json;
  Commit_Count : json;
  Pushed_To_Branch : json;
  Event_Date : json
}.

(** Body of [for event in events:] *)
Definition push_event (username : json) (event : json) (all_events : list event_data)
  : outcome (list event_data) :=
  a <- py_get event "action_name" JNull ;;
  if eq_str a "pushed to" then
    push_data <- py_get event "push_data" (JDict []) ;;
    activity <- py_get push_data "action" a ;;
    project_id <- py_get event "project_id" JNull ;;
    project_path <- py_get event "project_path" JNull ;;
    commit_count <- py_get push_data "commit_count" JNull ;;
    ref <- py_get push_data "ref" JNull ;;
    created_at <- py_get event "created_at" JNull ;;
    Done (all_events ++
          [{| Username := username;
              Activity_Name := activity;
              Project_Name := project_id;
              Project_Path := project_path;
              Commit_Count := commit_count;
              Pushed_To_Branch := ref;
              Event_Date := created_at |}])
  else Done all_events.

Definition get_user_push_events (srv : endpoint) (fuel : nat) (username : json)
  : outcome (list event_data * list nat) :=
  event_pages (push_event username) srv fuel 1 [] [].

(** The two sheets written by [save_to_excel] *)
Record workbook : Type := {
  Summary : list (json * nat);
  Detailed_Activity : list event_data
}.

(** The body of [save_to_excel] runs inside [try]: the frames, the sort
    and the writer are all calls of pandas.  [export_ok] tells whether they
    go through; when one of them raises, [except Exception] prints the
    error and no workbook is written. *)
Definition save_to_excel (sort_values : frame_sort) (export_ok : bool)
    (summary_data : list (json * nat)) (detailed_data : list event_data)
  : option workbook :=
  if export_ok
  then Some {| Summary := sort_values _ snd summary_data;
               Detailed_Activity := detailed_data |}
  else None.

Record report : Type := {
  summary_results : list (json * nat);
  table : list (json * nat);
  unique_contributors : nat;
  total_pushes : nat;
  spreadsheet : option workbook
}.

(** The state of the main loop *)
Record totals : Type := {
  acc_summary : list (json * nat);
  acc_detailed : list event_data;
  acc_pushes : nat
}.

(** Body of [for user in user_list:] *)
Definition visit_user (events_api : json -> endpoint) (fuel : nat)
    (user : UserActivity.user_entry) (st : totals) : outcome totals :=
  r <- get_user_push_events (events_api (UserActivity.user_id user)) fuel
         (UserActivity.username user) ;;
  let events := fst r in
  let count := List.length events in
  if 0 <? count then
    _ <- py_format_width (UserActivity.username user) ;;
    Done {| acc_summary := acc_summary st ++ [(UserActivity.username user, count)];
            acc_detailed := acc_detailed st ++ events;
            acc_pushes := acc_pushes st + count |}
  else Done st.

Definition main (sort_values : frame_sort) (export_ok : bool) (configured : bool)
    (users_api : endpoint) (events_api : json -> endpoint) (fuel : nat)
  : outcome (option report) :=
  if configured then
    r <- get_all_users users_api fuel ;;
    match fst r with
    | None | Some [] => Done None
    | Some user_list =>
        st <- for_each (visit_user events_api fuel) user_list
                {| acc_summary := []; acc_detailed := []; acc_pushes := 0 |} ;;
        Done (Some {| summary_results := acc_summary st;
                      table := sorted_reverse snd (acc_summary st);
                      unique_contributors := List.length (acc_summary st);
                      total_pushes := acc_pushes st;
                      spreadsheet :=
                        if is_empty (acc_detailed st) then None
                        else save_to_excel sort_values export_ok (acc_summary st)
                               (acc_detailed st) |})
    end
  else Done None.

End UserActivityCommit.

(** ** [user_activity_last_commit.py] *)

Module UserActivityLastCommit.

Definition get_all_users := UserActivity.get_all_users.

(** The three variables the event loop updates *)
Record push_state : Type := {
  push_count : nat;
  last_push_datetime : datetime;
  last_push_commit_sha : json
}.

Definition initial_state : push_state :=
  {| push_count := 0;
     last_push_datetime := EPOCH_ONE;
     last_push_commit_sha := JStr "N/A" |}.

(** Body of [for event in events:] *)
Definition scan_event (event : json) (st : push_state) : outcome push_state :=
  a <- py_get event "action_name" JNull ;;
  if eq_str a "pushed to" then
    created_at <- py_index event "created_at" ;;
    text <- py_replace_Z created_at ;;
    current_event_datetime <- fromisoformat text ;;
    newer <- dt_gt current_event_datetime (last_push_datetime st) ;;
    if newer then
      push_data <- py_get event "push_data" (JDict []) ;;
      sha <- py_get push_data "commit_to" (JStr "N/A") ;;
      Done {| push_count := S (push_count st);
              last_push_datetime := current_event_datetime;
              last_push_commit_sha := sha |}
    else
      Done {| push_count := S (push_count st);
              last_push_datetime := last_push_datetime st;
              last_push_commit_sha := last_push_commit_sha st |}
  else Done st.

(** The tuple [(push_count, formatted_date, last_push_commit_sha)] *)
Definition summary_of (st : push_state) : nat * date_cell * json :=
  (push_count st,
   if 0 <? push_count st then strftime (last_push_datetime st) else DateNA,
   last_push_commit_sha st).

Definition get_user_push_count (srv : endpoint) (fuel : nat)
  : outcome ((nat * date_cell * json) * list nat) :=
  r <- event_pages scan_event srv fuel 1 initial_state [] ;;
  Done (summary_of (fst r), snd r).

(** A value of [results_details] *)
Record details : Type := {
  count : nat;
  last_date : date_cell;
  last_commit : json
}.

(** The rows written to the sheet, in order.  The body of [save_to_xlsx]
    runs inside [try]: [export_ok] tells whether the calls of pandas go
    through; when one of them raises, [except Exception] prints the error
    and no sheet is written. *)
Definition save_to_xlsx (sort_values : frame_sort) (export_ok : bool)
    (results_data : list (json * details)) : option (list (json * details)) :=
  if export_ok
  then Some (sort_values _ (fun row => count (snd row)) results_data)
  else None.

(** What the main block prints and writes: the mapping, the table rows in
    print order, the two totals, and the sheet when one is written. *)
Record report : Type := {
  results_details : list (json * details);
  table : list (json * details);
  unique_contributors : nat;
  total_pushes : nat;
  spreadsheet : option (list (json * details))
}.

(** Body of [for user in user_list:]; the state is
    [(results_details, total_pushes)].  The progress line formats the
    username with a width and slices the commit. *)
Definition visit_user (events_api : json -> endpoint) (fuel : nat)
    (user : UserActivity.user_entry) (st : list (json * details) * nat)
  : outcome (list (json * details) * nat) :=
  r <- get_user_push_count (events_api (UserActivity.user_id user)) fuel ;;
  let n := fst (fst (fst r)) in
  let date := snd (fst (fst r)) in
  let sha := snd (fst r) in
  if 0 <? n then
    results' <- py_setitem (fst st) (UserActivity.username user)
                  {| count := n; last_date := date; last_commit := sha |} ;;
    _ <- py_format_width (UserActivity.username user) ;;
    _ <- py_slice8 sha ;;
    Done (results', snd st + n)
  else Done st.

(** Body of [for username, data in sorted_results:], one line of the
    table: the username and the sliced commit are formatted with a width. *)
Definition print_row (row : json * details) (_ : unit) : outcome unit :=
  _ <- py_format_width (fst row) ;;
  short <- py_slice8 (last_commit (snd row)) ;;
  py_format_width short.

Definition main (sort_values : frame_sort) (export_ok : bool) (configured : bool)
    (users_api : endpoint) (events_api : json -> endpoint) (fuel : nat)
  : outcome (option report) :=
  if configured then
    r <- get_all_users users_api fuel ;;
    match fst r with
    | None | Some [] => Done None
    | Some user_list =>
        st <- for_each (visit_user events_api fuel) user_list ([], 0) ;;
        let sorted_results := sorted_reverse (fun row => count (snd row)) (fst st) in
        _ <- for_each print_row sorted_results tt ;;
        Done (Some {| results_details := fst st;
                      table := sorted_results;
                      unique_contributors := List.length (fst st);
                      total_pushes := snd st;
                      spreadsheet :=
                        if is_empty (fst st) then None
                        else save_to_xlsx sort_values export_ok (fst st) |})
    end
  else Done None.

End UserActivityLastCommit.

(** ** [user_activity_last_commit_by_email.py] *)

Definition lower_char (c : ascii) : ascii :=
  let n := nat_of_ascii c in
  if (65 <=? n) && (n <=? 90) then ascii_of_nat (n + 32) else c.

(** [s.lower()] on a text of ASCII characters: the letters [A] to [Z]
    are folded, every other character is kept.  Python folds by the
    Unicode rules; the two agree on ASCII texts, and only there: the
    properties that depend on the folded text are stated for ASCII
    texts ([is_ascii] below). *)
Fixpoint lower (s : string) : string :=
  match s with
  | EmptyString => EmptyString
  | String c rest => String (lower_char c) (lower rest)
  end.

(** [v.lower()] on a decoded value: only a string has the method. *)
Definition py_lower (v : json) : outcome string :=
  match v with
  | JStr s => Done (lower s)
  | _ => Raised AttributeError
  end.

(** [needle in hay] for two strings *)
Fixpoint contains (needle hay : string) : bool :=
  String.prefix needle hay
  || match hay with
     | EmptyString => false
     | String _ rest => contains needle rest
     end.

Module UserActivityLastCommitByEmail.

Definition EMAIL_FILTER_SUBSTRING : string := "kestrl".

Record user_entry : Type := { user_id : json; username : json; email : json }.

(** Body of [for user in users:], over the filter constant *)
Definition add_matching_user (email_filter : string) (user : json)
    (all_users : list user_entry) : outcome (list user_entry) :=
  user_email <- py_get user "email" (JStr "") ;;
  lowered <- py_lower user_email ;;
  if contains (lower email_filter) lowered then
    i <- py_get user "id" JNull ;;
    n <- py_get user "username" JNull ;;
    Done (all_users ++ [{| user_id := i; username := n; email := user_email |}])
  else Done all_users.

Definition get_all_users_matching (email_filter : string) (srv : endpoint) (fuel : nat)
  : outcome (option (list user_entry) * list nat) :=
  user_pages (add_matching_user email_filter) srv fuel 1 [] [].

Definition get_all_users : endpoint -> nat -> outcome (option (list user_entry) * list nat) :=
  get_all_users_matching EMAIL_FILTER_SUBSTRING.

(** [get_user_push_count] has the text of [user_activity_last_commit.py]. *)
Definition get_user_push_count := UserActivityLastCommit.get_user_push_count.

End UserActivityLastCommitByEmail.

(** ** Vocabulary of the properties

    The predicates in which the properties below are stated, and the
    pages, events and users of their examples. *)

(** A page after which the event loop asks for the next one. *)
Definition full_page (r : response) : bool :=
  match r with
  | Page l => EVENTS_PER_PAGE <=? List.length l
  | RequestException => false
  end.

(** A page that came back, empty or shorter than the page size. *)
Definition short_page (r : response) : bool :=
  match r with
  | Page l => List.length l <? EVENTS_PER_PAGE
  | RequestException => false
  end.

(** A page that came back with a record in it. *)
Definition nonempty_page (r : response) : bool :=
  match r with
  | Page l => negb (is_empty l)
  | RequestException => false
  end.

Definition is_dict (v : json) : bool :=
  match v with
  | JDict _ => true
  | _ => false
  end.

(** An event that is a push, and a project record, for the examples. *)
Definition push_at (created_at commit : string) : json :=
  JDict [("action_name", JStr "pushed to");
         ("created_at", JStr created_at);
         ("push_data", JDict [("commit_to", JStr commit)])]%string.

Definition sample_push : json := push_at "2024-03-01T10:00:00.000Z" "c0ffee".

(** Page 1 is full, page 2 holds one record, page 3 two, page 4 none. *)
Definition four_pages : endpoint :=
  fun page =>
    match page with
    | 1 => Page (repeat sample_push 100)
    | 2 => Page [sample_push]
    | 3 => Page [sample_push; sample_push]
    | _ => Page []
    end.

(** [v.get(k)] of a dict, [None] for anything else. *)
Definition field (k : string) (v : json) : json :=
  match v with
  | JDict d => match assoc k d with Some x => x | None => JNull end
  | _ => JNull
  end.

(** The events the specification calls relevant. *)
Definition relevant (event : json) : bool :=
  eq_str (field "action_name" event) "pushed to".

Definition count_relevant (events : list json) : nat :=
  List.length (filter relevant events).

Definition merge_request_event : json :=
  JDict [("action_name", JStr "opened");
         ("created_at", JStr "2024-03-02T08:00:00.000Z")]%string.

(** The entry [get_all_users] appends for a user record. *)
Definition entry_of (user : json) : UserActivity.user_entry :=
  {| UserActivity.user_id := field "id" user;
     UserActivity.username := field "username" user |}.

Definition alice : json :=
  JDict [("id", JInt 1); ("username", JStr "alice");
         ("email", JStr "Alice@Kestrl.io")]%string.

Definition bob : json :=
  JDict [("id", JInt 2); ("username", JStr "bob")]%string.

Definition fails_on_page_2 : endpoint :=
  fun page =>
    match page with
    | 1 => Page [alice; bob]
    | _ => RequestException
    end.

Definition fails_after_full_page : endpoint :=
  fun page =>
    match page with
    | 1 => Page (repeat sample_push 100)
    | _ => RequestException
    end.

(** The datetime [created_at] of an event parses to, its UTC instant in
    microseconds when it carries an offset, and its [push_data.commit_to]
    with the default of the script. *)
Definition event_datetime (event : json) : option datetime :=
  match field "created_at" event with
  | JStr s =>
      match fromisoformat (replace_Z s) with
      | Done t => Some t
      | _ => None
      end
  | _ => None
  end.

Definition utc_instant (t : datetime) : option Z :=
  option_map (fun off => local_us t - off)%Z (utcoffset t).

Definition event_time (event : json) : option Z :=
  match event_datetime event with
  | Some t => utc_instant t
  | None => None
  end.

Definition commit_to (event : json) : json :=
  match event with
  | JDict d =>
      match (match assoc "push_data" d with Some v => v | None => JDict [] end) with
      | JDict push_data =>
          match assoc "commit_to" push_data with
          | Some sha => sha
          | None => JStr "N/A"
          end
      | _ => JNull
      end
  | _ => JNull
  end.

(** The instant of the initial [last_push_datetime]. *)
Definition epoch_one_us : Z := local_us EPOCH_ONE.

(** [e] is the first of the events of [events] with the greatest instant,
    which is [t]. *)
Definition first_latest (events : list json) (e : json) (t : Z) : Prop :=
  exists before after,
    events = before ++ e :: after
    /\ event_time e = Some t
    /\ (forall x, In x before -> exists tx, event_time x = Some tx /\ (tx < t)%Z)
    /\ (forall x, In x after -> exists tx, event_time x = Some tx /\ (tx <= t)%Z).

(** Three pushes of one user on one page, in the order [T1, T3, T2]. *)
Definition three_pushes : endpoint :=
  fun page =>
    match page with
    | 1 => Page [push_at "2024-03-01T10:00:00.000Z" "c1";
                 push_at "2024-03-03T10:00:00.000Z" "c3";
                 push_at "2024-03-02T10:00:00.000Z" "c2"]
    | _ => Page []
    end.

Definition is_Z (c : ascii) : bool := is_char c "Z".

Definition is_sign (c : ascii) : bool := is_char c "+" || is_char c "-".

(** A timestamp that carries its zone: after the date and the separator
    (eleven characters without a ["Z"]) the text has a ["Z"] or a signed
    offset. *)
Definition zoned (s : string) : bool :=
  let cs := list_ascii_of_string s in
  negb (existsb is_Z (firstn 11 cs))
  && existsb (fun c => is_Z c || is_sign c) (skipn 11 cs).

Definition is_digit (c : ascii) : bool :=
  match digit_val c with
  | Some _ => true
  | None => false
  end.

(** The format of [created_at] in the answers of the events API:
    [YYYY-MM-DDTHH:MM:SS.mmmZ]. *)
Definition api_timestamp (s : string) : bool :=
  match list_ascii_of_string s with
  | [y1; y2; y3; y4; a; m1; m2; b; d1; d2; t; h1; h2; c; n1; n2; e; s1; s2; f;
     u1; u2; u3; z] =>
      forallb is_digit [y1; y2; y3; y4; m1; m2; d1; d2; h1; h2; n1; n2; s1; s2; u1; u2; u3]
      && is_char a "-" && is_char b "-" && is_char t "T"
      && is_char c ":" && is_char e ":" && is_char f "." && is_char z "Z"
  | _ => false
  end.

(** The number a decimal digit stands for, and the number a text of
    digits stands for *)
Definition digit_of (c : ascii) : Z := Z.of_nat (nat_of_ascii c - 48).

Definition num (cs : list ascii) : Z :=
  fold_left (fun acc c => acc * 10 + digit_of c)%Z cs 0%Z.

(** The datetime a timestamp of the events API denotes: the fields of
    [YYYY-MM-DDTHH:MM:SS.mmmZ] read at their places, the milliseconds as
    microseconds, at the offset zero of UTC. *)
Definition api_datetime (s : string) : option datetime :=
  match list_ascii_of_string s with
  | [y1; y2; y3; y4; _; m1; m2; _; d1; d2; _; h1; h2; _; n1; n2; _; s1; s2; _;
     u1; u2; u3; _] =>
      Some (mkdt (num [y1; y2; y3; y4]) (num [m1; m2]) (num [d1; d2])
              (num [h1; h2]) (num [n1; n2]) (num [s1; s2])
              (num [u1; u2; u3] * 1000) (Some 0%Z))
  | _ => None
  end.

(** The fields name a day of the calendar and a time of the day, and the
    offset is within a day: what the constructor of [datetime] asks. *)
Definition valid_datetime (t : datetime) : bool :=
  ((1 <=? year t) && (year t <=? 9999) && (1 <=? month t) && (month t <=? 12)
   && (1 <=? day t) && (day t <=? days_in_month (year t) (month t))
   && (0 <=? hour t) && (hour t <=? 23) && (0 <=? minute t) && (minute t <=? 59)
   && (0 <=? second t) && (second t <=? 59)
   && (0 <=? microsecond t) && (microsecond t <=? 999999)
   && match utcoffset t with
      | Some off => (- day_us <? off) && (off <? day_us)
      | None => true
      end)%Z.

(** [replace_Z] character by character *)
Definition expand_Z (c : ascii) : list ascii :=
  if is_char c "Z" then list_ascii_of_string "+00:00" else [c].

(** The running maximum is aware. *)
Definition aware (st : UserActivityLastCommit.push_state) : Prop :=
  utcoffset (UserActivityLastCommit.last_push_datetime st) <> None.

Definition zoned_created_at (event : json) : Prop :=
  forall s, field "created_at" event = JStr s -> zoned s = true.

(** An event whose [push_data] is absent or a dict. *)
Definition push_data_ok (event : json) : bool :=
  match event with
  | JDict d =>
      match assoc "push_data" d with
      | None | Some (JDict _) => true
      | Some _ => false
      end
  | _ => false
  end.

(** The [created_at] of an event is a timestamp of the events API that
    names a real day and time. *)
Definition api_created_at (event : json) : bool :=
  match field "created_at" event with
  | JStr s =>
      api_timestamp s
      && match api_datetime s with
         | Some t => valid_datetime t
         | None => false
         end
  | _ => false
  end.

(** An event as the events API sends it: a dict; a push has a
    [push_data] that is absent or a dict and a [created_at] in the format
    of the API. *)
Definition api_event (event : json) : bool :=
  is_dict event
  && (negb (relevant event) || (push_data_ok event && api_created_at event)).

(** The state of the last-push reducer after one more push at the UTC
    datetime [t]: the push is kept as the latest when its instant is later
    than the instant [t0] of the running maximum. *)
Definition pushed_at (t : datetime) (sha : json) (t0 : Z)
    (st : UserActivityLastCommit.push_state) : UserActivityLastCommit.push_state :=
  if (t0 <? local_us t)%Z
  then {| UserActivityLastCommit.push_count := S (UserActivityLastCommit.push_count st);
          UserActivityLastCommit.last_push_datetime := t;
          UserActivityLastCommit.last_push_commit_sha := sha |}
  else {| UserActivityLastCommit.push_count := S (UserActivityLastCommit.push_count st);
          UserActivityLastCommit.last_push_datetime :=
            UserActivityLastCommit.last_push_datetime st;
          UserActivityLastCommit.last_push_commit_sha :=
            UserActivityLastCommit.last_push_commit_sha st |}.

Definition one_page (events : list json) : endpoint :=
  fun page =>
    match page with
    | 1 => Page events
    | _ => Page []
    end.

Definition push_without_created_at : json :=
  JDict [("action_name", JStr "pushed to");
         ("push_data", JDict [("commit_to", JStr "c0ffee")])]%string.

Definition push_without_push_data : json :=
  JDict [("action_name", JStr "pushed to");
         ("created_at", JStr "2024-03-01T10:00:00.000Z")]%string.

Definition push_without_commit_to : json :=
  JDict [("action_name", JStr "pushed to");
         ("created_at", JStr "2024-03-01T10:00:00.000Z");
         ("push_data", JDict [("ref", JStr "main")])]%string.

(** A text of ASCII characters only, what [str.isascii()] tests *)
Fixpoint is_ascii (s : string) : bool :=
  match s with
  | EmptyString => true
  | String c rest => (nat_of_ascii c <? 128) && is_ascii rest
  end.

(** [needle] occurs in [hay] when letter case is ignored; read for ASCII
    texts, as [lower] is. *)
Definition ci_substring (needle hay : string) : Prop :=
  exists pre mid post,
    hay = String.append pre (String.append mid post) /\ lower mid = lower needle.

(** The email the loader tests: the field when it is a string, the empty
    string when the field is absent. *)
Definition email_text (user : json) : option string :=
  match user with
  | JDict d =>
      match assoc "email" d with
      | Some (JStr s) => Some s
      | Some _ => None
      | None => Some EmptyString
      end
  | _ => None
  end.

Definition keeps (email_filter : string) (user : json) : bool :=
  match email_text user with
  | Some s => contains (lower email_filter) (lower s)
  | None => false
  end.

(** A user record whose email is absent or an ASCII text *)
Definition ascii_email (user : json) : bool :=
  match email_text user with
  | Some s => is_ascii s
  | None => false
  end.

Definition matching_entry (user : json) : UserActivityLastCommitByEmail.user_entry :=
  {| UserActivityLastCommitByEmail.user_id := field "id" user;
     UserActivityLastCommitByEmail.username := field "username" user;
     UserActivityLastCommitByEmail.email :=
       match email_text user with Some s => JStr s | None => JNull end |}.

Definition carol : json :=
  JDict [("id", JInt 3); ("username", JStr "carol");
         ("email", JStr "carol@example.org")]%string.

(** One function of the type [frame_sort] that meets [sorts_descending],
    to run the main blocks on examples: the rows are reversed, then
    sorted.  It stands for no behaviour of pandas. *)
Definition tie_reversing_sort : frame_sort :=
  fun R key rows => sorted_reverse key (rev rows).

(** The mapping [{A: 5, B: 5, C: 3}], [A] added before [B]. *)
Definition abc_counts : list (json * nat) :=
  [(JStr "A", 5); (JStr "B", 5); (JStr "C", 3)].

(** No two users of the list have usernames that are equal as keys of a
    [dict]. *)
Definition distinct_usernames (users : list UserActivity.user_entry) : Prop :=
  ForallOrdPairs
    (fun a b => key_eqb (UserActivity.username a) (UserActivity.username b) = false)
    users.

(** The rows of the users with a positive count, in the order of the
    users. *)
Definition contributors (users : list UserActivity.user_entry) (counts : list nat)
  : list (json * nat) :=
  map (fun uc => (UserActivity.username (fst uc), snd uc))
    (filter (fun uc => 0 <? snd uc) (combine users counts)).

(** The count the counting reducer returns for a user. *)
Definition counted (events_api : json -> endpoint) (fuel : nat)
    (user : UserActivity.user_entry) (c : nat) : Prop :=
  exists log,
    UserActivity.get_user_push_count (events_api (UserActivity.user_id user)) fuel
    = Done (c, log).

(** The number of rows the detailed reducer returns for a user. *)
Definition collected (events_api : json -> endpoint) (fuel : nat)
    (user : UserActivity.user_entry) (c : nat) : Prop :=
  exists rows log,
    UserActivityCommit.get_user_push_events (events_api (UserActivity.user_id user)) fuel
      (UserActivity.username user) = Done (rows, log)
    /\ c = List.length rows.

(** Three users: [A] pushed twice, [B] never, [C] has five events of
    which three are pushes. *)
Definition user_record (id : Z) (name : string) : json :=
  JDict [("id", JInt id); ("username", JStr name)]%string.

Definition three_users : endpoint :=
  one_page [user_record 1 "A"; user_record 2 "B"; user_record 3 "C"].

Definition three_users_events (id : json) : endpoint :=
  match id with
  | JInt 1 => one_page [push_at "2024-03-01T10:00:00.000Z" "c1";
                        push_at "2024-03-02T10:00:00.000Z" "c2"]
  | JInt 3 => one_page [sample_push; merge_request_event; sample_push;
                        merge_request_event; sample_push]
  | _ => one_page []
  end.

Definition three_users_report : UserActivity.report :=
  {| UserActivity.results := [(JStr "A", 2); (JStr "C", 3)];
     UserActivity.table := [(JStr "C", 3); (JStr "A", 2)];
     UserActivity.unique_contributors := 2;
     UserActivity.total_pushes := 5 |}.

(** Two records of one username, both with pushes. *)
Definition namesakes : endpoint :=
  one_page [user_record 1 "A"; user_record 3 "A"].

(** *** Vocabulary of the further properties *)

(** The row the project fetcher appends for a record, and the test under
    which it appends it. *)
Definition project_row (project : json) : json * json :=
  (field "id" project, field "path_with_namespace" project).

Definition has_id (project : json) : bool := truthy (field "id" project).

(** [event.get('push_data', {}).get(k, default)] when [push_data_ok] *)
Definition push_field (k : string) (default : json) (event : json) : json :=
  match field "push_data" event with
  | JDict push_data =>
      match assoc k push_data with
      | Some v => v
      | None => default
      end
  | _ => default
  end.

(** The row of the sheet "Detailed Activity" for a relevant event *)
Definition row_of (username : json) (event : json) : UserActivityCommit.event_data :=
  {| UserActivityCommit.Username := username;
     UserActivityCommit.Activity_Name :=
       push_field "action" (field "action_name" event) event;
     UserActivityCommit.Project_Name := field "project_id" event;
     UserActivityCommit.Project_Path := field "project_path" event;
     UserActivityCommit.Commit_Count := push_field "commit_count" JNull event;
     UserActivityCommit.Pushed_To_Branch := push_field "ref" JNull event;
     UserActivityCommit.Event_Date := field "created_at" event |}.


(** An entry of the loader of [user_activity_last_commit_by_email.py]
    without its email *)
Definition forget_email (entry : UserActivityLastCommitByEmail.user_entry)
  : UserActivity.user_entry :=
  {| UserActivity.user_id := UserActivityLastCommitByEmail.user_id entry;
     UserActivity.username := UserActivityLastCommitByEmail.username entry |}.

(** A row of the last-push report with pushes, a date and a commit text *)
Definition dated_row (row : json * UserActivityLastCommit.details) : Prop :=
  0 < UserActivityLastCommit.count (snd row)
  /\ UserActivityLastCommit.last_date (snd row) <> DateNA
  /\ exists s, UserActivityLastCommit.last_commit (snd row) = JStr s.

(** The count the last-push reducer returns for a user *)
Definition counted_last (events_api : json -> endpoint) (fuel : nat)
    (user : UserActivity.user_entry) (c : nat) : Prop :=
  exists date sha log,
    UserActivityLastCommit.get_user_push_count
      (events_api (UserActivity.user_id user)) fuel = Done (c, date, sha, log).

(** Sample records of the further properties *)
Definition project_record (id : json) (path : string) : json :=
  JDict [("id", id); ("path_with_namespace", JStr path)]%string.

Definition two_project_pages : endpoint :=
  fun page =>
    match page with
    | 1 => Page [project_record (JInt 7) "team/api"; project_record JNull "team/ghost"]
    | 2 => Page [project_record (JInt 0) "team/zero"; project_record (JInt 9) "team/web"]
    | _ => Page []
    end.

Definition broken_project_page : endpoint :=
  fun page =>
    match page with
    | 1 => Page [project_record (JInt 7) "team/api"]
    | 2 => Page [project_record (JInt 9) "team/web"; JStr "oops";
                 project_record (JInt 11) "team/late"]
    | _ => Page [project_record (JInt 13) "team/never"]
    end.

Definition dave : json :=
  JDict [("id", JInt 4); ("username", JStr "dave"); ("email", JNull)]%string.


(** The requests of a run: the pages [1], [2], ... up to the last one,
    each once, and no more of them than the fuel. *)
Definition requested_in_order (fuel : nat) (log : list nat) : Prop :=
  log = seq 1 (List.length log) /\ 1 <= List.length log <= fuel.

(** * Properties *)

(** ** The outcome monad and the loops *)

Lemma bind_Done_r {A} (m : outcome A) : bind m Done = m.
Proof. destruct m; reflexivity. Qed.

Lemma bind_assoc {A B C} (m : outcome A) (f : A -> outcome B) (g : B -> outcome C) :
  bind (bind m f) g = bind m (fun a => bind (f a) g).
Proof. destruct m; reflexivity. Qed.

Lemma for_each_app {A St} (body : A -> St -> outcome St) (xs ys : list A) (st : St) :
  for_each body (xs ++ ys) st = st' <- for_each body xs st ;; for_each body ys st'.
Proof.
  revert st; induction xs as [|x xs IH]; intros st; simpl.
  - reflexivity.
  - destruct (body x st) as [st'| |]; simpl; auto.
Qed.

Lemma fetched_snoc (srv : endpoint) (first count : nat) :
  fetched srv first (S count) = fetched srv first count ++ records_of (srv (first + count)).
Proof.
  unfold fetched. rewrite seq_S, flat_map_app. simpl. now rewrite app_nil_r.
Qed.

Lemma fetched_cons (srv : endpoint) (first count : nat) :
  fetched srv first (S count) = records_of (srv first) ++ fetched srv (S first) count.
Proof. reflexivity. Qed.

Lemma fetched_one (srv : endpoint) (page : nat) :
  fetched srv page 1 = records_of (srv page).
Proof. unfold fetched. simpl. apply app_nil_r. Qed.

(** *** Kinds of pages *)

Lemma full_page_inv (r : response) :
  full_page r = true ->
  exists e l, r = Page (e :: l) /\ (List.length (e :: l) <? EVENTS_PER_PAGE) = false.
Proof.
  destruct r as [l|]; unfold full_page; [|discriminate].
  intros H. apply Nat.leb_le in H.
  destruct l as [|e l].
  - unfold EVENTS_PER_PAGE in H. cbn [List.length] in H. lia.
  - exists e, l. split; [reflexivity|]. apply Nat.ltb_ge. exact H.
Qed.

Lemma nonempty_page_inv (r : response) :
  nonempty_page r = true -> exists e l, r = Page (e :: l).
Proof. destruct r as [[|e l]|]; cbn; try discriminate. eauto. Qed.

(** The last page of a run of the event loop adds its records (none when
    the request failed or the page is empty) and ends the loop. *)
Lemma event_pages_last {St} (body : json -> St -> outcome St) (srv : endpoint)
    (fuel page : nat) (st : St) (log : list nat) :
  full_page (srv page) = false ->
  event_pages body srv (S fuel) page st log =
    st' <- for_each body (records_of (srv page)) st ;; Done (st', log ++ [page]).
Proof.
  intros Hstop. cbn [event_pages].
  destruct (srv page) as [l|]; cbn [records_of]; [|reflexivity].
  destruct l as [|e l]; [reflexivity|]. cbn [is_empty].
  destruct (for_each body (e :: l) st) as [s1| |]; cbn [bind]; try reflexivity.
  unfold full_page in Hstop. apply Nat.leb_gt in Hstop.
  now rewrite (proj2 (Nat.ltb_lt _ _) Hstop).
Qed.

(** A run of the event loop: [k] full pages, then a page that is not full.
    The body has run over the records of these [k + 1] pages in order, and
    these pages are the ones that were requested. *)
Lemma event_pages_run {St} (body : json -> St -> outcome St) (srv : endpoint) (k : nat) :
  forall (page fuel : nat) (st : St) (log : list nat),
    (forall i, i < k -> full_page (srv (page + i)) = true) ->
    full_page (srv (page + k)) = false ->
    k < fuel ->
    event_pages body srv fuel page st log =
      st' <- for_each body (fetched srv page (S k)) st ;;
      Done (st', log ++ seq page (S k)).
Proof.
  induction k as [|k IH]; intros page fuel st log Hfull Hstop Hfuel.
  - destruct fuel as [|fuel]; [lia|].
    rewrite Nat.add_0_r in Hstop.
    rewrite event_pages_last by assumption.
    now rewrite fetched_one.
  - destruct fuel as [|fuel]; [lia|].
    assert (H0 : full_page (srv page) = true).
    { specialize (Hfull 0). rewrite Nat.add_0_r in Hfull. apply Hfull. lia. }
    destruct (full_page_inv _ H0) as (e & l & Hpage & Hlen).
    rewrite fetched_cons, for_each_app, Hpage.
    cbn [event_pages]. rewrite Hpage. cbn [is_empty records_of].
    rewrite bind_assoc.
    destruct (for_each body (e :: l) st) as [s1| |]; cbn [bind]; try reflexivity.
    rewrite Hlen.
    rewrite (IH (S page) fuel s1 (log ++ [page])).
    + destruct (for_each body (fetched srv (S page) (S k)) s1); cbn [bind]; try reflexivity.
      rewrite <- app_assoc. reflexivity.
    + intros i Hi. replace (S page + i) with (page + S i) by lia. apply Hfull. lia.
    + replace (S page + k) with (page + S k) by lia. exact Hstop.
    + lia.
Qed.

(** *** The project loop *)

Lemma scan_projects_app (xs ys : list json) (acc : list (json * json)) :
  GetProjects.scan_projects (xs ++ ys) acc =
    (if snd (GetProjects.scan_projects xs acc)
     then GetProjects.scan_projects ys (fst (GetProjects.scan_projects xs acc))
     else GetProjects.scan_projects xs acc).
Proof.
  revert acc; induction xs as [|x xs IH]; intros acc.
  - reflexivity.
  - destruct x; try reflexivity. simpl. apply IH.
Qed.

Lemma scan_projects_dicts (xs : list json) (acc : list (json * json)) :
  forallb is_dict xs = true -> snd (GetProjects.scan_projects xs acc) = true.
Proof.
  revert acc; induction xs as [|x xs IH]; intros acc H.
  - reflexivity.
  - destruct x; simpl in H; try discriminate. simpl. apply IH, H.
Qed.

(** A run of the project loop over [k] pages that have records and are
    all scanned to their end, then a page that is empty or fails. *)
Lemma projects_loop_run (srv : endpoint) (k : nat) :
  forall (page fuel : nat) (acc : list (json * json)) (log : list nat),
    (forall i, i < k -> nonempty_page (srv (page + i)) = true) ->
    nonempty_page (srv (page + k)) = false ->
    snd (GetProjects.scan_projects (fetched srv page k) acc) = true ->
    k < fuel ->
    GetProjects.projects_loop srv fuel page acc log =
      Done (fst (GetProjects.scan_projects (fetched srv page k) acc),
            log ++ seq page (S k)).
Proof.
  induction k as [|k IH]; intros page fuel acc log Hne Hstop Hok Hfuel.
  - destruct fuel as [|fuel]; [lia|].
    rewrite Nat.add_0_r in Hstop. simpl.
    destruct (srv page) as [[|e l]|]; simpl in *; try reflexivity; discriminate.
  - destruct fuel as [|fuel]; [lia|].
    assert (H0 : nonempty_page (srv page) = true).
    { specialize (Hne 0). rewrite Nat.add_0_r in Hne. apply Hne. lia. }
    destruct (nonempty_page_inv _ H0) as (e & l & Hpage).
    rewrite fetched_cons, Hpage in Hok. cbn [records_of] in Hok.
    rewrite scan_projects_app in Hok.
    rewrite fetched_cons, Hpage. cbn [records_of].
    rewrite scan_projects_app.
    cbn [GetProjects.projects_loop]. rewrite Hpage. cbn [is_empty].
    destruct (GetProjects.scan_projects (e :: l) acc) as [acc1 ok] eqn:Hscan.
    cbn [fst snd] in *.
    destruct ok.
    + rewrite (IH (S page) fuel acc1 (log ++ [page])).
      * rewrite <- app_assoc. reflexivity.
      * intros i Hi. replace (S page + i) with (page + S i) by lia. apply Hne. lia.
      * replace (S page + k) with (page + S k) by lia. exact Hstop.
      * exact Hok.
      * lia.
    + discriminate.
Qed.

Lemma fetched_empty_last (srv : endpoint) (first k : nat) :
  srv (first + k) = Page [] -> fetched srv first (S k) = fetched srv first k.
Proof. intros H. rewrite fetched_snoc, H. apply app_nil_r. Qed.

Lemma full_not_short (r : response) : short_page r = true -> full_page r = false.
Proof.
  destruct r as [l|]; unfold short_page, full_page; [|reflexivity].
  intros H. apply Nat.ltb_lt in H. apply Nat.leb_gt. exact H.
Qed.

(** ** Pagination (C2) *)

(** C2.  One sequence of pages, read by the event fetchers and by the
    project fetcher.  Let page [m] be the first page that comes back empty
    or shorter than the page size, and page [n] the first page that comes
    back empty.  Each event fetcher (counting, detailed, last push)
    requests the pages [1..m] and no other, and its result is its loop body
    run over the concatenation of these pages.  The project fetcher does
    not stop at page [m]: it requests the pages [1..n], and its rows are
    those of the concatenation of all pages before the empty one. *)
Theorem C2_stop_rules (srv : endpoint) (m n fuel : nat) (username : json) :
  1 <= m -> m <= n -> n <= fuel ->
  (forall p, 1 <= p < m -> full_page (srv p) = true) ->
  short_page (srv m) = true ->
  (forall p, 1 <= p < n -> nonempty_page (srv p) = true) ->
  srv n = Page [] ->
  forallb is_dict (fetched srv 1 n) = true ->
  UserActivity.get_user_push_count srv fuel =
    (c <- for_each UserActivity.count_event (fetched srv 1 m) 0 ;; Done (c, seq 1 m))
  /\ UserActivityCommit.get_user_push_events srv fuel username =
    (rows <- for_each (UserActivityCommit.push_event username) (fetched srv 1 m) [] ;;
     Done (rows, seq 1 m))
  /\ UserActivityLastCommit.get_user_push_count srv fuel =
    (st <- for_each UserActivityLastCommit.scan_event (fetched srv 1 m)
             UserActivityLastCommit.initial_state ;;
     Done (UserActivityLastCommit.summary_of st, seq 1 m))
  /\ GetProjects.get_all_project_ids srv fuel =
    Done (fst (GetProjects.scan_projects (fetched srv 1 n) []), seq 1 n).
Proof.
  intros Hm Hmn Hfuel Hfull Hshort Hne Hempty Hdicts.
  destruct m as [|k]; [lia|]. destruct n as [|j]; [lia|].
  assert (Hrun : forall St (body : json -> St -> outcome St) (st : St),
             event_pages body srv fuel 1 st [] =
             (st' <- for_each body (fetched srv 1 (S k)) st ;; Done (st', seq 1 (S k)))).
  { intros St body st. apply (event_pages_run body srv k 1 fuel st []).
    - intros i Hi. apply Hfull. lia.
    - apply full_not_short. exact Hshort.
    - lia. }
  repeat split.
  - apply Hrun.
  - apply Hrun.
  - unfold UserActivityLastCommit.get_user_push_count. rewrite Hrun, bind_assoc.
    reflexivity.
  - unfold GetProjects.get_all_project_ids.
    rewrite (fetched_empty_last srv 1 j) by exact Hempty.
    rewrite (fetched_empty_last srv 1 j) in Hdicts by exact Hempty.
    apply (projects_loop_run srv j 1 fuel [] []).
    + intros i Hi. apply Hne. lia.
    + change (1 + j) with (S j). rewrite Hempty. reflexivity.
    + apply scan_projects_dicts. exact Hdicts.
    + lia.
Qed.

Lemma C2_stop_rules_witness :
  UserActivity.get_user_push_count four_pages 4 = Done (101, [1; 2])
  /\ GetProjects.get_all_project_ids four_pages 4 = Done ([], [1; 2; 3; 4]).
Proof.
  pose proof (C2_stop_rules four_pages 2 4 4 JNull) as H.
  assert (H1 : 1 <= 2) by lia.
  assert (H2 : 2 <= 4) by lia.
  assert (H3 : 4 <= 4) by lia.
  assert (H4 : forall p, 1 <= p < 2 -> full_page (four_pages p) = true).
  { intros p Hp. assert (p = 1) as -> by lia. reflexivity. }
  assert (H5 : short_page (four_pages 2) = true) by reflexivity.
  assert (H6 : forall p, 1 <= p < 4 -> nonempty_page (four_pages p) = true).
  { intros p Hp. destruct p as [|[|[|[|p]]]]; try lia; reflexivity. }
  assert (H7 : four_pages 4 = Page []) by reflexivity.
  assert (H8 : forallb is_dict (fetched four_pages 1 4) = true) by reflexivity.
  destruct (H H1 H2 H3 H4 H5 H6 H7 H8) as (Hc & _ & _ & Hp).
  split.
  - rewrite Hc. reflexivity.
  - rewrite Hp. reflexivity.
Defined.

(** ** Relevant events (C5) *)

Lemma relevant_iff (event : json) :
  relevant event = true <->
  exists d, event = JDict d /\ assoc "action_name"%string d = Some (JStr "pushed to").
Proof.
  unfold relevant, field, eq_str. split.
  - destruct event as [| | | |l|d]; try discriminate.
    destruct (assoc "action_name" d) as [[| | |s| |]|] eqn:Ha; try discriminate.
    intros H. apply String.eqb_eq in H. subst s. exists d. auto.
  - intros (d & -> & Ha). rewrite Ha. reflexivity.
Qed.

Lemma get_action_name (d : list (string * json)) :
  py_get (JDict d) "action_name" JNull = Done (field "action_name" (JDict d)).
Proof. reflexivity. Qed.

Lemma count_event_dict (d : list (string * json)) (c : nat) :
  UserActivity.count_event (JDict d) c = Done (if relevant (JDict d) then S c else c).
Proof. reflexivity. Qed.

Lemma count_events_dicts (events : list json) (c : nat) :
  forallb is_dict events = true ->
  for_each UserActivity.count_event events c = Done (c + count_relevant events).
Proof.
  unfold count_relevant.
  revert c; induction events as [|e events IH]; intros c Hd.
  - cbn. f_equal. lia.
  - cbn [forallb] in Hd. apply andb_prop in Hd as [He Hd].
    destruct e as [| | | |l|d]; try discriminate.
    cbn [for_each]. rewrite count_event_dict. cbn [bind]. rewrite IH by exact Hd.
    cbn [filter]. destruct (relevant (JDict d)); cbn [List.length]; f_equal; lia.
Qed.

Ltac bind_cases :=
  repeat match goal with
    | H : bind ?m _ = Done _ |- _ =>
        let E := fresh "E" in destruct m eqn:E; cbn [bind] in H; try discriminate
    | H : (if ?b then _ else _) = Done _ |- _ =>
        let E := fresh "E" in destruct b eqn:E; try discriminate
    end.

(** C5.  An event takes part in a reduction exactly when its
    [action_name] is the string ["pushed to"].  The counting reducer adds
    one for such an event and nothing for any other; the detailed reducer
    appends one row for such an event and leaves its list as it is for any
    other; the last-push reducer leaves its three variables as they are
    for any other event and counts one for such an event.  Over a whole
    list of events the count is the number of relevant ones. *)
Theorem C5_exact_action_name :
  (forall event, relevant event = true <->
     exists d, event = JDict d /\ assoc "action_name"%string d = Some (JStr "pushed to"))
  /\ (forall d c,
        UserActivity.count_event (JDict d) c = Done (if relevant (JDict d) then S c else c))
  /\ (forall d username all_events,
        relevant (JDict d) = false ->
        UserActivityCommit.push_event username (JDict d) all_events = Done all_events)
  /\ (forall d username all_events all_events',
        relevant (JDict d) = true ->
        UserActivityCommit.push_event username (JDict d) all_events = Done all_events' ->
        exists row, all_events' = all_events ++ [row])
  /\ (forall d st,
        relevant (JDict d) = false ->
        UserActivityLastCommit.scan_event (JDict d) st = Done st)
  /\ (forall d st st',
        relevant (JDict d) = true ->
        UserActivityLastCommit.scan_event (JDict d) st = Done st' ->
        UserActivityLastCommit.push_count st' = S (UserActivityLastCommit.push_count st))
  /\ (forall events c,
        forallb is_dict events = true ->
        for_each UserActivity.count_event events c = Done (c + count_relevant events)).
Proof.
  split; [exact relevant_iff|].
  split; [exact count_event_dict|].
  split.
  { intros d username all_events Hrel.
    unfold UserActivityCommit.push_event. rewrite get_action_name. cbn [bind].
    fold (relevant (JDict d)). rewrite Hrel. reflexivity. }
  split.
  { intros d username all_events all_events' Hrel.
    unfold UserActivityCommit.push_event. rewrite get_action_name. cbn [bind].
    fold (relevant (JDict d)). rewrite Hrel. intros H.
    bind_cases. injection H as <-. eauto. }
  split.
  { intros d st Hrel.
    unfold UserActivityLastCommit.scan_event. rewrite get_action_name. cbn [bind].
    fold (relevant (JDict d)). rewrite Hrel. reflexivity. }
  split.
  { intros d st st' Hrel.
    unfold UserActivityLastCommit.scan_event. rewrite get_action_name. cbn [bind].
    fold (relevant (JDict d)). rewrite Hrel. intros H.
    bind_cases; injection H as <-; reflexivity. }
  exact count_events_dicts.
Qed.

Lemma C5_exact_action_name_witness :
  for_each UserActivity.count_event [sample_push; merge_request_event; sample_push] 0
  = Done 2.
Proof.
  exact (proj2 (proj2 (proj2 (proj2 (proj2 (proj2 C5_exact_action_name)))))
           [sample_push; merge_request_event; sample_push] 0 eq_refl).
Defined.

(** ** Errors while fetching (C3, C4) *)

Lemma fetched_no_records_last (srv : endpoint) (first k : nat) :
  records_of (srv (first + k)) = [] -> fetched srv first (S k) = fetched srv first k.
Proof. intros H. rewrite fetched_snoc, H. apply app_nil_r. Qed.

(** A run of the user loop: [k] pages with records, then a page that is
    empty or fails.  Only the empty page lets the list out. *)
Lemma user_pages_run {Entry} (body : json -> list Entry -> outcome (list Entry))
    (srv : endpoint) (k : nat) :
  forall (page fuel : nat) (acc : list Entry) (log : list nat),
    (forall i, i < k -> nonempty_page (srv (page + i)) = true) ->
    nonempty_page (srv (page + k)) = false ->
    k < fuel ->
    user_pages body srv fuel page acc log =
      all_users <- for_each body (fetched srv page k) acc ;;
      Done (match srv (page + k) with
            | RequestException => None
            | Page _ => Some all_users
            end, log ++ seq page (S k)).
Proof.
  induction k as [|k IH]; intros page fuel acc log Hne Hstop Hfuel.
  - destruct fuel as [|fuel]; [lia|].
    rewrite Nat.add_0_r in *. cbn [user_pages fetched seq flat_map for_each bind].
    destruct (srv page) as [[|e l]|]; cbn in *; try reflexivity; discriminate.
  - destruct fuel as [|fuel]; [lia|].
    assert (H0 : nonempty_page (srv page) = true).
    { specialize (Hne 0). rewrite Nat.add_0_r in Hne. apply Hne. lia. }
    destruct (nonempty_page_inv _ H0) as (e & l & Hpage).
    rewrite fetched_cons, for_each_app, Hpage. cbn [records_of].
    cbn [user_pages]. rewrite Hpage. cbn [is_empty].
    rewrite bind_assoc.
    destruct (for_each body (e :: l) acc) as [acc1| |]; cbn [bind]; try reflexivity.
    rewrite (IH (S page) fuel acc1 (log ++ [page])).
    + replace (S page + k) with (page + S k) by lia.
      destruct (for_each body (fetched srv (S page) k) acc1); cbn [bind]; try reflexivity.
      rewrite <- app_assoc. reflexivity.
    + intros i Hi. replace (S page + i) with (page + S i) by lia. apply Hne. lia.
    + replace (S page + k) with (page + S k) by lia. exact Hstop.
    + lia.
Qed.

Lemma add_users_dicts (users : list json) (acc : list UserActivity.user_entry) :
  forallb is_dict users = true ->
  for_each UserActivity.add_user users acc = Done (acc ++ map entry_of users).
Proof.
  revert acc; induction users as [|u users IH]; intros acc Hd.
  - cbn. now rewrite app_nil_r.
  - cbn [forallb] in Hd. apply andb_prop in Hd as [Hu Hd].
    destruct u as [| | | |l|d]; try discriminate.
    cbn [for_each]. unfold UserActivity.add_user at 1. cbn [py_get bind].
    rewrite IH by exact Hd. cbn [map]. rewrite <- app_assoc. reflexivity.
Qed.

(** C3, as the code has it.  A request for page [n] fails after [n - 1]
    pages with records.  The project fetcher stops and returns the rows of
    the pages [1..n-1].  [get_all_users] stops as well, but it returns
    [None]: the users of the pages [1..n-1] are dropped, in the plain
    loader and in the loader that filters by email. *)
Theorem C3_error_while_listing (srv : endpoint) (n fuel : nat) (email_filter : string) :
  1 <= n -> n <= fuel ->
  (forall p, 1 <= p < n -> nonempty_page (srv p) = true) ->
  srv n = RequestException ->
  forallb is_dict (fetched srv 1 (n - 1)) = true ->
  GetProjects.get_all_project_ids srv fuel =
    Done (fst (GetProjects.scan_projects (fetched srv 1 (n - 1)) []), seq 1 n)
  /\ UserActivity.get_all_users srv fuel = Done (None, seq 1 n)
  /\ UserActivityLastCommitByEmail.get_all_users_matching email_filter srv fuel =
     (_ <- for_each (UserActivityLastCommitByEmail.add_matching_user email_filter)
             (fetched srv 1 (n - 1)) [] ;;
      Done (None, seq 1 n)).
Proof.
  intros Hn Hfuel Hne Hfail Hdicts.
  destruct n as [|k]; [lia|].
  replace (S k - 1) with k in * by lia.
  assert (Hstop : nonempty_page (srv (1 + k)) = false).
  { change (1 + k) with (S k). rewrite Hfail. reflexivity. }
  assert (Hpre : forall i, i < k -> nonempty_page (srv (1 + i)) = true).
  { intros i Hi. apply Hne. lia. }
  repeat split.
  - apply (projects_loop_run srv k 1 fuel [] []);
      [exact Hpre | exact Hstop | apply scan_projects_dicts; exact Hdicts | lia].
  - unfold UserActivity.get_all_users.
    rewrite (user_pages_run UserActivity.add_user srv k 1 fuel [] [] Hpre Hstop) by lia.
    rewrite add_users_dicts by exact Hdicts. cbn [bind].
    change (1 + k) with (S k). rewrite Hfail. reflexivity.
  - unfold UserActivityLastCommitByEmail.get_all_users_matching.
    rewrite (user_pages_run _ srv k 1 fuel [] [] Hpre Hstop) by lia.
    change (1 + k) with (S k). rewrite Hfail. reflexivity.
Qed.

Lemma C3_error_while_listing_witness :
  GetProjects.get_all_project_ids fails_on_page_2 2 =
    Done ([(JInt 1, JNull); (JInt 2, JNull)], [1; 2])
  /\ UserActivity.get_all_users fails_on_page_2 2 = Done (None, [1; 2]).
Proof.
  assert (H3 : forall p, 1 <= p < 2 -> nonempty_page (fails_on_page_2 p) = true).
  { intros p Hp. assert (p = 1) as -> by lia. reflexivity. }
  destruct (C3_error_while_listing fails_on_page_2 2 2 "kestrl"
              (le_S 1 1 (le_n 1)) (le_n 2) H3 eq_refl eq_refl) as (Hp & Hu & _).
  split; [rewrite Hp|rewrite Hu]; reflexivity.
Defined.

(** C3 as it is written fails for the user loaders: page 1 brought two
    users, the request for page 2 failed, and the caller gets [None], not
    the two users. *)
Lemma C3_users_discarded_counterexample :
  fetched fails_on_page_2 1 1 = [alice; bob]
  /\ fails_on_page_2 2 = RequestException
  /\ UserActivity.get_all_users fails_on_page_2 2 = Done (None, [1; 2])
  /\ UserActivityLastCommitByEmail.get_all_users fails_on_page_2 2 = Done (None, [1; 2])
  /\ ~ (exists users,
          UserActivity.get_all_users fails_on_page_2 2 = Done (Some users, [1; 2])
          /\ In (entry_of alice) users).
Proof.
  repeat split; try reflexivity.
  intros (users & H & _). discriminate H.
Qed.

(** C4.  The request for page [n] of a user's events fails after [n - 1]
    full pages.  The reducer stops there and returns what the pages
    [1..n-1] gave (the count, and for the last-push reducer the date and
    commit too); the main loop stores that count if it is positive and
    goes on with the users that follow. *)
Theorem C4_error_while_counting (events_api : json -> endpoint)
    (user : UserActivity.user_entry) (rest : list UserActivity.user_entry)
    (n fuel : nat) (st : list (json * nat) * nat) :
  let srv := events_api (UserActivity.user_id user) in
  let seen := fetched srv 1 (n - 1) in
  1 <= n -> n <= fuel ->
  (forall p, 1 <= p < n -> full_page (srv p) = true) ->
  srv n = RequestException ->
  forallb is_dict seen = true ->
  py_format_width (UserActivity.username user) = Done tt ->
  UserActivity.get_user_push_count srv fuel = Done (count_relevant seen, seq 1 n)
  /\ UserActivityLastCommit.get_user_push_count srv fuel =
     (s <- for_each UserActivityLastCommit.scan_event seen
             UserActivityLastCommit.initial_state ;;
      Done (UserActivityLastCommit.summary_of s, seq 1 n))
  /\ for_each (UserActivity.visit_user events_api fuel) (user :: rest) st =
     for_each (UserActivity.visit_user events_api fuel) rest
       (if 0 <? count_relevant seen
        then (dict_set (fst st) (UserActivity.username user) (count_relevant seen),
              snd st + count_relevant seen)
        else st).
Proof.
  intros srv seen Hn Hfuel Hfull Hfail Hdicts Hfmt.
  destruct n as [|k]; [lia|].
  assert (Hseen : fetched srv 1 (S k) = seen).
  { unfold seen. replace (S k - 1) with k by lia.
    apply fetched_no_records_last. change (1 + k) with (S k). now rewrite Hfail. }
  assert (Hrun : forall St (body : json -> St -> outcome St) (s0 : St),
             event_pages body srv fuel 1 s0 [] =
             (s' <- for_each body seen s0 ;; Done (s', seq 1 (S k)))).
  { intros St body s0. rewrite <- Hseen.
    apply (event_pages_run body srv k 1 fuel s0 []).
    - intros i Hi. apply Hfull. lia.
    - change (1 + k) with (S k). rewrite Hfail. reflexivity.
    - lia. }
  assert (Hcount : UserActivity.get_user_push_count srv fuel
                   = Done (count_relevant seen, seq 1 (S k))).
  { unfold UserActivity.get_user_push_count. rewrite Hrun.
    rewrite count_events_dicts by exact Hdicts. reflexivity. }
  repeat split.
  - exact Hcount.
  - unfold UserActivityLastCommit.get_user_push_count. rewrite Hrun, bind_assoc.
    reflexivity.
  - cbn [for_each]. unfold UserActivity.visit_user at 1.
    fold srv. rewrite Hcount. cbn [bind fst].
    destruct (0 <? count_relevant seen); cbn [bind]; [|reflexivity].
    rewrite Hfmt. unfold py_setitem.
    destruct (UserActivity.username user); try discriminate Hfmt; reflexivity.
Qed.

Lemma C4_error_while_counting_witness :
  UserActivity.get_user_push_count fails_after_full_page 2 = Done (100, [1; 2])
  /\ for_each (UserActivity.visit_user (fun _ => fails_after_full_page) 2)
       [entry_of alice; entry_of bob] ([], 0)
     = for_each (UserActivity.visit_user (fun _ => fails_after_full_page) 2)
         [entry_of bob] ([(JStr "alice", 100)], 100).
Proof.
  assert (H3 : forall p, 1 <= p < 2 -> full_page (fails_after_full_page p) = true).
  { intros p Hp. assert (p = 1) as -> by lia. reflexivity. }
  destruct (C4_error_while_counting (fun _ => fails_after_full_page)
              (entry_of alice) [entry_of bob] 2 2 ([], 0)
              (le_S 1 1 (le_n 1)) (le_n 2) H3 eq_refl eq_refl eq_refl) as (Hc & _ & Hm).
  split; [exact Hc | exact Hm].
Defined.

(** ** The last push (C1) *)

(** What a run of the event loop that returns has requested and scanned:
    the pages [page .. page + k] for some [k], the body having run over
    their records in order. *)
Lemma event_pages_returns {St} (body : json -> St -> outcome St) (srv : endpoint)
    (fuel : nat) :
  forall (page : nat) (st st' : St) (log log' : list nat),
    event_pages body srv fuel page st log = Done (st', log') ->
    exists k, log' = log ++ seq page (S k)
              /\ for_each body (fetched srv page (S k)) st = Done st'.
Proof.
  induction fuel as [|fuel IH]; intros page st st' log log' H; [discriminate|].
  cbn [event_pages] in H.
  destruct (srv page) as [events|] eqn:Hpage.
  - destruct events as [|e l]; cbn [is_empty] in H.
    + injection H as <- <-. exists 0. rewrite fetched_one, Hpage. auto.
    + destruct (for_each body (e :: l) st) as [s1| |] eqn:Hbody; cbn [bind] in H;
        try discriminate.
      destruct (List.length (e :: l) <? EVENTS_PER_PAGE).
      * injection H as <- <-. exists 0. rewrite fetched_one, Hpage. auto.
      * apply IH in H as (k & -> & Hrest). exists (S k). split.
        -- rewrite <- app_assoc. reflexivity.
        -- rewrite fetched_cons, for_each_app, Hpage. cbn [records_of].
           rewrite Hbody. exact Hrest.
  - injection H as <- <-. exists 0. rewrite fetched_one, Hpage. auto.
Qed.

Lemma scan_event_skip (e : json) (st st' : UserActivityLastCommit.push_state) :
  relevant e = false ->
  UserActivityLastCommit.scan_event e st = Done st' -> st' = st.
Proof.
  intros Hrel H. destruct e as [| | | |l|d]; try discriminate H.
  unfold UserActivityLastCommit.scan_event in H. rewrite get_action_name in H.
  cbn [bind] in H. fold (relevant (JDict d)) in H. rewrite Hrel in H.
  now injection H.
Qed.

(** One relevant event, scanned when the running maximum is aware. *)
Lemma scan_event_relevant (e : json) (st st' : UserActivityLastCommit.push_state) (t0 : Z) :
  relevant e = true ->
  utc_instant (UserActivityLastCommit.last_push_datetime st) = Some t0 ->
  UserActivityLastCommit.scan_event e st = Done st' ->
  exists dt t,
    event_datetime e = Some dt /\ utc_instant dt = Some t
    /\ UserActivityLastCommit.push_count st' = S (UserActivityLastCommit.push_count st)
    /\ (((t0 < t)%Z
         /\ UserActivityLastCommit.last_push_datetime st' = dt
         /\ UserActivityLastCommit.last_push_commit_sha st' = commit_to e)
        \/ ((t <= t0)%Z
            /\ UserActivityLastCommit.last_push_datetime st'
               = UserActivityLastCommit.last_push_datetime st
            /\ UserActivityLastCommit.last_push_commit_sha st'
               = UserActivityLastCommit.last_push_commit_sha st)).
Proof.
  intros Hrel Ht0 H.
  destruct e as [| | | |l|d]; try discriminate H.
  unfold UserActivityLastCommit.scan_event in H. rewrite get_action_name in H.
  cbn [bind] in H. fold (relevant (JDict d)) in H. rewrite Hrel in H.
  unfold py_index in H.
  unfold event_datetime, field, commit_to.
  destruct (assoc "created_at" d) as [created|]; cbn [bind] in H; [|discriminate].
  destruct created as [| | |s| |]; cbn [py_replace_Z bind] in H; try discriminate.
  destruct (fromisoformat (replace_Z s)) as [dt| |]; cbn [bind] in H; try discriminate.
  unfold dt_gt in H. unfold utc_instant in Ht0 |- *.
  destruct (utcoffset (UserActivityLastCommit.last_push_datetime st)) as [o0|];
    [|discriminate].
  cbn [option_map] in Ht0. injection Ht0 as Ht0.
  destruct (utcoffset dt) as [o|] eqn:Ho; cbn [bind] in H; [|discriminate].
  exists dt, (local_us dt - o)%Z. split; [reflexivity|].
  split; [rewrite Ho; reflexivity|].
  rewrite Ht0 in H.
  destruct (t0 <? local_us dt - o)%Z eqn:Hcmp.
  - apply Z.ltb_lt in Hcmp. unfold py_get in H at 1. cbn [bind] in H.
    destruct (match assoc "push_data" d with Some v => v | None => JDict [] end)
      as [| | | | |pd]; cbn [py_get bind] in H; try discriminate.
    injection H as <-. cbn. auto.
  - apply Z.ltb_ge in Hcmp. injection H as <-. cbn. auto.
Qed.

Lemma for_each_cons_Done {A St} (body : A -> St -> outcome St) (x : A) (xs : list A)
    (st st' : St) :
  for_each body (x :: xs) st = Done st' ->
  exists st1, body x st = Done st1 /\ for_each body xs st1 = Done st'.
Proof.
  cbn [for_each]. destruct (body x st) as [st1| |]; cbn [bind]; try discriminate.
  eauto.
Qed.

Lemma event_time_of (e : json) (dt : datetime) (t : Z) :
  event_datetime e = Some dt -> utc_instant dt = Some t -> event_time e = Some t.
Proof. unfold event_time. now intros ->. Qed.

(** The invariant of the scan.  Started with an aware maximum of instant
    [t0], a scan that returns has either met no relevant event later than
    [t0] and kept the date and the commit it started with, or it holds
    the date and the commit of the first of the latest relevant events. *)
Lemma scan_events_latest (events : list json) :
  forall (st st' : UserActivityLastCommit.push_state) (t0 : Z),
    utc_instant (UserActivityLastCommit.last_push_datetime st) = Some t0 ->
    for_each UserActivityLastCommit.scan_event events st = Done st' ->
    UserActivityLastCommit.push_count st'
    = UserActivityLastCommit.push_count st + count_relevant events
    /\ (((forall x, In x (filter relevant events) ->
            exists tx, event_time x = Some tx /\ (tx <= t0)%Z)
         /\ UserActivityLastCommit.last_push_datetime st'
            = UserActivityLastCommit.last_push_datetime st
         /\ UserActivityLastCommit.last_push_commit_sha st'
            = UserActivityLastCommit.last_push_commit_sha st)
        \/ (exists e t,
              first_latest (filter relevant events) e t
              /\ (t0 < t)%Z
              /\ event_datetime e = Some (UserActivityLastCommit.last_push_datetime st')
              /\ UserActivityLastCommit.last_push_commit_sha st' = commit_to e)).
Proof.
  unfold count_relevant.
  induction events as [|e events IH]; intros st st' t0 Ht0 H.
  - injection H as <-. cbn. split; [lia|]. left. split; [|auto]. intros x [].
  - apply for_each_cons_Done in H as (st1 & He & Hrest).
    cbn [filter]. destruct (relevant e) eqn:Hrel.
    + destruct (scan_event_relevant e st st1 t0 Hrel Ht0 He)
        as (dt & t & Hdt & Ht & Hcount & [(Hlt & Hlast & Hsha)|(Hle & Hlast & Hsha)]).
      * (* [e] is the new maximum *)
        assert (Ht1 : utc_instant (UserActivityLastCommit.last_push_datetime st1) = Some t)
          by (rewrite Hlast; exact Ht).
        destruct (IH st1 st' t Ht1 Hrest) as (Hc & [(Hall & Hl & Hs)|(e' & t' & Hfl & Hlt' & Hd' & Hs')]).
        -- split; [cbn [List.length]; lia|]. right. exists e, t.
           split; [|split; [exact Hlt|split]].
           ++ exists [], (filter relevant events). split; [reflexivity|].
              split; [eapply event_time_of; eauto|]. split; [intros x []|exact Hall].
           ++ rewrite Hl, Hlast. exact Hdt.
           ++ rewrite Hs. exact Hsha.
        -- split; [cbn [List.length]; lia|]. right. exists e', t'.
           destruct Hfl as (before & after & Hsplit & Het & Hbefore & Hafter).
           split; [|split; [lia|split; assumption]].
           exists (e :: before), after. rewrite Hsplit. split; [reflexivity|].
           split; [exact Het|]. split; [|exact Hafter].
           intros x [<-|Hx]; [|auto]. exists t. split; [eapply event_time_of; eauto|lia].
      * (* the maximum stays *)
        assert (Ht1 : utc_instant (UserActivityLastCommit.last_push_datetime st1) = Some t0)
          by (rewrite Hlast; exact Ht0).
        destruct (IH st1 st' t0 Ht1 Hrest) as (Hc & [(Hall & Hl & Hs)|(e' & t' & Hfl & Hlt' & Hd' & Hs')]).
        -- split; [cbn [List.length]; lia|]. left. split; [|split; congruence].
           intros x [<-|Hx]; [|auto]. exists t. split; [eapply event_time_of; eauto|lia].
        -- split; [cbn [List.length]; lia|]. right. exists e', t'.
           destruct Hfl as (before & after & Hsplit & Het & Hbefore & Hafter).
           split; [|split; [exact Hlt'|split; assumption]].
           exists (e :: before), after. rewrite Hsplit. split; [reflexivity|].
           split; [exact Het|]. split; [|exact Hafter].
           intros x [<-|Hx]; [|auto]. exists t. split; [eapply event_time_of; eauto|lia].
    + apply (scan_event_skip e st st1 Hrel) in He. subst st1.
      apply (IH st st' t0 Ht0 Hrest).
Qed.

(** C1.  A run of the last-push reducer that returns has scanned the
    records of the pages it requested.  When one of the relevant events
    among them is later than the initial maximum (year 1), the commit
    returned is the [push_data.commit_to] of the relevant event with the
    greatest [created_at], and among events of that same instant the one
    scanned first: every relevant event scanned before it is strictly
    earlier, every one scanned after it is not later.  The date returned
    is that event's, and the count is the number of relevant events.  In
    particular, of three relevant events scanned in the order
    [T1, T3, T2] with [T3] the greatest, the commit of the [T3] event is
    kept.  The reducer of [user_activity_last_commit_by_email.py] is the
    same function. *)
Theorem C1_latest_push_wins :
  (forall (srv : endpoint) (fuel : nat) (count : nat) (date : date_cell) (sha : json)
          (log : list nat),
      UserActivityLastCommit.get_user_push_count srv fuel = Done (count, date, sha, log) ->
      let scanned := filter relevant (fetched srv 1 (List.length log)) in
      (exists e t, In e scanned /\ event_time e = Some t /\ (epoch_one_us < t)%Z) ->
      exists e t dt,
        first_latest scanned e t
        /\ sha = commit_to e
        /\ event_datetime e = Some dt /\ date = strftime dt
        /\ count = List.length scanned)
  /\ (forall (e1 e3 e2 : json) (t1 t3 t2 : Z) (st : UserActivityLastCommit.push_state),
        relevant e1 = true -> relevant e3 = true -> relevant e2 = true ->
        event_time e1 = Some t1 -> event_time e3 = Some t3 -> event_time e2 = Some t2 ->
        (t1 < t3)%Z -> (t2 < t3)%Z -> (epoch_one_us < t3)%Z ->
        for_each UserActivityLastCommit.scan_event [e1; e3; e2]
          UserActivityLastCommit.initial_state = Done st ->
        UserActivityLastCommit.last_push_commit_sha st = commit_to e3)
  /\ UserActivityLastCommitByEmail.get_user_push_count
     = UserActivityLastCommit.get_user_push_count.
Proof.
  split; [|split; [|reflexivity]].
  - intros srv fuel count date sha log H. cbv zeta.
    unfold UserActivityLastCommit.get_user_push_count in H.
    destruct (event_pages UserActivityLastCommit.scan_event srv fuel 1
                UserActivityLastCommit.initial_state []) as [[st log']| |] eqn:Hrun;
      cbn [bind] in H; try discriminate.
    cbn [fst snd] in H. unfold UserActivityLastCommit.summary_of in H.
    injection H as Hcount Hdate Hsha0 Hlog.
    apply event_pages_returns in Hrun as (k & -> & Hscan).
    cbn [app] in Hlog. subst log. rewrite length_seq.
    set (scanned := filter relevant (fetched srv 1 (S k))).
    intros (e0 & te0 & Hin & Hte0 & Hlate).
    destruct (scan_events_latest _ UserActivityLastCommit.initial_state _
                epoch_one_us eq_refl Hscan)
      as (Hc & [(Hall & _ & _)|(e & t & Hfl & Hlt & Hdt & Hsha)]).
    + destruct (Hall e0 Hin) as (tx & Htx & Hle). rewrite Hte0 in Htx.
      injection Htx as <-. lia.
    + cbn [UserActivityLastCommit.initial_state UserActivityLastCommit.push_count] in Hc.
      rewrite Nat.add_0_l in Hc.
      assert (Hpos : 0 < count_relevant (fetched srv 1 (S k))).
      { unfold count_relevant. fold scanned. destruct scanned; [destruct Hin|cbn; lia]. }
      rewrite Hc in Hdate, Hcount. rewrite (proj2 (Nat.ltb_lt _ _) Hpos) in Hdate.
      exists e, t, (UserActivityLastCommit.last_push_datetime st).
      repeat split; auto; congruence.
  - intros e1 e3 e2 t1 t3 t2 st R1 R3 R2 T1 T3 T2 H13 H23 Hlate Hscan.
    destruct (scan_events_latest _ UserActivityLastCommit.initial_state _
                epoch_one_us eq_refl Hscan)
      as (_ & [(Hall & _ & _)|(e & t & Hfl & Hlt & Hdt & Hsha)]);
      cbn [filter] in *; rewrite R1, R3, R2 in *.
    + destruct (Hall e3 (or_intror (or_introl eq_refl))) as (tx & Htx & Hle).
      rewrite T3 in Htx. injection Htx as <-. lia.
    + rewrite Hsha. f_equal.
      destruct Hfl as (before & after & Hsplit & Het & Hbefore & Hafter).
      destruct before as [|b1 [|b2 [|b3 before]]]; cbn [app] in Hsplit.
      * injection Hsplit as <- <-.
        destruct (Hafter e3 (or_introl eq_refl)) as (tx & Htx & Hle).
        rewrite T1 in Het. rewrite T3 in Htx. injection Het as <-. injection Htx as <-. lia.
      * now injection Hsplit.
      * injection Hsplit as <- <- <- _.
        destruct (Hbefore e3 (or_intror (or_introl eq_refl))) as (tx & Htx & Hle).
        rewrite T2 in Het. rewrite T3 in Htx. injection Het as <-. injection Htx as <-. lia.
      * injection Hsplit as _ _ _ Hnil. destruct before; discriminate Hnil.
Qed.

Lemma C1_latest_push_wins_witness :
  UserActivityLastCommit.get_user_push_count three_pushes 1
  = Done (3, DateText 2024 3 3 10 0 0, JStr "c3", [1])
  /\ exists e t dt,
       first_latest (filter relevant (fetched three_pushes 1 1)) e t
       /\ JStr "c3" = commit_to e
       /\ event_datetime e = Some dt /\ DateText 2024 3 3 10 0 0 = strftime dt
       /\ 3 = List.length (filter relevant (fetched three_pushes 1 1)).
Proof.
  split; [reflexivity|].
  apply (proj1 C1_latest_push_wins three_pushes 1 3 (DateText 2024 3 3 10 0 0)
           (JStr "c3") [1] eq_refl).
  exists (push_at "2024-03-03T10:00:00.000Z" "c3"). eexists.
  split; [right; left; reflexivity|].
  split; [reflexivity|]. reflexivity.
Defined.

(** ** Aware timestamps (C9) *)

Lemma chars_append (a b : string) :
  list_ascii_of_string (String.append a b)
  = list_ascii_of_string a ++ list_ascii_of_string b.
Proof. induction a as [|c a IH]; cbn; [reflexivity|]. now rewrite IH. Qed.

Lemma chars_replace_Z (s : string) :
  list_ascii_of_string (replace_Z s) = flat_map expand_Z (list_ascii_of_string s).
Proof.
  induction s as [|c s IH]; [reflexivity|].
  cbn [replace_Z list_ascii_of_string flat_map]. unfold expand_Z at 1.
  destruct (is_char c "Z").
  - rewrite chars_append, IH. reflexivity.
  - cbn. now rewrite IH.
Qed.

Lemma replace_Z_append (a b : string) :
  replace_Z (String.append a b) = String.append (replace_Z a) (replace_Z b).
Proof.
  induction a as [|c a IH]; [reflexivity|].
  cbn [String.append replace_Z]. rewrite IH.
  destruct (is_char c "Z"); [|reflexivity].
  cbn. reflexivity.
Qed.

Lemma expand_without_Z (cs : list ascii) :
  existsb is_Z cs = false -> flat_map expand_Z cs = cs.
Proof.
  induction cs as [|c cs IH]; [reflexivity|].
  cbn [existsb flat_map]. intros H. apply orb_false_elim in H as [Hc Hcs].
  unfold expand_Z at 1. unfold is_Z in Hc. rewrite Hc. cbn. now rewrite IH.
Qed.

Lemma expand_keeps_zone (cs : list ascii) :
  existsb (fun c => is_Z c || is_sign c) cs = true ->
  existsb is_sign (flat_map expand_Z cs) = true.
Proof.
  induction cs as [|c cs IH]; [discriminate|].
  cbn [existsb flat_map]. rewrite existsb_app. intros H.
  apply orb_true_iff. apply orb_true_iff in H as [H|H]; [left|right; auto].
  unfold expand_Z. unfold is_Z in H.
  destruct (is_char c "Z"); [reflexivity|].
  cbn [orb] in H. cbn. now rewrite H.
Qed.

Lemma split_at_char_found (c : ascii) (cs : list ascii) :
  existsb (fun d => is_char d c) cs = true -> split_at_char c cs <> None.
Proof.
  induction cs as [|d cs IH]; [discriminate|].
  cbn [existsb split_at_char]. destruct (is_char d c); [discriminate|].
  cbn [orb]. intros H. specialize (IH H).
  destruct (split_at_char c cs) as [[before after]|]; [discriminate|contradiction].
Qed.

Lemma split_offset_signed (tstr : list ascii) :
  existsb is_sign tstr = true -> snd (split_offset tstr) <> None.
Proof.
  intros H. unfold split_offset.
  destruct (split_at_char "-" tstr) as [[a b]|] eqn:Hminus; [discriminate|].
  destruct (split_at_char "+" tstr) as [[a b]|] eqn:Hplus; [discriminate|].
  exfalso.
  assert (Hp : existsb (fun d => is_char d "+") tstr = false).
  { destruct (existsb (fun d => is_char d "+") tstr) eqn:E; [|reflexivity].
    now apply split_at_char_found in E. }
  assert (Hm : existsb (fun d => is_char d "-") tstr = false).
  { destruct (existsb (fun d => is_char d "-") tstr) eqn:E; [|reflexivity].
    now apply split_at_char_found in E. }
  clear Hminus Hplus. induction tstr as [|d tstr IH]; [discriminate|].
  cbn [existsb] in *. apply orb_false_elim in Hp as [Hp1 Hp2].
  apply orb_false_elim in Hm as [Hm1 Hm2].
  unfold is_sign in H at 1. rewrite Hp1, Hm1 in H. cbn [orb] in H. auto.
Qed.

Lemma make_datetime_offset (y m d hh mm ss us : Z) (tz : option Z) (t : datetime) :
  make_datetime y m d hh mm ss us tz = Done t -> utcoffset t = tz.
Proof.
  unfold make_datetime. destruct (_ && _)%bool; [|discriminate].
  intros H. injection H as <-. reflexivity.
Qed.

(** A text whose time part has a sign parses to an aware datetime, when
    it parses. *)
Lemma fromisoformat_signed (text : string) (t : datetime) :
  existsb is_sign (skipn 11 (list_ascii_of_string text)) = true ->
  fromisoformat text = Done t -> utcoffset t <> None.
Proof.
  unfold fromisoformat. intros Hsign.
  destruct (parse_isoformat_date _) as [[[y m] d]|]; [|discriminate].
  destruct (skipn 11 (list_ascii_of_string text)) as [|c tstr] eqn:Hskip; [discriminate|].
  unfold parse_isoformat_time.
  destruct (List.length (c :: tstr) <? 2); [discriminate|].
  apply split_offset_signed in Hsign.
  destruct (split_offset (c :: tstr)) as [timestr [[negative tzstr]|]];
    [|now cbn in Hsign].
  destruct (parse_hh_mm_ss_ff timestr) as [[[[hh mm] ss] us]|]; [|discriminate].
  destruct (parse_offset negative tzstr) as [off|]; [|discriminate].
  intros H. apply make_datetime_offset in H. rewrite H. discriminate.
Qed.

Lemma zoned_replace_Z (s : string) :
  zoned s = true ->
  existsb is_sign (skipn 11 (list_ascii_of_string (replace_Z s))) = true.
Proof.
  unfold zoned. intros H. apply andb_prop in H as [HnoZ Hzone].
  apply negb_true_iff in HnoZ.
  rewrite chars_replace_Z.
  rewrite <- (firstn_skipn 11 (list_ascii_of_string s)) at 1.
  rewrite flat_map_app, (expand_without_Z _ HnoZ).
  assert (Hlen : List.length (firstn 11 (list_ascii_of_string s)) = 11).
  { apply firstn_length_le.
    destruct (Nat.le_gt_cases 11 (List.length (list_ascii_of_string s))) as [|Hshort];
      [assumption|].
    rewrite skipn_all2 in Hzone by lia. discriminate. }
  rewrite skipn_app, Hlen, Nat.sub_diag, skipn_all2 by lia.
  cbn [skipn app]. apply expand_keeps_zone. exact Hzone.
Qed.

Lemma make_datetime_outcome (y m d hh mm ss us : Z) (tz : option Z) :
  (exists t, make_datetime y m d hh mm ss us tz = Done t)
  \/ make_datetime y m d hh mm ss us tz = Raised ValueError.
Proof. unfold make_datetime. destruct (_ && _)%bool; eauto. Qed.

(** [fromisoformat] returns a datetime or raises [ValueError]. *)
Lemma fromisoformat_outcome (text : string) :
  (exists t, fromisoformat text = Done t) \/ fromisoformat text = Raised ValueError.
Proof.
  unfold fromisoformat.
  destruct (parse_isoformat_date _) as [[[y m] d]|]; [|auto].
  destruct (skipn 11 (list_ascii_of_string text)) as [|c tstr].
  - apply make_datetime_outcome.
  - destruct (parse_isoformat_time (c :: tstr)) as [[[[[hh mm] ss] us] tz]|]; [|auto].
    apply make_datetime_outcome.
Qed.

Lemma zoned_aware (s : string) (t : datetime) :
  zoned s = true -> fromisoformat (replace_Z s) = Done t -> utcoffset t <> None.
Proof. intros Hz. apply fromisoformat_signed, zoned_replace_Z, Hz. Qed.

Lemma is_digit_not_Z (c : ascii) : is_digit c = true -> is_Z c = false.
Proof.
  intros H. destruct (is_Z c) eqn:E; [|reflexivity].
  apply Ascii.eqb_eq in E. subst c. discriminate H.
Qed.

Lemma api_timestamp_zoned (s : string) : api_timestamp s = true -> zoned s = true.
Proof.
  unfold api_timestamp, zoned.
  destruct (list_ascii_of_string s) as [|y1 cs]; [discriminate|].
  do 23 (destruct cs as [|? cs]; [discriminate|]).
  destruct cs; [|discriminate].
  intros H.
  repeat match type of H with
         | (_ && _)%bool = true => let H' := fresh "S" in apply andb_prop in H as [H H']
         end.
  cbn [forallb] in H.
  repeat match type of H with
         | (_ && _)%bool = true => let H' := fresh "D" in apply andb_prop in H as [H' H]
         end.
  repeat match goal with
         | E : is_char ?c _ = true |- _ => apply Ascii.eqb_eq in E; subst c
         | E : is_digit ?c = true |- _ => apply is_digit_not_Z in E
         end.
  apply andb_true_intro. split.
  - apply negb_true_iff. cbn [firstn existsb].
    repeat match goal with E : is_Z ?c = false |- _ => rewrite E; clear E end.
    reflexivity.
  - apply existsb_exists. exists "Z"%char. split; [|reflexivity].
    cbn [skipn]. repeat (try (left; reflexivity); right).
Qed.

Lemma scan_event_aware (e : json) (st : UserActivityLastCommit.push_state) :
  aware st -> zoned_created_at e ->
  UserActivityLastCommit.scan_event e st <> Raised TypeError
  /\ (forall st', UserActivityLastCommit.scan_event e st = Done st' -> aware st').
Proof.
  unfold aware, zoned_created_at. intros Haware Hz.
  destruct e as [| | | |l|d]; try (split; [discriminate|intros ? H; discriminate H]).
  unfold UserActivityLastCommit.scan_event. rewrite get_action_name. cbn [bind].
  destruct (eq_str _ _); [|split; [discriminate|intros ? H; now injection H as <-]].
  unfold py_index. cbn [field] in Hz.
  destruct (assoc "created_at" d) as [created|]; cbn [bind];
    [|split; [discriminate|intros ? H; discriminate H]].
  destruct created as [| | |s| |]; cbn [py_replace_Z bind];
    try (split; [discriminate|intros ? H; discriminate H]).
  specialize (Hz s eq_refl).
  destruct (fromisoformat_outcome (replace_Z s)) as [(t & Ht)| ->]; cbn [bind];
    [|split; [discriminate|intros ? H; discriminate H]].
  rewrite Ht. cbn [bind]. apply (zoned_aware s t Hz) in Ht.
  unfold dt_gt.
  destruct (utcoffset t) as [o|] eqn:Ho; [|contradiction].
  destruct (utcoffset (UserActivityLastCommit.last_push_datetime st)) as [o0|] eqn:Ho0;
    [|contradiction].
  cbn [bind].
  destruct (_ <? _)%Z.
  - unfold py_get at 1. unfold py_get at 2. cbn [bind].
    destruct (match assoc "push_data" d with Some v => v | None => JDict [] end);
      cbn [py_get bind]; try (split; [discriminate|intros ? H; discriminate H]).
    split; [discriminate|]. intros st' H. injection H as <-. cbn. now rewrite Ho.
  - split; [discriminate|]. intros st' H. injection H as <-. cbn. now rewrite Ho0.
Qed.

Lemma scan_events_aware (events : list json) :
  forall st,
    aware st -> (forall e, In e events -> zoned_created_at e) ->
    for_each UserActivityLastCommit.scan_event events st <> Raised TypeError
    /\ (forall st', for_each UserActivityLastCommit.scan_event events st = Done st' ->
                    aware st').
Proof.
  induction events as [|e events IH]; intros st Haware Hz.
  - split; [discriminate|]. intros st' H. now injection H as <-.
  - destruct (scan_event_aware e st Haware (Hz e (or_introl eq_refl))) as [Hno Hkeep].
    cbn [for_each].
    destruct (UserActivityLastCommit.scan_event e st) as [st1|x|]; cbn [bind].
    + apply IH; [apply Hkeep; reflexivity|]. intros e' He'. apply Hz. now right.
    + split; [|intros ? H; discriminate H]. intros H. apply Hno. exact H.
    + split; [discriminate|intros ? H; discriminate H].
Qed.

(** The event loop raises [TypeError] only if its body does. *)
Lemma event_pages_aware (srv : endpoint) (fuel : nat) :
  forall (page : nat) (st : UserActivityLastCommit.push_state) (log : list nat),
    aware st ->
    (forall p e, In e (records_of (srv p)) -> zoned_created_at e) ->
    event_pages UserActivityLastCommit.scan_event srv fuel page st log <> Raised TypeError.
Proof.
  induction fuel as [|fuel IH]; intros page st log Haware Hz; [discriminate|].
  cbn [event_pages].
  destruct (srv page) as [events|] eqn:Hpage; [|discriminate].
  destruct events as [|e l]; [discriminate|]. cbn [is_empty].
  assert (Hpz : forall x, In x (e :: l) -> zoned_created_at x).
  { intros x Hx. apply (Hz page). rewrite Hpage. exact Hx. }
  destruct (scan_events_aware (e :: l) st Haware Hpz) as [Hno Hkeep].
  destruct (for_each UserActivityLastCommit.scan_event (e :: l) st) as [st1|x|];
    cbn [bind].
  - destruct (_ <? _); [discriminate|]. apply IH; [apply Hkeep; reflexivity|exact Hz].
  - intros H. apply Hno. injection H as ->. reflexivity.
  - discriminate.
Qed.

(** *** Timestamps of the events API *)

Lemma is_digit_facts (c : ascii) :
  is_digit c = true ->
  digit_val c = Some (digit_of c)
  /\ is_char c "-" = false /\ is_char c "+" = false /\ is_char c "Z" = false
  /\ (0 <= digit_of c <= 9)%Z.
Proof.
  destruct c as [[] [] [] [] [] [] [] []]; intros H; cbv in H; try discriminate H;
    (split; [reflexivity|split; [reflexivity|split; [reflexivity|split; [reflexivity|]]]]);
    cbv; split; discriminate.
Qed.

Lemma parse_digits_fold (cs : list ascii) :
  forallb is_digit cs = true ->
  forall acc,
    parse_digits cs acc = Some (fold_left (fun a c => a * 10 + digit_of c)%Z cs acc).
Proof.
  induction cs as [|c cs IH]; intros H acc; [reflexivity|].
  cbn [forallb] in H. apply andb_prop in H as [Hc H].
  cbn [parse_digits fold_left]. rewrite (proj1 (is_digit_facts c Hc)). apply IH, H.
Qed.

Lemma parse_digits_num (cs : list ascii) :
  forallb is_digit cs = true -> parse_digits cs 0 = Some (num cs).
Proof. intros H. apply parse_digits_fold, H. Qed.

Lemma make_datetime_valid (t : datetime) :
  valid_datetime t = true ->
  make_datetime (year t) (month t) (day t) (hour t) (minute t) (second t)
    (microsecond t) (utcoffset t) = Done t.
Proof.
  unfold valid_datetime, make_datetime. intros ->. now destruct t.
Qed.

Lemma split_at_char_none (c : ascii) (cs : list ascii) :
  existsb (fun d => is_char d c) cs = false -> split_at_char c cs = None.
Proof.
  induction cs as [|d cs IH]; [reflexivity|].
  cbn [existsb split_at_char]. intros H. apply orb_false_elim in H as [Hd H].
  rewrite Hd, IH by exact H. reflexivity.
Qed.

Lemma split_at_char_first (c : ascii) (pre post : list ascii) :
  existsb (fun d => is_char d c) pre = false ->
  split_at_char c (pre ++ c :: post) = Some (pre, post).
Proof.
  induction pre as [|d pre IH]; cbn [existsb app split_at_char]; intros H.
  - unfold is_char. now rewrite Ascii.eqb_refl.
  - apply orb_false_elim in H as [Hd H]. rewrite Hd, IH by exact H. reflexivity.
Qed.

(** The characters of an API timestamp once its ["Z"] is replaced *)
Lemma api_timestamp_chars (s : string) :
  api_timestamp s = true ->
  exists y1 y2 y3 y4 m1 m2 d1 d2 h1 h2 n1 n2 s1 s2 u1 u2 u3,
    forallb is_digit [y1; y2; y3; y4; m1; m2; d1; d2; h1; h2; n1; n2; s1; s2; u1; u2; u3]
    = true
    /\ list_ascii_of_string s
       = [y1; y2; y3; y4; "-"; m1; m2; "-"; d1; d2; "T"; h1; h2; ":"; n1; n2; ":";
          s1; s2; "."; u1; u2; u3; "Z"]%char
    /\ list_ascii_of_string (replace_Z s)
       = [y1; y2; y3; y4; "-"; m1; m2; "-"; d1; d2; "T"; h1; h2; ":"; n1; n2; ":";
          s1; s2; "."; u1; u2; u3; "+"; "0"; "0"; ":"; "0"; "0"]%char.
Proof.
  unfold api_timestamp. rewrite chars_replace_Z.
  destruct (list_ascii_of_string s) as [|y1 cs]; [discriminate|].
  do 23 (destruct cs as [|? cs]; [discriminate|]).
  destruct cs; [|discriminate].
  intros H.
  repeat match type of H with
         | (_ && _)%bool = true => let H' := fresh "S" in apply andb_prop in H as [H H']
         end.
  repeat match goal with
         | E : is_char ?c _ = true |- _ => apply Ascii.eqb_eq in E; subst c
         end.
  do 17 eexists. split; [exact H|]. split; [reflexivity|].
  cbn [forallb] in H.
  repeat match type of H with
         | (_ && _)%bool = true => let H' := fresh "D" in apply andb_prop in H as [H' H]
         end.
  repeat match goal with
         | E : is_digit ?c = true |- _ => apply is_digit_facts in E as (_ & _ & _ & E & _)
         end.
  cbn [flat_map]. unfold expand_Z.
  repeat match goal with E : is_char ?c "Z" = false |- _ => rewrite E; clear E end.
  reflexivity.
Qed.

Ltac digits_from H :=
  cbn [forallb] in H;
  repeat match type of H with
         | (_ && _)%bool = true =>
             let D := fresh "D" in apply andb_prop in H as [D H]
         end;
  clear H.

Ltac all_digits :=
  cbn [forallb];
  repeat match goal with
         | D : is_digit ?c = true |- context [is_digit ?c] => rewrite D
         end;
  reflexivity.

Ltac no_such_char :=
  cbn [existsb];
  repeat match goal with
         | D : is_digit ?c = true |- context [is_char ?c ?x] =>
             first [ rewrite (proj1 (proj2 (is_digit_facts c D)))
                   | rewrite (proj1 (proj2 (proj2 (is_digit_facts c D)))) ]
         end;
  reflexivity.

Lemma api_date_parses (y1 y2 y3 y4 m1 m2 d1 d2 : ascii) :
  forallb is_digit [y1; y2; y3; y4; m1; m2; d1; d2] = true ->
  parse_isoformat_date [y1; y2; y3; y4; "-"; m1; m2; "-"; d1; d2]%char
  = Some (num [y1; y2; y3; y4], num [m1; m2], num [d1; d2]).
Proof.
  intros H. digits_from H. unfold parse_isoformat_date.
  rewrite !parse_digits_num by all_digits. reflexivity.
Qed.

Lemma api_time_parses (h1 h2 n1 n2 s1 s2 u1 u2 u3 : ascii) :
  forallb is_digit [h1; h2; n1; n2; s1; s2; u1; u2; u3] = true ->
  parse_isoformat_time
    [h1; h2; ":"; n1; n2; ":"; s1; s2; "."; u1; u2; u3; "+"; "0"; "0"; ":"; "0"; "0"]%char
  = Some (num [h1; h2], num [n1; n2], num [s1; s2], (num [u1; u2; u3] * 1000)%Z,
          Some 0%Z).
Proof.
  intros H. digits_from H.
  unfold parse_isoformat_time. cbn [List.length Nat.ltb Nat.leb].
  unfold split_offset.
  rewrite split_at_char_none by no_such_char.
  assert (Hplus : existsb (fun d => is_char d "+")
                    [h1; h2; ":"; n1; n2; ":"; s1; s2; "."; u1; u2; u3]%char = false)
    by no_such_char.
  apply (split_at_char_first "+" _ ["0"; "0"; ":"; "0"; "0"]%char) in Hplus.
  cbn [app] in Hplus. rewrite Hplus.
  unfold parse_hh_mm_ss_ff at 1.
  rewrite !parse_digits_num by all_digits.
  unfold parse_fraction. cbn [List.length].
  rewrite !parse_digits_num by all_digits.
  reflexivity.
Qed.

(** [fromisoformat] reads an API timestamp, once its ["Z"] is replaced, to
    the datetime it denotes. *)
Lemma api_timestamp_parses (s : string) (t : datetime) :
  api_timestamp s = true -> api_datetime s = Some t -> valid_datetime t = true ->
  fromisoformat (replace_Z s) = Done t.
Proof.
  intros Hs Ht Hv.
  destruct (api_timestamp_chars s Hs)
    as (y1 & y2 & y3 & y4 & m1 & m2 & d1 & d2 & h1 & h2 & n1 & n2 & s1 & s2
        & u1 & u2 & u3 & Hd & Hcs & Hrep).
  unfold api_datetime in Ht. rewrite Hcs in Ht. injection Ht as Ht.
  unfold fromisoformat. rewrite Hrep. cbn [firstn skipn].
  digits_from Hd.
  rewrite api_date_parses by all_digits.
  rewrite api_time_parses by all_digits.
  subst t. exact (make_datetime_valid _ Hv).
Qed.

Lemma api_datetime_utc (s : string) (t : datetime) :
  api_datetime s = Some t -> utcoffset t = Some 0%Z.
Proof.
  unfold api_datetime. destruct (list_ascii_of_string s) as [|c cs]; [discriminate|].
  do 23 (destruct cs as [|? cs]; [discriminate|]).
  destruct cs; [|discriminate]. intros H. injection H as <-. reflexivity.
Qed.

(** One push with an API timestamp, scanned when the running maximum is
    aware *)
Lemma scan_event_api (e : json) (s : string) (t : datetime)
    (st : UserActivityLastCommit.push_state) (t0 : Z) :
  relevant e = true -> push_data_ok e = true ->
  field "created_at" e = JStr s ->
  api_timestamp s = true -> api_datetime s = Some t -> valid_datetime t = true ->
  utc_instant (UserActivityLastCommit.last_push_datetime st) = Some t0 ->
  UserActivityLastCommit.scan_event e st = Done (pushed_at t (commit_to e) t0 st).
Proof.
  intros Hrel Hpd Hfield Hs Ht Hv Ht0.
  destruct e as [| | | |l|d]; try discriminate Hrel.
  unfold UserActivityLastCommit.scan_event. rewrite get_action_name. cbn [bind].
  fold (relevant (JDict d)). rewrite Hrel. unfold py_index.
  cbn [field] in Hfield.
  destruct (assoc "created_at" d) as [created|] eqn:Hc; [|discriminate Hfield].
  subst created. cbn [bind py_replace_Z].
  rewrite (api_timestamp_parses s t Hs Ht Hv). cbn [bind].
  unfold dt_gt. rewrite (api_datetime_utc s t Ht).
  unfold utc_instant in Ht0.
  destruct (utcoffset (UserActivityLastCommit.last_push_datetime st)) as [o0|];
    [|discriminate Ht0].
  cbn [option_map] in Ht0. injection Ht0 as Ht0. rewrite Ht0, Z.sub_0_r.
  cbn [bind]. unfold pushed_at.
  destruct (t0 <? local_us t)%Z; [|reflexivity].
  unfold py_get at 1. cbn [bind]. unfold commit_to.
  unfold push_data_ok in Hpd.
  destruct (assoc "push_data" d) as [[| | | | |pd]|]; try discriminate Hpd;
    reflexivity.
Qed.

Lemma pushed_at_state (t : datetime) (sha : json) (t0 : Z)
    (st : UserActivityLastCommit.push_state) :
  utcoffset t = Some 0%Z ->
  utc_instant (UserActivityLastCommit.last_push_datetime st) = Some t0 ->
  UserActivityLastCommit.push_count (pushed_at t sha t0 st)
  = S (UserActivityLastCommit.push_count st)
  /\ utc_instant (UserActivityLastCommit.last_push_datetime (pushed_at t sha t0 st))
     = Some (Z.max t0 (local_us t)).
Proof.
  intros Ho Ht0. unfold pushed_at.
  destruct (t0 <? local_us t)%Z eqn:Hcmp; cbn; (split; [reflexivity|]).
  - apply Z.ltb_lt in Hcmp. unfold utc_instant. rewrite Ho. cbn.
    f_equal. lia.
  - apply Z.ltb_ge in Hcmp. rewrite Ht0. f_equal. lia.
Qed.

(** A list of events of the API is reduced without an exception. *)
Lemma scan_events_api (events : list json) :
  forallb api_event events = true ->
  forall st t0,
    utc_instant (UserActivityLastCommit.last_push_datetime st) = Some t0 ->
    exists st' t1,
      for_each UserActivityLastCommit.scan_event events st = Done st'
      /\ UserActivityLastCommit.push_count st'
         = UserActivityLastCommit.push_count st + count_relevant events
      /\ utc_instant (UserActivityLastCommit.last_push_datetime st') = Some t1.
Proof.
  unfold count_relevant.
  induction events as [|e events IH]; intros Hall st t0 Ht0.
  - exists st, t0. cbn. auto.
  - cbn [forallb] in Hall. apply andb_prop in Hall as [He Hall].
    unfold api_event in He. apply andb_prop in He as [Hdict He].
    destruct e as [| | | |l|d]; try discriminate Hdict.
    cbn [for_each filter]. destruct (relevant (JDict d)) eqn:Hrel.
    + cbn [negb orb] in He. apply andb_prop in He as [Hpd Hc].
      unfold api_created_at in Hc.
      destruct (field "created_at" (JDict d)) as [| | |s| |] eqn:Hfield;
        try discriminate Hc.
      apply andb_prop in Hc as [Hs Hv].
      destruct (api_datetime s) as [t|] eqn:Ht; [|discriminate Hv].
      rewrite (scan_event_api _ s t st t0 Hrel Hpd Hfield Hs Ht Hv Ht0). cbn [bind].
      destruct (pushed_at_state t (commit_to (JDict d)) t0 st
                  (api_datetime_utc s t Ht) Ht0) as [Hcount Hnext].
      destruct (IH Hall _ _ Hnext) as (st' & t1 & Hrun & Hc' & Ht1).
      exists st', t1. split; [exact Hrun|]. split; [|exact Ht1].
      rewrite Hc', Hcount. cbn [List.length]. lia.
    + unfold UserActivityLastCommit.scan_event. rewrite get_action_name. cbn [bind].
      fold (relevant (JDict d)). rewrite Hrel. cbn [bind].
      apply (IH Hall st t0 Ht0).
Qed.

Lemma api_run_returns (srv : endpoint) (n fuel : nat) :
  1 <= n -> n <= fuel ->
  (forall p, 1 <= p < n -> full_page (srv p) = true) ->
  full_page (srv n) = false ->
  forallb api_event (fetched srv 1 n) = true ->
  exists date sha,
    UserActivityLastCommit.get_user_push_count srv fuel
    = Done (count_relevant (fetched srv 1 n), date, sha, seq 1 n).
Proof.
  intros Hn Hfuel Hfull Hlast Hall.
  destruct n as [|k]; [lia|].
  unfold UserActivityLastCommit.get_user_push_count.
  rewrite (event_pages_run _ srv k 1 fuel _ []);
    [|intros i Hi; apply Hfull; lia|exact Hlast|lia].
  destruct (scan_events_api _ Hall UserActivityLastCommit.initial_state _ eq_refl)
    as (st' & t1 & Hrun & Hcount & _).
  rewrite Hrun. cbn [bind fst snd app]. unfold UserActivityLastCommit.summary_of.
  rewrite Hcount. cbn [UserActivityLastCommit.initial_state
                         UserActivityLastCommit.push_count Nat.add].
  eauto.
Qed.

(** C9.  The last-push reducer orders aware datetimes.  A ["Z"] at the end
    of [created_at] becomes ["+00:00"] before the text is parsed, and the
    reducer reads a timestamp in the format of the events API to the
    datetime it denotes, at the offset zero of UTC.  A push with such a
    timestamp is counted and compared with the running maximum by their
    UTC instants: it becomes the latest push exactly when its instant is
    the later one.  A run over pages of events of the API returns, with
    the number of its pushes and the pages it requested: no comparison of
    a naive with an aware datetime is attempted.  More generally, a
    timestamp that carries its zone (a ["Z"] or a signed offset after the
    date) is read to an aware datetime whenever it is read, the running
    maximum starts aware and stays aware, and over events whose
    [created_at] carry their zone the comparison never raises the
    [TypeError] of a naive against an aware datetime. *)
Theorem C9_aware_comparison :
  (forall s, replace_Z (String.append s "Z") = String.append (replace_Z s) "+00:00")
  /\ (forall s t,
        api_timestamp s = true -> api_datetime s = Some t -> valid_datetime t = true ->
        fromisoformat (replace_Z s) = Done t /\ utc_instant t = Some (local_us t))
  /\ (forall e s t st t0,
        relevant e = true -> push_data_ok e = true ->
        field "created_at" e = JStr s ->
        api_timestamp s = true -> api_datetime s = Some t -> valid_datetime t = true ->
        utc_instant (UserActivityLastCommit.last_push_datetime st) = Some t0 ->
        UserActivityLastCommit.scan_event e st = Done (pushed_at t (commit_to e) t0 st))
  /\ (forall srv n fuel,
        1 <= n -> n <= fuel ->
        (forall p, 1 <= p < n -> full_page (srv p) = true) ->
        full_page (srv n) = false ->
        forallb api_event (fetched srv 1 n) = true ->
        exists date sha,
          UserActivityLastCommit.get_user_push_count srv fuel
          = Done (count_relevant (fetched srv 1 n), date, sha, seq 1 n)
          /\ UserActivityLastCommitByEmail.get_user_push_count srv fuel
             = Done (count_relevant (fetched srv 1 n), date, sha, seq 1 n))
  /\ (forall s, api_timestamp s = true -> zoned s = true)
  /\ (forall s t, zoned s = true -> fromisoformat (replace_Z s) = Done t ->
                  exists off, utcoffset t = Some off)
  /\ (forall events st,
        (forall e, In e events -> zoned_created_at e) ->
        for_each UserActivityLastCommit.scan_event events
          UserActivityLastCommit.initial_state = Done st ->
        exists off, utcoffset (UserActivityLastCommit.last_push_datetime st) = Some off)
  /\ (forall srv fuel,
        (forall p e, In e (records_of (srv p)) -> zoned_created_at e) ->
        UserActivityLastCommit.get_user_push_count srv fuel <> Raised TypeError
        /\ UserActivityLastCommitByEmail.get_user_push_count srv fuel <> Raised TypeError).
Proof.
  assert (Hinit : aware UserActivityLastCommit.initial_state) by discriminate.
  split; [|split; [|split; [|split; [|split; [|split; [|split]]]]]].
  - intros s. rewrite replace_Z_append. reflexivity.
  - intros s t Hs Ht Hv. split; [exact (api_timestamp_parses s t Hs Ht Hv)|].
    unfold utc_instant. rewrite (api_datetime_utc s t Ht). cbn [option_map].
    now rewrite Z.sub_0_r.
  - exact scan_event_api.
  - intros srv n fuel Hn Hfuel Hfull Hlast Hall.
    destruct (api_run_returns srv n fuel Hn Hfuel Hfull Hlast Hall) as (date & sha & H).
    exists date, sha. split; exact H.
  - exact api_timestamp_zoned.
  - intros s t Hz Ht. apply (zoned_aware s t Hz) in Ht.
    destruct (utcoffset t) as [off|]; [eauto|contradiction].
  - intros events st Hz H.
    apply (proj2 (scan_events_aware events _ Hinit Hz)) in H. unfold aware in H.
    destruct (utcoffset _) as [off|]; [eauto|contradiction].
  - intros srv fuel Hz.
    assert (H : UserActivityLastCommit.get_user_push_count srv fuel <> Raised TypeError).
    { unfold UserActivityLastCommit.get_user_push_count.
      pose proof (event_pages_aware srv fuel 1 _ [] Hinit Hz) as Hno.
      destruct (event_pages _ srv fuel 1 _ []) as [r|x|]; cbn [bind];
        [discriminate| |discriminate].
      intros E. apply Hno. injection E as ->. reflexivity. }
    split; exact H.
Qed.

Lemma C9_aware_comparison_witness :
  UserActivityLastCommit.scan_event sample_push UserActivityLastCommit.initial_state
  = Done {| UserActivityLastCommit.push_count := 1;
            UserActivityLastCommit.last_push_datetime :=
              mkdt 2024 3 1 10 0 0 0 (Some 0%Z);
            UserActivityLastCommit.last_push_commit_sha := JStr "c0ffee" |}
  /\ (exists date sha,
        UserActivityLastCommit.get_user_push_count
          (one_page [sample_push; merge_request_event; sample_push]) 1
        = Done (2, date, sha, [1]))
  /\ UserActivityLastCommit.get_user_push_count (one_page [sample_push]) 1
     <> Raised TypeError.
Proof.
  destruct C9_aware_comparison as (_ & _ & Hstep & Hrun & _ & _ & _ & Hno).
  split; [|split].
  - exact (Hstep sample_push "2024-03-01T10:00:00.000Z"%string
             (mkdt 2024 3 1 10 0 0 0 (Some 0%Z)) UserActivityLastCommit.initial_state
             epoch_one_us eq_refl eq_refl eq_refl eq_refl eq_refl eq_refl eq_refl).
  - destruct (Hrun (one_page [sample_push; merge_request_event; sample_push]) 1 1)
      as (date & sha & H & _);
      [lia | lia | intros p Hp; lia | reflexivity | reflexivity |].
    exists date, sha. exact H.
  - apply Hno.
    intros p e He s Hs.
    destruct p as [|[|p]]; try (destruct He; fail).
    destruct He as [<-|[]].
    injection Hs as <-. reflexivity.
Defined.

(** Without a zone the comparison is refused: the text parses to a naive
    datetime, and the running maximum is aware. *)
Example naive_created_at_raises :
  zoned "2024-03-01T10:00:00" = false
  /\ UserActivityLastCommit.get_user_push_count
       (one_page [push_at "2024-03-01T10:00:00" "c1"]) 1 = Raised TypeError.
Proof. split; reflexivity. Qed.

(** ** Records with missing fields (C10) *)

(** C10, at the record that breaks it.  A relevant event without
    [push_data] or without [commit_to] is reduced with the commit ["N/A"],
    and a user without [email] is loaded with the empty email.  A relevant
    event without [created_at] is read with [event['created_at']]: the
    last-push reducer raises [KeyError], which nothing catches, whereas the
    detailed reducer of [user_activity_commit.py] reads the same field
    with [event.get('created_at')] and goes on with [None]. *)
Theorem C10_missing_created_at_raises :
  UserActivityLastCommit.get_user_push_count (one_page [push_without_created_at]) 1
  = Raised KeyError
  /\ UserActivityLastCommitByEmail.get_user_push_count
       (one_page [push_without_created_at]) 1 = Raised KeyError
  /\ (exists row,
        UserActivityCommit.get_user_push_events (one_page [push_without_created_at]) 1
          (JStr "alice") = Done ([row], [1])
        /\ UserActivityCommit.Event_Date row = JNull)
  /\ UserActivity.get_user_push_count (one_page [push_without_created_at]) 1
     = Done (1, [1])
  /\ UserActivityLastCommit.get_user_push_count (one_page [push_without_push_data]) 1
     = Done (1, DateText 2024 3 1 10 0 0, JStr "N/A", [1])
  /\ UserActivityLastCommit.get_user_push_count (one_page [push_without_commit_to]) 1
     = Done (1, DateText 2024 3 1 10 0 0, JStr "N/A", [1])
  /\ UserActivityLastCommitByEmail.get_all_users_matching "" (one_page [bob]) 2
     = Done (Some [{| UserActivityLastCommitByEmail.user_id := JInt 2;
                      UserActivityLastCommitByEmail.username := JStr "bob";
                      UserActivityLastCommitByEmail.email := JStr "" |}], [1; 2]).
Proof.
  repeat split; try reflexivity.
  eexists. split; reflexivity.
Qed.

(** ** The email filter (C6) *)

Lemma prefix_iff (a b : string) :
  String.prefix a b = true <-> exists post, b = String.append a post.
Proof.
  revert b; induction a as [|c a IH]; intros b.
  - cbn. split; [intros _; exists b; reflexivity|now destruct b].
  - destruct b as [|d b]; cbn.
    + split; [discriminate|intros (post & H); discriminate H].
    + destruct (ascii_dec c d) as [->|Hne].
      * rewrite IH. split; intros (post & H); exists post; [now f_equal|now injection H].
      * split; [discriminate|]. intros (post & H). injection H as H _. congruence.
Qed.

Lemma contains_iff (needle hay : string) :
  contains needle hay = true <->
  exists pre post, hay = String.append pre (String.append needle post).
Proof.
  induction hay as [|c hay IH].
  - cbn [contains]. rewrite orb_false_r, prefix_iff. split.
    + intros (post & H). exists EmptyString, post. exact H.
    + intros (pre & post & H). destruct pre; [eauto|discriminate H].
  - cbn [contains]. rewrite orb_true_iff, prefix_iff, IH. split.
    + intros [(post & H)|(pre & post & H)].
      * exists EmptyString, post. exact H.
      * exists (String c pre), post. cbn. now f_equal.
    + intros (pre & post & H). destruct pre as [|d pre].
      * left. exists post. exact H.
      * right. cbn in H. injection H as _ H. eauto.
Qed.

Lemma lower_append (a b : string) :
  lower (String.append a b) = String.append (lower a) (lower b).
Proof. induction a as [|c a IH]; cbn; [reflexivity|]. now rewrite IH. Qed.

Lemma lower_split (s a b : string) :
  lower s = String.append a b ->
  exists x y, s = String.append x y /\ lower x = a /\ lower y = b.
Proof.
  revert s; induction a as [|c a IH]; intros s H.
  - exists EmptyString, s. auto.
  - destruct s as [|d s]; [discriminate H|].
    cbn in H. injection H as Hc H. apply IH in H as (x & y & -> & Hx & Hy).
    exists (String d x), y. cbn. rewrite Hc, Hx. auto.
Qed.

Lemma lower_lower_char (c : ascii) : lower_char (lower_char c) = lower_char c.
Proof.
  destruct c as [[] [] [] [] [] [] [] []]; reflexivity.
Qed.

Lemma lower_lower (s : string) : lower (lower s) = lower s.
Proof. induction s as [|c s IH]; cbn; [reflexivity|]. now rewrite lower_lower_char, IH. Qed.

(** The test of the script is the case-insensitive substring test. *)
Lemma contains_lower_iff (email_filter s : string) :
  contains (lower email_filter) (lower s) = true <-> ci_substring email_filter s.
Proof.
  rewrite contains_iff. unfold ci_substring. split.
  - intros (pre & post & H).
    apply lower_split in H as (x & y & -> & Hx & Hy).
    apply lower_split in Hy as (mid & z & -> & Hmid & Hz).
    exists x, mid, z. split; [reflexivity|]. exact Hmid.
  - intros (pre & mid & post & -> & Hmid).
    exists (lower pre), (lower post). now rewrite !lower_append, Hmid.
Qed.

Lemma contains_empty (hay : string) : contains EmptyString hay = true.
Proof. destruct hay; reflexivity. Qed.

Lemma empty_contains (needle : string) :
  needle <> EmptyString -> contains needle EmptyString = false.
Proof. destruct needle; [contradiction|reflexivity]. Qed.

Lemma lower_empty_inv (s : string) : lower s = EmptyString -> s = EmptyString.
Proof. destruct s; [reflexivity|discriminate]. Qed.

Lemma add_matching_user_typed (email_filter : string) (user : json) (s : string)
    (all_users : list UserActivityLastCommitByEmail.user_entry) :
  email_text user = Some s ->
  UserActivityLastCommitByEmail.add_matching_user email_filter user all_users
  = Done (if keeps email_filter user
          then all_users ++ [matching_entry user]
          else all_users).
Proof.
  unfold keeps, matching_entry. intros Hs. rewrite Hs.
  destruct user as [| | | |l|d]; try discriminate Hs.
  unfold email_text in Hs.
  unfold UserActivityLastCommitByEmail.add_matching_user. cbn [py_get bind field].
  destruct (assoc "email" d) as [[| | |s'| |]|]; try discriminate Hs;
    injection Hs as <-; cbn [py_lower bind];
    destruct (contains _ _); reflexivity.
Qed.

Lemma add_matching_users_typed (email_filter : string) (users : list json) :
  forall all_users,
    Forall (fun u => email_text u <> None) users ->
    for_each (UserActivityLastCommitByEmail.add_matching_user email_filter) users all_users
    = Done (all_users ++ map matching_entry (filter (keeps email_filter) users)).
Proof.
  induction users as [|u users IH]; intros all_users Hty.
  - cbn. now rewrite app_nil_r.
  - inversion Hty as [|? ? Hu Hrest]; subst.
    destruct (email_text u) as [s|] eqn:Hs; [|contradiction].
    cbn [for_each]. rewrite (add_matching_user_typed email_filter u s _ Hs). cbn [bind].
    rewrite IH by exact Hrest. cbn [filter].
    destruct (keeps email_filter u); [|reflexivity].
    cbn [map]. rewrite <- app_assoc. reflexivity.
Qed.

(** C6.  For a filter and an email of ASCII characters, where
    [str.lower()] folds the letters [A] to [Z] only: a user record whose
    [email] is such a text or is absent is kept by the loader exactly when
    the filter occurs in the email with letter case ignored.  Absent or
    empty, the email holds no filter that is not empty, and the user is
    not kept; the empty filter keeps every user whose [email] is a string
    or is absent.  Over the pages of a whole listing of users with ASCII
    emails, the users returned are the kept ones, in order. *)
Theorem C6_email_filter (email_filter : string) :
  (forall user s all_users,
      is_ascii email_filter = true ->
      email_text user = Some s ->
      is_ascii s = true ->
      UserActivityLastCommitByEmail.add_matching_user email_filter user all_users
      = Done (if keeps email_filter user then all_users ++ [matching_entry user]
              else all_users)
      /\ (keeps email_filter user = true <-> ci_substring email_filter s))
  /\ (forall user all_users,
        email_filter <> EmptyString ->
        email_text user = Some EmptyString ->
        keeps email_filter user = false
        /\ UserActivityLastCommitByEmail.add_matching_user email_filter user all_users
           = Done all_users)
  /\ (forall user all_users,
        email_filter = EmptyString ->
        email_text user <> None ->
        keeps email_filter user = true
        /\ UserActivityLastCommitByEmail.add_matching_user email_filter user all_users
           = Done (all_users ++ [matching_entry user]))
  /\ (forall srv n fuel,
        is_ascii email_filter = true ->
        1 <= n -> n <= fuel ->
        (forall p, 1 <= p < n -> nonempty_page (srv p) = true) ->
        srv n = Page [] ->
        Forall (fun u => ascii_email u = true) (fetched srv 1 n) ->
        UserActivityLastCommitByEmail.get_all_users_matching email_filter srv fuel
        = Done (Some (map matching_entry (filter (keeps email_filter) (fetched srv 1 n))),
                seq 1 n)).
Proof.
  assert (Hno : forall user, email_filter <> EmptyString ->
                  email_text user = Some EmptyString -> keeps email_filter user = false).
  { intros user Hne Hs. unfold keeps. rewrite Hs. cbn [lower].
    apply empty_contains. intros H. apply Hne. now apply lower_empty_inv. }
  assert (Hall : forall user, email_filter = EmptyString ->
                   email_text user <> None -> keeps email_filter user = true).
  { intros user -> Hs. unfold keeps.
    destruct (email_text user); [apply contains_empty|contradiction]. }
  split; [|split; [|split]].
  - intros user s all_users _ Hs _. split.
    + exact (add_matching_user_typed email_filter user s all_users Hs).
    + unfold keeps. rewrite Hs. apply contains_lower_iff.
  - intros user all_users Hne Hs. split; [exact (Hno user Hne Hs)|].
    rewrite (add_matching_user_typed email_filter user _ all_users Hs).
    now rewrite (Hno user Hne Hs).
  - intros user all_users Hempty Hs. split; [exact (Hall user Hempty Hs)|].
    destruct (email_text user) as [s|] eqn:Htext; [|contradiction].
    rewrite (add_matching_user_typed email_filter user s all_users Htext).
    rewrite Hall; [reflexivity|exact Hempty|congruence].
  - intros srv n fuel _ Hn Hfuel Hne Hempty Hty.
    assert (Hty' : Forall (fun u => email_text u <> None) (fetched srv 1 n)).
    { eapply Forall_impl; [|exact Hty]. intros u. unfold ascii_email.
      destruct (email_text u); [discriminate|discriminate]. }
    destruct n as [|k]; [lia|].
    rewrite (fetched_empty_last srv 1 k) in * by exact Hempty.
    unfold UserActivityLastCommitByEmail.get_all_users_matching.
    rewrite (user_pages_run _ srv k 1 fuel [] []).
    + rewrite add_matching_users_typed by exact Hty'. cbn [bind app].
      change (1 + k) with (S k). rewrite Hempty. reflexivity.
    + intros i Hi. apply Hne. lia.
    + change (1 + k) with (S k). rewrite Hempty. reflexivity.
    + lia.
Qed.

Lemma C6_email_filter_witness :
  keeps "kestrl" alice = true /\ ci_substring "kestrl" "Alice@Kestrl.io"
  /\ keeps "kestrl" bob = false
  /\ keeps "" bob = true
  /\ UserActivityLastCommitByEmail.get_all_users (one_page [alice; bob; carol]) 2
     = Done (Some [matching_entry alice], [1; 2]).
Proof.
  destruct (C6_email_filter "kestrl") as (Hone & Habsent & _ & Hall).
  destruct (C6_email_filter "") as (_ & _ & Hempty & _).
  split; [reflexivity|].
  split; [apply (proj2 (Hone alice "Alice@Kestrl.io"%string [] eq_refl eq_refl eq_refl));
          reflexivity|].
  split; [apply (Habsent bob []); [discriminate|reflexivity]|].
  split; [apply (Hempty bob []); [reflexivity|discriminate]|].
  apply (Hall (one_page [alice; bob; carol]) 2 2).
  - reflexivity.
  - lia.
  - lia.
  - intros p Hp. assert (p = 1) as -> by lia. reflexivity.
  - reflexivity.
  - repeat constructor.
Defined.

(** ** The order of the reports *)

Section SortedReverseFacts.

Context {R : Type}.
Variable key : R -> nat.

Lemma insert_desc_perm (x : R) (rows : list R) :
  Permutation (insert_desc key x rows) (x :: rows).
Proof.
  induction rows as [|y rows IH]; cbn [insert_desc]; [reflexivity|].
  destruct (key y <=? key x); [reflexivity|].
  rewrite IH. apply perm_swap.
Qed.

Lemma sorted_reverse_perm (rows : list R) :
  Permutation (sorted_reverse key rows) rows.
Proof.
  induction rows as [|x rows IH]; cbn [sorted_reverse fold_right]; [reflexivity|].
  fold (sorted_reverse key rows). rewrite insert_desc_perm. now constructor.
Qed.

Lemma insert_desc_descending (x : R) (rows : list R) :
  descending key rows -> descending key (insert_desc key x rows).
Proof.
  unfold descending.
  induction rows as [|y rows IH]; intros Hs; cbn [insert_desc].
  - repeat constructor.
  - inversion Hs as [|? ? Hrest Hall]; subst.
    destruct (key y <=? key x) eqn:Hle.
    + apply Nat.leb_le in Hle. constructor; [exact Hs|].
      constructor; [exact Hle|].
      eapply Forall_impl; [|exact Hall]. cbn. intros b Hb. lia.
    + apply Nat.leb_gt in Hle. constructor; [apply IH, Hrest|].
      apply (Permutation_Forall (Permutation_sym (insert_desc_perm x rows))).
      constructor; [lia|exact Hall].
Qed.

Lemma sorted_reverse_descending (rows : list R) :
  descending key (sorted_reverse key rows).
Proof.
  induction rows as [|x rows IH]; cbn [sorted_reverse fold_right].
  - constructor.
  - apply insert_desc_descending, IH.
Qed.

(** The rows of one key keep their order. *)
Lemma insert_desc_same_key (c : nat) (x : R) (rows : list R) :
  filter (fun r => key r =? c) (insert_desc key x rows)
  = filter (fun r => key r =? c) (x :: rows).
Proof.
  induction rows as [|y rows IH]; cbn [insert_desc]; [reflexivity|].
  destruct (key y <=? key x) eqn:Hle; [reflexivity|].
  apply Nat.leb_gt in Hle.
  cbn [filter] in *. rewrite IH.
  destruct (key y =? c) eqn:Hy; destruct (key x =? c) eqn:Hx; try reflexivity.
  apply Nat.eqb_eq in Hy, Hx. lia.
Qed.

Lemma sorted_reverse_stable (c : nat) (rows : list R) :
  filter (fun r => key r =? c) (sorted_reverse key rows)
  = filter (fun r => key r =? c) rows.
Proof.
  induction rows as [|x rows IH]; [reflexivity|].
  cbn [sorted_reverse fold_right]. fold (sorted_reverse key rows).
  rewrite insert_desc_same_key. cbn [filter]. now rewrite IH.
Qed.

End SortedReverseFacts.

Lemma tie_reversing_sort_descending : sorts_descending tie_reversing_sort.
Proof.
  intros R key rows. unfold tie_reversing_sort. split.
  - rewrite sorted_reverse_perm. apply Permutation_sym, Permutation_rev.
  - apply sorted_reverse_descending.
Qed.

(** ** Who is reported (C7) *)

Lemma list_sum_cons (c : nat) (counts : list nat) :
  list_sum (c :: counts) = c + list_sum counts.
Proof. reflexivity. Qed.

Lemma contributors_cons (u : UserActivity.user_entry) (users : list UserActivity.user_entry)
    (c : nat) (counts : list nat) :
  contributors (u :: users) (c :: counts)
  = if 0 <? c then (UserActivity.username u, c) :: contributors users counts
    else contributors users counts.
Proof. unfold contributors. cbn. destruct c; reflexivity. Qed.

Lemma contributors_positive (users : list UserActivity.user_entry) (counts : list nat)
    (row : json * nat) :
  In row (contributors users counts) -> 0 < snd row.
Proof.
  unfold contributors. intros H. apply in_map_iff in H as ([u c] & <- & H).
  apply filter_In in H as [_ H]. cbn in *. now apply Nat.ltb_lt.
Qed.

Lemma contributors_length (users : list UserActivity.user_entry) (counts : list nat) :
  List.length users = List.length counts ->
  List.length (contributors users counts) = List.length (filter (Nat.ltb 0) counts).
Proof.
  revert counts; induction users as [|u users IH]; intros [|c counts] Hlen;
    try discriminate; [reflexivity|].
  rewrite contributors_cons. cbn [filter].
  injection Hlen as Hlen. destruct (0 <? c); cbn [List.length]; rewrite IH; auto.
Qed.

Lemma dict_set_fresh {V} (d : list (json * V)) (k : json) (v : V) :
  (forall k', In k' (map fst d) -> key_eqb k' k = false) ->
  dict_set d k v = d ++ [(k, v)].
Proof.
  induction d as [|[k0 v0] d IH]; intros Hfresh; [reflexivity|].
  cbn [dict_set]. rewrite (Hfresh k0) by (left; reflexivity).
  cbn [app]. f_equal. apply IH. intros k' Hk'. apply Hfresh. now right.
Qed.

Lemma dict_set_values {V} (d : list (json * V)) (k : json) (v : V) (row : json * V) :
  In row (dict_set d k v) -> In row d \/ snd row = v.
Proof.
  induction d as [|[k0 v0] d IH]; cbn [dict_set].
  - intros [<-|[]]. now right.
  - destruct (key_eqb k0 k).
    + intros [<-|H]; [now right|left; now right].
    + intros [<-|H]; [left; now left|]. destruct (IH H); [left; now right|now right].
Qed.

(** One user of the main loop of [user_activity.py] *)
Lemma visit_user_Done (events_api : json -> endpoint) (fuel : nat)
    (u : UserActivity.user_entry) (st st1 : list (json * nat) * nat) :
  UserActivity.visit_user events_api fuel u st = Done st1 ->
  exists c,
    counted events_api fuel u c
    /\ st1 = (if 0 <? c
              then (dict_set (fst st) (UserActivity.username u) c, snd st + c)
              else st).
Proof.
  unfold UserActivity.visit_user, counted. intros H.
  destruct (UserActivity.get_user_push_count _ fuel) as [[c log]| |];
    cbn [bind fst] in H; try discriminate.
  exists c. split; [eauto|].
  destruct (0 <? c); [|now injection H].
  unfold py_setitem in H. destruct (hashable _); cbn [bind] in H; [|discriminate].
  destruct (py_format_width _); cbn [bind] in H; try discriminate. now injection H.
Qed.

(** The main loop of [user_activity.py] *)
Lemma visit_users_Done (events_api : json -> endpoint) (fuel : nat)
    (users : list UserActivity.user_entry) :
  forall st st',
    for_each (UserActivity.visit_user events_api fuel) users st = Done st' ->
    exists counts,
      Forall2 (counted events_api fuel) users counts
      /\ snd st' = snd st + list_sum counts
      /\ ((forall row, In row (fst st) -> 0 < snd row) ->
          forall row, In row (fst st') -> 0 < snd row)
      /\ (distinct_usernames users ->
          (forall k u, In k (map fst (fst st)) -> In u users ->
                       key_eqb k (UserActivity.username u) = false) ->
          fst st' = fst st ++ contributors users counts).
Proof.
  induction users as [|u users IH]; intros st st' H.
  - injection H as <-. exists []. cbn. rewrite app_nil_r. repeat split; auto.
  - apply for_each_cons_Done in H as (st1 & Hu & Hrest).
    apply visit_user_Done in Hu as (c & Hc & ->).
    apply IH in Hrest as (counts & Hcounts & Hsum & Hpos & Hrows).
    exists (c :: counts). split; [now constructor|].
    destruct (0 <? c) eqn:Hc0.
    + cbn [fst snd] in *. apply Nat.ltb_lt in Hc0.
      split; [rewrite list_sum_cons; lia|]. split.
      * intros Hst. apply Hpos. intros row Hrow.
        apply dict_set_values in Hrow as [Hrow| ->]; auto.
      * intros Hdist Hfresh. inversion Hdist as [|? ? Hu Hrest']; subst.
        rewrite contributors_cons, (proj2 (Nat.ltb_lt _ _) Hc0).
        rewrite dict_set_fresh in Hrows
          by (intros k' Hk'; apply (Hfresh k' u); [exact Hk'|now left]).
        rewrite Hrows; [now rewrite <- app_assoc|exact Hrest'|].
        intros k u' Hk Hu'. rewrite map_app in Hk. apply in_app_or in Hk as [Hk|[<-|[]]].
        -- apply (Hfresh k u'); [exact Hk|now right].
        -- rewrite Forall_forall in Hu. apply Hu, Hu'.
    + apply Nat.ltb_ge in Hc0. assert (c = 0) as -> by lia.
      split; [rewrite list_sum_cons; lia|]. split; [exact Hpos|].
      intros Hdist Hfresh. inversion Hdist as [|? ? Hu Hrest']; subst.
      rewrite contributors_cons. cbn. apply Hrows; [exact Hrest'|].
      intros k u' Hk Hu'. apply (Hfresh k u'); [exact Hk|now right].
Qed.

(** The main loop of [user_activity_commit.py] *)
Lemma visit_users_commit_Done (events_api : json -> endpoint) (fuel : nat)
    (users : list UserActivity.user_entry) :
  forall st st',
    for_each (UserActivityCommit.visit_user events_api fuel) users st = Done st' ->
    exists counts,
      Forall2 (collected events_api fuel) users counts
      /\ UserActivityCommit.acc_pushes st'
         = UserActivityCommit.acc_pushes st + list_sum counts
      /\ UserActivityCommit.acc_summary st'
         = UserActivityCommit.acc_summary st ++ contributors users counts
      /\ List.length (UserActivityCommit.acc_detailed st')
         = List.length (UserActivityCommit.acc_detailed st) + list_sum counts.
Proof.
  induction users as [|u users IH]; intros st st' H.
  - injection H as <-. exists []. cbn. rewrite app_nil_r. repeat split; auto.
  - apply for_each_cons_Done in H as (st1 & Hu & Hrest).
    unfold UserActivityCommit.visit_user in Hu.
    destruct (UserActivityCommit.get_user_push_events _ fuel _) as [[rows log]| |] eqn:Hev;
      cbn [bind fst] in Hu; try discriminate.
    apply IH in Hrest as (counts & Hcounts & Hsum & Hrows & Hdet).
    exists (List.length rows :: counts).
    split; [constructor; [exists rows, log; auto|exact Hcounts]|].
    rewrite contributors_cons.
    destruct (0 <? List.length rows) eqn:Hc0.
    + destruct (py_format_width _); cbn [bind] in Hu; try discriminate.
      injection Hu as <-. cbn [UserActivityCommit.acc_pushes
        UserActivityCommit.acc_summary UserActivityCommit.acc_detailed] in *.
      rewrite Hsum, Hrows, Hdet, length_app, <- app_assoc, list_sum_cons. cbn [app].
      repeat split; lia.
    + injection Hu as <-. apply Nat.ltb_ge in Hc0.
      assert (Hz : List.length rows = 0) by lia. rewrite Hz in *.
      rewrite Hsum, Hrows, Hdet, list_sum_cons. repeat split; lia.
Qed.

Lemma Forall2_same_length {A B} (P : A -> B -> Prop) (xs : list A) (ys : list B) :
  Forall2 P xs ys -> List.length xs = List.length ys.
Proof. induction 1; cbn; congruence. Qed.

(** C7.  A run that reports has fetched a list of users and reduced each
    of them to a count.  The total printed is the sum of these counts.
    Every row stored, printed or written has a positive count: when no two
    users share a username, the mapping of [user_activity.py] holds
    exactly the rows of the users with a positive count, in order, and the
    number of contributors printed is the number of these users; the list
    of [user_activity_commit.py] holds exactly these rows in any case, and
    its table and its sheet are arrangements of them. *)
Theorem C7_only_contributors_reported :
  (forall configured users_api events_api fuel rep,
      UserActivity.main configured users_api events_api fuel = Done (Some rep) ->
      exists users counts log,
        UserActivity.get_all_users users_api fuel = Done (Some users, log)
        /\ Forall2 (counted events_api fuel) users counts
        /\ UserActivity.total_pushes rep = list_sum counts
        /\ (forall row, In row (UserActivity.results rep) -> 0 < snd row)
        /\ (forall row, In row (UserActivity.table rep) -> 0 < snd row)
        /\ (distinct_usernames users ->
            UserActivity.results rep = contributors users counts
            /\ Permutation (UserActivity.table rep) (contributors users counts)
            /\ UserActivity.unique_contributors rep
               = List.length (filter (Nat.ltb 0) counts)))
  /\ (forall sort_values export_ok configured users_api events_api fuel rep,
        sorts_descending sort_values ->
        UserActivityCommit.main sort_values export_ok configured users_api events_api
          fuel
        = Done (Some rep) ->
        exists users counts log,
          UserActivityCommit.get_all_users users_api fuel = Done (Some users, log)
          /\ Forall2 (collected events_api fuel) users counts
          /\ UserActivityCommit.total_pushes rep = list_sum counts
          /\ UserActivityCommit.summary_results rep = contributors users counts
          /\ Permutation (UserActivityCommit.table rep) (contributors users counts)
          /\ UserActivityCommit.unique_contributors rep
             = List.length (filter (Nat.ltb 0) counts)
          /\ (forall book,
                UserActivityCommit.spreadsheet rep = Some book ->
                Permutation (UserActivityCommit.Summary book) (contributors users counts)
                /\ List.length (UserActivityCommit.Detailed_Activity book)
                   = list_sum counts)).
Proof.
  split.
  - intros configured users_api events_api fuel rep.
    unfold UserActivity.main. destruct configured; [|discriminate].
    destruct (UserActivity.get_all_users users_api fuel) as [[users log]| |];
      cbn [bind fst]; try discriminate.
    destruct users as [[|u users]|]; try discriminate.
    destruct (for_each _ (u :: users) _) as [st| |] eqn:Hloop; cbn [bind];
      try discriminate.
    intros H. injection H as <-.
    apply visit_users_Done in Hloop as (counts & Hcounts & Hsum & Hpos & Hrows).
    cbn [fst snd] in *.
    assert (Hall : forall row, In row (fst st) -> 0 < snd row)
      by (apply Hpos; intros row []).
    exists (u :: users), counts, log.
    cbn [UserActivity.total_pushes UserActivity.results UserActivity.table
           UserActivity.unique_contributors].
    split; [reflexivity|]. split; [exact Hcounts|]. split; [exact Hsum|].
    split; [exact Hall|]. split.
    + intros row Hrow. apply Hall.
      apply (Permutation_in _ (sorted_reverse_perm snd (fst st))). exact Hrow.
    + intros Hdist. rewrite (Hrows Hdist) by (intros k u' []).
      cbn [app]. split; [reflexivity|]. split; [apply sorted_reverse_perm|].
      apply contributors_length. now apply Forall2_same_length in Hcounts.
  - intros sort_values export_ok configured users_api events_api fuel rep Hsort.
    unfold UserActivityCommit.main. destruct configured; [|discriminate].
    destruct (UserActivityCommit.get_all_users users_api fuel) as [[users log]| |];
      cbn [bind fst]; try discriminate.
    destruct users as [[|u users]|]; try discriminate.
    destruct (for_each _ (u :: users) _) as [st| |] eqn:Hloop; cbn [bind];
      try discriminate.
    intros H. injection H as <-.
    apply visit_users_commit_Done in Hloop as (counts & Hcounts & Hsum & Hrows & Hdet).
    cbn [UserActivityCommit.acc_pushes UserActivityCommit.acc_summary
           UserActivityCommit.acc_detailed app List.length] in *.
    exists (u :: users), counts, log.
    cbn [UserActivityCommit.total_pushes UserActivityCommit.summary_results
           UserActivityCommit.table UserActivityCommit.unique_contributors
           UserActivityCommit.spreadsheet].
    split; [reflexivity|]. split; [exact Hcounts|]. split; [exact Hsum|].
    split; [exact Hrows|]. rewrite Hrows.
    split; [apply sorted_reverse_perm|].
    split; [apply contributors_length; now apply Forall2_same_length in Hcounts|].
    intros book Hbook.
    destruct (is_empty (UserActivityCommit.acc_detailed st)); [discriminate|].
    unfold UserActivityCommit.save_to_excel in Hbook.
    destruct export_ok; [|discriminate].
    injection Hbook as <-. cbn. split; [apply Hsort|exact Hdet].
Qed.

Lemma C7_only_contributors_reported_witness :
  UserActivity.main true three_users three_users_events 2 = Done (Some three_users_report)
  /\ exists users counts log,
       UserActivity.get_all_users three_users 2 = Done (Some users, log)
       /\ Forall2 (counted three_users_events 2) users counts
       /\ UserActivity.total_pushes three_users_report = list_sum counts
       /\ (forall row, In row (UserActivity.results three_users_report) -> 0 < snd row)
       /\ (forall row, In row (UserActivity.table three_users_report) -> 0 < snd row)
       /\ (distinct_usernames users ->
           UserActivity.results three_users_report = contributors users counts
           /\ Permutation (UserActivity.table three_users_report)
                (contributors users counts)
           /\ UserActivity.unique_contributors three_users_report
              = List.length (filter (Nat.ltb 0) counts)).
Proof.
  split; [reflexivity|].
  exact (proj1 C7_only_contributors_reported true three_users three_users_events 2
           three_users_report eq_refl).
Defined.

(** C7 as it is written fails for the mapping of [user_activity.py]: two
    fetched users of one username, with 2 and 3 pushes, share one row;
    the run prints one contributor where two users have pushes, and the
    row holds the count of the second while the total is 5. *)
Lemma C7_shared_username_counterexample :
  exists rep users counts log,
    UserActivity.main true namesakes three_users_events 2 = Done (Some rep)
    /\ UserActivity.get_all_users namesakes 2 = Done (Some users, log)
    /\ Forall2 (counted three_users_events 2) users counts
    /\ List.length (filter (Nat.ltb 0) counts) = 2
    /\ UserActivity.unique_contributors rep = 1
    /\ UserActivity.results rep = [(JStr "A", 3)]
    /\ UserActivity.total_pushes rep = 5.
Proof.
  eexists. exists [entry_of (user_record 1 "A"); entry_of (user_record 3 "A")], [2; 3].
  eexists. split; [reflexivity|]. split; [reflexivity|].
  split; [|repeat split].
  repeat constructor; eexists; reflexivity.
Qed.

(** * Further properties of the scripts *)

(** ** The project listing *)

Lemma scan_projects_rows (projects : list json) :
  forall acc,
    forallb is_dict projects = true ->
    GetProjects.scan_projects projects acc
    = (acc ++ map project_row (filter has_id projects), true).
Proof.
  induction projects as [|p projects IH]; intros acc Hd.
  - cbn. now rewrite app_nil_r.
  - cbn [forallb] in Hd. apply andb_prop in Hd as [Hp Hd].
    destruct p as [| | | |l|d]; try discriminate.
    cbn [GetProjects.scan_projects filter]. unfold has_id at 1. cbn [field].
    destruct (truthy _).
    + rewrite IH by exact Hd. cbn [map]. unfold project_row at 2. cbn [field].
      now rewrite <- app_assoc.
    + apply IH, Hd.
Qed.

Lemma scan_projects_stops_at (good rest : list json) (bad : json) (acc : list (json * json)) :
  forallb is_dict good = true -> is_dict bad = false ->
  GetProjects.scan_projects (good ++ bad :: rest) acc
  = (acc ++ map project_row (filter has_id good), false).
Proof.
  intros Hgood Hbad. rewrite scan_projects_app, scan_projects_rows by exact Hgood.
  cbn [fst snd]. destruct bad; try discriminate; reflexivity.
Qed.

(** The project loop over [k] pages that have records and are scanned to
    their end: it goes on from page [page + k]. *)
Lemma projects_loop_advance (srv : endpoint) (k : nat) :
  forall (page fuel : nat) (acc : list (json * json)) (log : list nat),
    (forall i, i < k -> nonempty_page (srv (page + i)) = true) ->
    snd (GetProjects.scan_projects (fetched srv page k) acc) = true ->
    GetProjects.projects_loop srv (k + fuel) page acc log
    = GetProjects.projects_loop srv fuel (page + k)
        (fst (GetProjects.scan_projects (fetched srv page k) acc))
        (log ++ seq page k).
Proof.
  induction k as [|k IH]; intros page fuel acc log Hne Hok.
  - cbn. now rewrite Nat.add_0_r, app_nil_r.
  - assert (H0 : nonempty_page (srv page) = true).
    { specialize (Hne 0). rewrite Nat.add_0_r in Hne. apply Hne. lia. }
    destruct (nonempty_page_inv _ H0) as (e & l & Hpage).
    rewrite fetched_cons, Hpage in Hok |- *. cbn [records_of] in Hok |- *.
    rewrite scan_projects_app in Hok |- *.
    cbn [Nat.add GetProjects.projects_loop]. rewrite Hpage. cbn [is_empty].
    destruct (GetProjects.scan_projects (e :: l) acc) as [acc1 ok] eqn:Hscan.
    cbn [fst snd] in *. destruct ok; [|discriminate].
    rewrite (IH (S page) fuel acc1 (log ++ [page])).
    + replace (S page + k) with (page + S k) by lia.
      cbn [seq]. rewrite <- app_assoc. reflexivity.
    + intros i Hi. replace (S page + i) with (page + S i) by lia. apply Hne. lia.
    + exact Hok.
Qed.

(** X1.  The project fetcher keeps a record only when its [id] is truthy:
    over pages of dict records up to the first empty page, its rows are
    the [(id, path_with_namespace)] of the records whose id is neither
    missing, [None], [0], empty nor [False], in fetch order. *)
Theorem X1_projects_without_id_are_skipped (srv : endpoint) (n fuel : nat) :
  1 <= n -> n <= fuel ->
  (forall p, 1 <= p < n -> nonempty_page (srv p) = true) ->
  srv n = Page [] ->
  forallb is_dict (fetched srv 1 n) = true ->
  GetProjects.get_all_project_ids srv fuel
  = Done (map project_row (filter has_id (fetched srv 1 n)), seq 1 n).
Proof.
  intros Hn Hfuel Hne Hempty Hdicts.
  destruct n as [|k]; [lia|].
  rewrite (fetched_empty_last srv 1 k) in * by exact Hempty.
  unfold GetProjects.get_all_project_ids.
  rewrite (projects_loop_run srv k 1 fuel [] []).
  - now rewrite scan_projects_rows by exact Hdicts.
  - intros i Hi. apply Hne. lia.
  - change (1 + k) with (S k). now rewrite Hempty.
  - now rewrite scan_projects_rows by exact Hdicts.
  - lia.
Qed.

Lemma X1_projects_without_id_are_skipped_witness :
  GetProjects.get_all_project_ids two_project_pages 3
  = Done ([(JInt 7, JStr "team/api"); (JInt 9, JStr "team/web")], [1; 2; 3]).
Proof.
  apply (X1_projects_without_id_are_skipped two_project_pages 3 3).
  - lia.
  - lia.
  - intros p Hp. destruct p as [|[|[|p]]]; try lia; reflexivity.
  - reflexivity.
  - reflexivity.
Defined.

(** X2.  A record that is no dict ends the project listing where it
    stands: the exception is caught by [except Exception], the rows of the
    earlier pages and of the records before it on its page are returned,
    the records after it are dropped and no further page is requested. *)
Theorem X2_malformed_project_ends_listing (srv : endpoint) (k fuel : nat)
    (good rest : list json) (bad : json) :
  1 <= k -> k <= fuel ->
  (forall p, 1 <= p < k -> nonempty_page (srv p) = true) ->
  forallb is_dict (fetched srv 1 (k - 1)) = true ->
  srv k = Page (good ++ bad :: rest) ->
  forallb is_dict good = true -> is_dict bad = false ->
  GetProjects.get_all_project_ids srv fuel
  = Done (map project_row (filter has_id (fetched srv 1 (k - 1) ++ good)), seq 1 k).
Proof.
  intros Hk Hfuel Hne Hdicts Hpage Hgood Hbad.
  destruct k as [|j]; [lia|]. replace (S j - 1) with j in * by lia.
  destruct (Nat.le_exists_sub (S j) fuel Hfuel) as (f & -> & _).
  replace (f + S j) with (j + S f) by lia.
  unfold GetProjects.get_all_project_ids.
  rewrite projects_loop_advance.
  - rewrite scan_projects_rows by exact Hdicts. cbn [fst app].
    cbn [GetProjects.projects_loop]. change (1 + j) with (S j). rewrite Hpage.
    destruct (good ++ bad :: rest) eqn:Hl; [now destruct good|]. cbn [is_empty].
    rewrite <- Hl, scan_projects_stops_at by assumption.
    rewrite filter_app, map_app, seq_S. reflexivity.
  - intros i Hi. apply Hne. lia.
  - now rewrite scan_projects_rows by exact Hdicts.
Qed.

Lemma X2_malformed_project_ends_listing_witness :
  GetProjects.get_all_project_ids broken_project_page 5
  = Done ([(JInt 7, JStr "team/api"); (JInt 9, JStr "team/web")], [1; 2]).
Proof.
  apply (X2_malformed_project_ends_listing broken_project_page 2 5
           [project_record (JInt 9) "team/web"]
           [project_record (JInt 11) "team/late"] (JStr "oops")).
  - lia.
  - lia.
  - intros p Hp. assert (p = 1) as -> by lia. reflexivity.
  - reflexivity.
  - reflexivity.
  - reflexivity.
  - reflexivity.
Defined.

Lemma print_projects_ok (rows : list (json * json)) :
  Forall (fun row => py_format_width (fst row) = Done tt) rows ->
  for_each GetProjectsMain.print_project rows tt = Done tt.
Proof.
  induction 1 as [|row rows Hrow _ IH]; [reflexivity|].
  cbn [for_each]. unfold GetProjectsMain.print_project at 1. rewrite Hrow. exact IH.
Qed.

(** X3.  The main block of [get_projects.py] tells an error from an empty
    account only by the list it got.  When the first page fails or is
    empty it prints that no project could be retrieved, the same line in
    both cases.  When a later page fails it prints the projects of the
    pages before it, with their number as the total, as a success. *)
Theorem X3_project_report_hides_errors :
  (forall srv fuel,
      1 <= fuel -> nonempty_page (srv 1) = false ->
      GetProjectsMain.main true srv fuel = Done GetProjectsMain.CouldNotRetrieve)
  /\ (forall srv n fuel,
        let rows := map project_row (filter has_id (fetched srv 1 (n - 1))) in
        1 <= n -> n <= fuel ->
        (forall p, 1 <= p < n -> nonempty_page (srv p) = true) ->
        srv n = RequestException ->
        forallb is_dict (fetched srv 1 (n - 1)) = true ->
        rows <> [] ->
        Forall (fun row => py_format_width (fst row) = Done tt) rows ->
        GetProjectsMain.main true srv fuel
        = Done (GetProjectsMain.Retrieved rows (List.length rows))).
Proof.
  split.
  - intros srv fuel Hfuel Hfirst. destruct fuel as [|f]; [lia|].
    unfold GetProjectsMain.main, GetProjects.get_all_project_ids.
    cbn [GetProjects.projects_loop].
    destruct (srv 1) as [[|e l]|]; try discriminate Hfirst; reflexivity.
  - intros srv n fuel. cbv zeta. intros Hn Hfuel Hne Hfail.
    destruct n as [|k]; [lia|]. replace (S k - 1) with k by lia.
    remember (map project_row (filter has_id (fetched srv 1 k))) as rows eqn:Hr.
    intros Hdicts Hrows Hfmt.
    unfold GetProjectsMain.main, GetProjects.get_all_project_ids.
    rewrite (projects_loop_run srv k 1 fuel [] []).
    + rewrite scan_projects_rows by exact Hdicts. cbn [bind fst app]. rewrite <- Hr.
      destruct rows as [|row rows']; [contradiction|]. cbn [is_empty].
      now rewrite print_projects_ok by exact Hfmt.
    + intros i Hi. apply Hne. lia.
    + change (1 + k) with (S k). now rewrite Hfail.
    + now rewrite scan_projects_rows by exact Hdicts.
    + lia.
Qed.

Lemma X3_project_report_hides_errors_witness :
  GetProjectsMain.main true (fun _ => RequestException) 1
  = Done GetProjectsMain.CouldNotRetrieve
  /\ GetProjectsMain.main true (fun _ => Page []) 1
     = Done GetProjectsMain.CouldNotRetrieve
  /\ GetProjectsMain.main true fails_on_page_2 2
     = Done (GetProjectsMain.Retrieved [(JInt 1, JNull); (JInt 2, JNull)] 2).
Proof.
  destruct X3_project_report_hides_errors as [Hnone Hpartial].
  split; [apply Hnone; [lia|reflexivity]|].
  split; [apply Hnone; [lia|reflexivity]|].
  apply (Hpartial fails_on_page_2 2 2).
  - lia.
  - lia.
  - intros p Hp. assert (p = 1) as -> by lia. reflexivity.
  - reflexivity.
  - reflexivity.
  - discriminate.
  - repeat constructor.
Defined.

(** ** Loading the users *)

Lemma for_each_raises_at {A St} (body : A -> St -> outcome St) (good rest : list A)
    (bad : A) (st st1 : St) (x : exn) :
  for_each body good st = Done st1 -> body bad st1 = Raised x ->
  for_each body (good ++ bad :: rest) st = Raised x.
Proof.
  intros Hgood Hbad. rewrite for_each_app, Hgood. cbn [bind for_each].
  now rewrite Hbad.
Qed.

(** The user loop over [k] pages that have records: it goes on from page
    [page + k] with the list the body built, unless the body raised. *)
Lemma user_pages_advance {Entry} (body : json -> list Entry -> outcome (list Entry))
    (srv : endpoint) (k : nat) :
  forall (page fuel : nat) (acc : list Entry) (log : list nat),
    (forall i, i < k -> nonempty_page (srv (page + i)) = true) ->
    user_pages body srv (k + fuel) page acc log
    = all_users <- for_each body (fetched srv page k) acc ;;
      user_pages body srv fuel (page + k) all_users (log ++ seq page k).
Proof.
  induction k as [|k IH]; intros page fuel acc log Hne.
  - cbn. now rewrite Nat.add_0_r, app_nil_r.
  - assert (H0 : nonempty_page (srv page) = true).
    { specialize (Hne 0). rewrite Nat.add_0_r in Hne. apply Hne. lia. }
    destruct (nonempty_page_inv _ H0) as (e & l & Hpage).
    rewrite fetched_cons, for_each_app, Hpage. cbn [records_of].
    cbn [Nat.add user_pages]. rewrite Hpage. cbn [is_empty]. rewrite bind_assoc.
    destruct (for_each body (e :: l) acc) as [acc1| |]; cbn [bind]; try reflexivity.
    rewrite (IH (S page) fuel acc1 (log ++ [page])).
    + replace (S page + k) with (page + S k) by lia.
      cbn [seq]. rewrite <- app_assoc. reflexivity.
    + intros i Hi. replace (S page + i) with (page + S i) by lia. apply Hne. lia.
Qed.

Lemma typed_is_dict (users : list json) :
  Forall (fun u => email_text u <> None) users -> forallb is_dict users = true.
Proof.
  induction 1 as [|u users Hu _ IH]; [reflexivity|].
  cbn [forallb]. rewrite IH. destruct u; try reflexivity; now cbn in Hu.
Qed.

Lemma keeps_everything (users : list json) :
  Forall (fun u => email_text u <> None) users -> filter (keeps "") users = users.
Proof.
  induction 1 as [|u users Hu _ IH]; [reflexivity|].
  cbn [filter]. unfold keeps at 1. destruct (email_text u); [|contradiction].
  cbn [lower]. rewrite contains_empty. now rewrite IH.
Qed.

(** X4.  [get_all_users] stops at the first empty page only: over pages
    of dict records it returns one entry per record, in fetch order, each
    with the [id] and [username] of its record ([None] for a missing
    field), and it has requested every page up to the empty one, a short
    page included. *)
Theorem X4_users_one_entry_per_record (srv : endpoint) (n fuel : nat) :
  1 <= n -> n <= fuel ->
  (forall p, 1 <= p < n -> nonempty_page (srv p) = true) ->
  srv n = Page [] ->
  forallb is_dict (fetched srv 1 n) = true ->
  UserActivity.get_all_users srv fuel
  = Done (Some (map entry_of (fetched srv 1 n)), seq 1 n)
  /\ UserActivityCommit.get_all_users srv fuel
     = Done (Some (map entry_of (fetched srv 1 n)), seq 1 n)
  /\ UserActivityLastCommit.get_all_users srv fuel
     = Done (Some (map entry_of (fetched srv 1 n)), seq 1 n).
Proof.
  intros Hn Hfuel Hne Hempty Hdicts.
  assert (H : UserActivity.get_all_users srv fuel
              = Done (Some (map entry_of (fetched srv 1 n)), seq 1 n)).
  { destruct n as [|k]; [lia|].
    rewrite (fetched_empty_last srv 1 k) in * by exact Hempty.
    unfold UserActivity.get_all_users.
    rewrite (user_pages_run UserActivity.add_user srv k 1 fuel [] []).
    - rewrite add_users_dicts by exact Hdicts. cbn [bind app].
      change (1 + k) with (S k). now rewrite Hempty.
    - intros i Hi. apply Hne. lia.
    - change (1 + k) with (S k). now rewrite Hempty.
    - lia. }
  repeat split; exact H.
Qed.

Lemma X4_users_one_entry_per_record_witness :
  UserActivity.get_all_users (one_page [alice; bob]) 2
  = Done (Some [entry_of alice; entry_of bob], [1; 2]).
Proof.
  apply (X4_users_one_entry_per_record (one_page [alice; bob]) 2 2).
  - lia.
  - lia.
  - intros p Hp. assert (p = 1) as -> by lia. reflexivity.
  - reflexivity.
  - reflexivity.
Defined.

Lemma add_matching_user_untyped (email_filter : string) (user : json)
    (all_users : list UserActivityLastCommitByEmail.user_entry) :
  email_text user = None ->
  UserActivityLastCommitByEmail.add_matching_user email_filter user all_users
  = Raised AttributeError.
Proof.
  intros H. destruct user as [| | | |l|d]; try reflexivity.
  unfold UserActivityLastCommitByEmail.add_matching_user. cbn [py_get bind].
  unfold email_text in H.
  destruct (assoc "email" d) as [[| | |s| |]|]; try discriminate H; reflexivity.
Qed.

Lemma add_user_not_dict (user : json) (all_users : list UserActivity.user_entry) :
  is_dict user = false -> UserActivity.add_user user all_users = Raised AttributeError.
Proof. destruct user; try discriminate; reflexivity. Qed.

(** X5.  The user loaders catch [RequestException] only.  A user record
    whose [email] is present and no string ([null], say), or a record that
    is no dict, makes the loader with the email filter raise
    [AttributeError], whatever the filter; a record that is no dict makes
    the plain loader raise it.  The users loaded before are lost with the
    run. *)
Theorem X5_bad_user_record_raises (email_filter : string) (srv : endpoint) (k fuel : nat)
    (good rest : list json) (bad : json) :
  1 <= k -> k <= fuel ->
  (forall p, 1 <= p < k -> nonempty_page (srv p) = true) ->
  srv k = Page (good ++ bad :: rest) ->
  (Forall (fun u => email_text u <> None) (fetched srv 1 (k - 1) ++ good) ->
   email_text bad = None ->
   UserActivityLastCommitByEmail.get_all_users_matching email_filter srv fuel
   = Raised AttributeError)
  /\ (forallb is_dict (fetched srv 1 (k - 1) ++ good) = true ->
      is_dict bad = false ->
      UserActivity.get_all_users srv fuel = Raised AttributeError).
Proof.
  intros Hk Hfuel Hne Hpage.
  destruct k as [|j]; [lia|]. replace (S j - 1) with j in * by lia.
  destruct (Nat.le_exists_sub (S j) fuel Hfuel) as (f & -> & _).
  replace (f + S j) with (j + S f) by lia.
  assert (Hpre : forall i, i < j -> nonempty_page (srv (1 + i)) = true)
    by (intros i Hi; apply Hne; lia).
  assert (Hstep : forall Entry (body : json -> list Entry -> outcome (list Entry)) acc,
             for_each body (fetched srv 1 j) [] = Done acc ->
             (forall acc1, for_each body good acc = Done acc1 ->
                           body bad acc1 = Raised AttributeError) ->
             (exists acc1, for_each body good acc = Done acc1) ->
             user_pages body srv (j + S f) 1 [] [] = Raised AttributeError).
  { intros Entry body acc Hacc Hbad (acc1 & Hgood).
    rewrite user_pages_advance by exact Hpre. rewrite Hacc. cbn [bind user_pages].
    change (1 + j) with (S j). rewrite Hpage.
    destruct (good ++ bad :: rest) eqn:Hl; [now destruct good|]. cbn [is_empty].
    rewrite <- Hl, (for_each_raises_at body good rest bad acc acc1 AttributeError);
      auto. }
  split.
  - intros Hty Hbad. apply Forall_app in Hty as [Hty1 Hty2].
    unfold UserActivityLastCommitByEmail.get_all_users_matching.
    eapply Hstep.
    + apply add_matching_users_typed, Hty1.
    + intros acc1 _. apply add_matching_user_untyped, Hbad.
    + eexists. apply add_matching_users_typed, Hty2.
  - intros Hd Hbad. rewrite forallb_app in Hd. apply andb_prop in Hd as [Hd1 Hd2].
    unfold UserActivity.get_all_users.
    eapply Hstep.
    + apply add_users_dicts, Hd1.
    + intros acc1 _. apply add_user_not_dict, Hbad.
    + eexists. apply add_users_dicts, Hd2.
Qed.

Lemma X5_bad_user_record_raises_witness :
  UserActivityLastCommitByEmail.get_all_users_matching "" (one_page [alice; dave; bob]) 2
  = Raised AttributeError.
Proof.
  apply (X5_bad_user_record_raises "" (one_page [alice; dave; bob]) 1 2 [alice] [bob] dave).
  - lia.
  - lia.
  - intros p Hp. lia.
  - reflexivity.
  - repeat constructor; discriminate.
  - reflexivity.
Defined.

(** X6.  The main blocks go on only with a user list that is neither
    [None] nor empty.  When the request for a page of users fails, on
    whatever page, or when the first page has no user, the run of
    [user_activity.py], of [user_activity_commit.py] and of
    [user_activity_last_commit.py] reports nothing: no table, no total,
    no sheet. *)
Theorem X6_no_report_without_users (sort_values : frame_sort) (export_ok : bool)
    (srv : endpoint) (events_api : json -> endpoint) (n fuel : nat) :
  1 <= n -> n <= fuel ->
  (forall p, 1 <= p < n -> nonempty_page (srv p) = true) ->
  forallb is_dict (fetched srv 1 (n - 1)) = true ->
  srv n = RequestException \/ (n = 1 /\ srv 1 = Page []) ->
  UserActivity.main true srv events_api fuel = Done None
  /\ UserActivityCommit.main sort_values export_ok true srv events_api fuel = Done None
  /\ UserActivityLastCommit.main sort_values export_ok true srv events_api fuel
     = Done None.
Proof.
  intros Hn Hfuel Hne Hdicts Hlast.
  destruct n as [|k]; [lia|]. replace (S k - 1) with k in * by lia.
  assert (Hstop : nonempty_page (srv (1 + k)) = false).
  { change (1 + k) with (S k). destruct Hlast as [->|[Hk H]]; [reflexivity|].
    assert (k = 0) as -> by lia. now rewrite H. }
  assert (H : exists r log,
             UserActivity.get_all_users srv fuel = Done (r, log)
             /\ (r = None \/ r = Some [])).
  { unfold UserActivity.get_all_users.
    rewrite (user_pages_run UserActivity.add_user srv k 1 fuel [] []);
      [|intros i Hi; apply Hne; lia|exact Hstop|lia].
    rewrite add_users_dicts by exact Hdicts. cbn [bind app].
    change (1 + k) with (S k).
    destruct Hlast as [->|[Hk H]]; [eauto|].
    assert (k = 0) as -> by lia. rewrite H. cbn. eauto. }
  destruct H as (r & log & Hget & Hr).
  unfold UserActivity.main, UserActivityCommit.main, UserActivityLastCommit.main,
    UserActivityCommit.get_all_users, UserActivityLastCommit.get_all_users.
  rewrite Hget. cbn [bind fst].
  destruct Hr as [-> | ->]; repeat split.
Qed.

Lemma X6_no_report_without_users_witness :
  UserActivity.main true fails_on_page_2 three_users_events 2 = Done None
  /\ UserActivityLastCommit.main tie_reversing_sort true true (one_page [])
       three_users_events 1
     = Done None.
Proof.
  split.
  - apply (X6_no_report_without_users tie_reversing_sort true fails_on_page_2
             three_users_events 2 2);
      [lia | lia | intros p Hp; assert (p = 1) as -> by lia; reflexivity
      | reflexivity | left; reflexivity].
  - apply (X6_no_report_without_users tie_reversing_sort true (one_page [])
             three_users_events 1 1);
      [lia | lia | intros p Hp; lia | reflexivity | right; split; reflexivity].
Defined.

(** X7.  With the empty filter the loader of
    [user_activity_last_commit_by_email.py] loads the users the other
    scripts load: over pages of users whose [email] is a string or absent,
    it returns one entry per record, and these entries without their
    email are the entries of [get_all_users] of [user_activity.py], from
    the same requests. *)
Theorem X7_empty_filter_loads_all_users (srv : endpoint) (n fuel : nat) :
  1 <= n -> n <= fuel ->
  (forall p, 1 <= p < n -> nonempty_page (srv p) = true) ->
  srv n = Page [] ->
  Forall (fun u => email_text u <> None) (fetched srv 1 n) ->
  exists users,
    UserActivityLastCommitByEmail.get_all_users_matching "" srv fuel
    = Done (Some users, seq 1 n)
    /\ users = map matching_entry (fetched srv 1 n)
    /\ UserActivity.get_all_users srv fuel
       = Done (Some (map forget_email users), seq 1 n).
Proof.
  intros Hn Hfuel Hne Hempty Hty.
  exists (map matching_entry (fetched srv 1 n)).
  destruct n as [|k]; [lia|].
  rewrite (fetched_empty_last srv 1 k) in * by exact Hempty.
  assert (Hpre : forall i, i < k -> nonempty_page (srv (1 + i)) = true)
    by (intros i Hi; apply Hne; lia).
  assert (Hstop : nonempty_page (srv (1 + k)) = false)
    by (change (1 + k) with (S k); now rewrite Hempty).
  split; [|split; [reflexivity|]].
  - unfold UserActivityLastCommitByEmail.get_all_users_matching.
    rewrite (user_pages_run _ srv k 1 fuel [] [] Hpre Hstop) by lia.
    rewrite add_matching_users_typed, keeps_everything by exact Hty.
    cbn [bind app]. change (1 + k) with (S k). now rewrite Hempty.
  - unfold UserActivity.get_all_users.
    rewrite (user_pages_run _ srv k 1 fuel [] [] Hpre Hstop) by lia.
    rewrite add_users_dicts by (apply typed_is_dict, Hty).
    cbn [bind app]. change (1 + k) with (S k). rewrite Hempty.
    rewrite map_map. reflexivity.
Qed.

Lemma X7_empty_filter_loads_all_users_witness :
  exists users,
    UserActivityLastCommitByEmail.get_all_users_matching "" (one_page [alice; bob; carol]) 2
    = Done (Some users, seq 1 2)
    /\ users = map matching_entry (fetched (one_page [alice; bob; carol]) 1 2)
    /\ UserActivity.get_all_users (one_page [alice; bob; carol]) 2
       = Done (Some (map forget_email users), seq 1 2).
Proof.
  apply (X7_empty_filter_loads_all_users (one_page [alice; bob; carol]) 2 2).
  - lia.
  - lia.
  - intros p Hp. assert (p = 1) as -> by lia. reflexivity.
  - reflexivity.
  - repeat constructor; discriminate.
Defined.

(** ** The event reducers *)

Lemma push_event_irrelevant (username : json) (d : list (string * json))
    (all_events : list UserActivityCommit.event_data) :
  relevant (JDict d) = false ->
  UserActivityCommit.push_event username (JDict d) all_events = Done all_events.
Proof.
  intros Hrel. unfold UserActivityCommit.push_event. rewrite get_action_name.
  cbn [bind]. fold (relevant (JDict d)). now rewrite Hrel.
Qed.

Lemma push_event_row (username : json) (e : json)
    (all_events : list UserActivityCommit.event_data) :
  relevant e = true -> push_data_ok e = true ->
  UserActivityCommit.push_event username e all_events
  = Done (all_events ++ [row_of username e]).
Proof.
  intros Hrel Hok. destruct e as [| | | |l|d]; try discriminate Hok.
  unfold UserActivityCommit.push_event. rewrite get_action_name.
  cbn [bind]. fold (relevant (JDict d)). rewrite Hrel.
  unfold row_of, push_field. cbn [py_get bind field].
  unfold push_data_ok in Hok.
  destruct (assoc "push_data" d) as [[| | | | |pd]|]; try discriminate Hok;
    reflexivity.
Qed.

Lemma push_events_rows (username : json) (events : list json) :
  forall all_events,
    forallb (fun e => is_dict e && (negb (relevant e) || push_data_ok e)) events = true ->
    for_each (UserActivityCommit.push_event username) events all_events
    = Done (all_events ++ map (row_of username) (filter relevant events)).
Proof.
  induction events as [|e events IH]; intros all_events H.
  - cbn. now rewrite app_nil_r.
  - cbn [forallb] in H. apply andb_prop in H as [He H].
    apply andb_prop in He as [Hd Hshape].
    cbn [for_each filter]. destruct (relevant e) eqn:Hrel.
    + cbn [negb orb] in Hshape. rewrite push_event_row by assumption.
      cbn [bind]. rewrite IH by exact H. cbn [map]. now rewrite <- app_assoc.
    + destruct e as [| | | |l|d]; try discriminate Hd.
      rewrite push_event_irrelevant by exact Hrel. cbn [bind]. apply IH, H.
Qed.

(** X8.  The detailed reducer of [user_activity_commit.py] returns one
    row per relevant event of the pages it read, in fetch order, when the
    [push_data] of these events is a dict or absent.  Each row carries the
    username it was called with; its activity is [push_data.action], or
    the [action_name] of the event when [push_data] has no [action]; a
    field the event lacks is [None] in the row. *)
Theorem X8_one_detailed_row_per_push (srv : endpoint) (m fuel : nat) (username : json) :
  1 <= m -> m <= fuel ->
  (forall p, 1 <= p < m -> full_page (srv p) = true) ->
  full_page (srv m) = false ->
  forallb (fun e => is_dict e && (negb (relevant e) || push_data_ok e))
    (fetched srv 1 m) = true ->
  UserActivityCommit.get_user_push_events srv fuel username
  = Done (map (row_of username) (filter relevant (fetched srv 1 m)), seq 1 m).
Proof.
  intros Hm Hfuel Hfull Hstop Hshape.
  destruct m as [|k]; [lia|].
  unfold UserActivityCommit.get_user_push_events.
  rewrite (event_pages_run _ srv k 1 fuel [] []).
  - now rewrite push_events_rows by exact Hshape.
  - intros i Hi. apply Hfull. lia.
  - exact Hstop.
  - lia.
Qed.

Lemma X8_one_detailed_row_per_push_witness :
  UserActivityCommit.get_user_push_events
    (one_page [push_without_push_data; merge_request_event; push_without_commit_to]) 1
    (JStr "alice")
  = Done ([row_of (JStr "alice") push_without_push_data;
           row_of (JStr "alice") push_without_commit_to], [1])
  /\ UserActivityCommit.Activity_Name (row_of (JStr "alice") push_without_push_data)
     = JStr "pushed to".
Proof.
  split; [|reflexivity].
  apply (X8_one_detailed_row_per_push
           (one_page [push_without_push_data; merge_request_event; push_without_commit_to])
           1 1 (JStr "alice")).
  - lia.
  - lia.
  - intros p Hp. lia.
  - reflexivity.
  - reflexivity.
Defined.

(** X9.  What the last-push reducer returns for a user without pushes: a
    run that returns gives as count the number of relevant events of the
    pages it requested; when that number is zero the date is ["N/A"] and
    the commit is ["N/A"], and when it is positive the date is a date
    text, never ["N/A"]. *)
Theorem X9_no_push_gives_sentinels (srv : endpoint) (fuel n : nat) (date : date_cell)
    (sha : json) (log : list nat) :
  UserActivityLastCommit.get_user_push_count srv fuel = Done (n, date, sha, log) ->
  n = count_relevant (fetched srv 1 (List.length log))
  /\ (n = 0 -> date = DateNA /\ sha = JStr "N/A")
  /\ (0 < n -> date <> DateNA).
Proof.
  intros H. unfold UserActivityLastCommit.get_user_push_count in H.
  destruct (event_pages UserActivityLastCommit.scan_event srv fuel 1
              UserActivityLastCommit.initial_state []) as [[st log']| |] eqn:Hrun;
    cbn [bind] in H; try discriminate.
  cbn [fst snd] in H. unfold UserActivityLastCommit.summary_of in H.
  injection H as Hcount Hdate Hsha Hlog.
  apply event_pages_returns in Hrun as (k & -> & Hscan).
  cbn [app] in Hlog. subst log. rewrite length_seq.
  destruct (scan_events_latest _ UserActivityLastCommit.initial_state _
              epoch_one_us eq_refl Hscan) as (Hc & Hcases).
  cbn [UserActivityLastCommit.initial_state UserActivityLastCommit.push_count] in Hc.
  rewrite Nat.add_0_l in Hc. rewrite Hc in Hcount, Hdate.
  split; [now rewrite <- Hcount|]. split.
  - intros Hzero. rewrite Hzero in Hcount. rewrite Hcount in Hdate.
    split; [now rewrite <- Hdate|].
    destruct Hcases as [(_ & _ & Hkeep)|(e & t & Hfl & _)].
    + now rewrite <- Hsha, Hkeep.
    + destruct Hfl as (before & after & Hsplit & _).
      unfold count_relevant in Hcount. rewrite Hsplit, length_app in Hcount.
      cbn [List.length] in Hcount. lia.
  - intros Hpos. rewrite <- Hcount in Hpos.
    rewrite (proj2 (Nat.ltb_lt _ _) Hpos) in Hdate. rewrite <- Hdate. discriminate.
Qed.

Lemma X9_no_push_gives_sentinels_witness :
  UserActivityLastCommit.get_user_push_count (one_page [merge_request_event]) 1
  = Done (0, DateNA, JStr "N/A", [1])
  /\ 0 = count_relevant (fetched (one_page [merge_request_event]) 1 1).
Proof.
  split; [reflexivity|].
  exact (proj1 (X9_no_push_gives_sentinels (one_page [merge_request_event]) 1 0
                  DateNA (JStr "N/A") [1] eq_refl)).
Defined.






Lemma for_each_skips {St} (body : json -> St -> outcome St) (events : list json) :
  (forall d st, relevant (JDict d) = false -> body (JDict d) st = Done st) ->
  forall st,
    forallb is_dict events = true ->
    for_each body events st = for_each body (filter relevant events) st.
Proof.
  intros Hskip. induction events as [|e events IH]; intros st Hd; [reflexivity|].
  cbn [forallb] in Hd. apply andb_prop in Hd as [He Hd].
  cbn [filter]. destruct (relevant e) eqn:Hrel.
  - cbn [for_each]. destruct (body e st); cbn [bind]; auto.
  - destruct e as [| | | |l|d]; try discriminate He.
    cbn [for_each]. rewrite Hskip by exact Hrel. cbn [bind]. apply IH, Hd.
Qed.

(** X11.  The events the server sends beside the pushes change nothing:
    over dict events, each of the three reducers gives on a list of
    events what it gives on the relevant events of the list alone, result
    or exception. *)
Theorem X11_other_events_change_nothing (events : list json) (username : json) :
  forallb is_dict events = true ->
  (forall c,
      for_each UserActivity.count_event events c
      = for_each UserActivity.count_event (filter relevant events) c)
  /\ (forall rows,
        for_each (UserActivityCommit.push_event username) events rows
        = for_each (UserActivityCommit.push_event username) (filter relevant events) rows)
  /\ (forall st,
        for_each UserActivityLastCommit.scan_event events st
        = for_each UserActivityLastCommit.scan_event (filter relevant events) st).
Proof.
  intros Hd. split; [|split]; intros s0; apply for_each_skips; try exact Hd.
  - intros d c Hrel. rewrite count_event_dict. now rewrite Hrel.
  - intros d rows Hrel. now apply push_event_irrelevant.
  - intros d st Hrel.
    unfold UserActivityLastCommit.scan_event. rewrite get_action_name. cbn [bind].
    fold (relevant (JDict d)). now rewrite Hrel.
Qed.

Lemma X11_other_events_change_nothing_witness :
  for_each UserActivityLastCommit.scan_event
    [merge_request_event; sample_push; merge_request_event]
    UserActivityLastCommit.initial_state
  = for_each UserActivityLastCommit.scan_event [sample_push]
      UserActivityLastCommit.initial_state.
Proof.
  exact (proj2 (proj2 (X11_other_events_change_nothing
                         [merge_request_event; sample_push; merge_request_event]
                         JNull eq_refl))
           UserActivityLastCommit.initial_state).
Defined.

(** ** The requests of a run *)

Lemma event_pages_log {St} (body : json -> St -> outcome St) (srv : endpoint)
    (fuel : nat) :
  forall (page : nat) (st st' : St) (log log' : list nat),
    event_pages body srv fuel page st log = Done (st', log') ->
    exists k, k < fuel /\ log' = log ++ seq page (S k).
Proof.
  induction fuel as [|fuel IH]; intros page st st' log log' H; [discriminate|].
  cbn [event_pages] in H.
  destruct (srv page) as [events|].
  - destruct events as [|e l]; cbn [is_empty] in H.
    + injection H as _ <-. exists 0. split; [lia|reflexivity].
    + destruct (for_each body (e :: l) st) as [s1| |]; cbn [bind] in H; try discriminate.
      destruct (List.length (e :: l) <? EVENTS_PER_PAGE).
      * injection H as _ <-. exists 0. split; [lia|reflexivity].
      * apply IH in H as (k & Hk & ->). exists (S k). split; [lia|].
        rewrite <- app_assoc. reflexivity.
  - injection H as _ <-. exists 0. split; [lia|reflexivity].
Qed.

Lemma user_pages_log {Entry} (body : json -> list Entry -> outcome (list Entry))
    (srv : endpoint) (fuel : nat) :
  forall (page : nat) (acc : list Entry) (r : option (list Entry)) (log log' : list nat),
    user_pages body srv fuel page acc log = Done (r, log') ->
    exists k, k < fuel /\ log' = log ++ seq page (S k).
Proof.
  induction fuel as [|fuel IH]; intros page acc r log log' H; [discriminate|].
  cbn [user_pages] in H.
  destruct (srv page) as [users|].
  - destruct users as [|e l]; cbn [is_empty] in H.
    + injection H as _ <-. exists 0. split; [lia|reflexivity].
    + destruct (for_each body (e :: l) acc) as [acc1| |]; cbn [bind] in H;
        try discriminate.
      apply IH in H as (k & Hk & ->). exists (S k). split; [lia|].
      rewrite <- app_assoc. reflexivity.
  - injection H as _ <-. exists 0. split; [lia|reflexivity].
Qed.

Lemma projects_loop_log (srv : endpoint) (fuel : nat) :
  forall (page : nat) (acc rows : list (json * json)) (log log' : list nat),
    GetProjects.projects_loop srv fuel page acc log = Done (rows, log') ->
    exists k, k < fuel /\ log' = log ++ seq page (S k).
Proof.
  induction fuel as [|fuel IH]; intros page acc rows log log' H; [discriminate|].
  cbn [GetProjects.projects_loop] in H.
  destruct (srv page) as [projects|].
  - destruct projects as [|e l]; cbn [is_empty] in H.
    + injection H as _ <-. exists 0. split; [lia|reflexivity].
    + destruct (GetProjects.scan_projects (e :: l) acc) as [acc1 ok].
      destruct ok.
      * apply IH in H as (k & Hk & ->). exists (S k). split; [lia|].
        rewrite <- app_assoc. reflexivity.
      * injection H as _ <-. exists 0. split; [lia|reflexivity].
  - injection H as _ <-. exists 0. split; [lia|reflexivity].
Qed.

Lemma requested_in_order_seq (fuel k : nat) :
  k < fuel -> requested_in_order fuel ([] ++ seq 1 (S k)).
Proof.
  intros Hk. unfold requested_in_order. cbn [app]. rewrite length_seq.
  split; [reflexivity|lia].
Qed.

Lemma event_pages_in_order {St} (body : json -> St -> outcome St) (srv : endpoint)
    (fuel : nat) (st st' : St) (log : list nat) :
  event_pages body srv fuel 1 st [] = Done (st', log) -> requested_in_order fuel log.
Proof.
  intros H. apply event_pages_log in H as (k & Hk & ->).
  apply requested_in_order_seq, Hk.
Qed.

Lemma user_pages_in_order {Entry} (body : json -> list Entry -> outcome (list Entry))
    (srv : endpoint) (fuel : nat) (r : option (list Entry)) (log : list nat) :
  user_pages body srv fuel 1 [] [] = Done (r, log) -> requested_in_order fuel log.
Proof.
  intros H. apply user_pages_log in H as (k & Hk & ->).
  apply requested_in_order_seq, Hk.
Qed.

(** X12.  Every fetch loop asks for the pages in order, from page 1, each
    once: whatever the server answers, a run that returns has requested
    the pages [1..k] for some [k] between 1 and the number of turns of
    the loop, no page twice and none left out. *)
Theorem X12_pages_requested_in_order (srv : endpoint) (fuel : nat) (log : list nat) :
  (forall c, UserActivity.get_user_push_count srv fuel = Done (c, log) ->
             requested_in_order fuel log)
  /\ (forall username rows,
        UserActivityCommit.get_user_push_events srv fuel username = Done (rows, log) ->
        requested_in_order fuel log)
  /\ (forall summary,
        UserActivityLastCommit.get_user_push_count srv fuel = Done (summary, log) ->
        requested_in_order fuel log)
  /\ (forall users, UserActivity.get_all_users srv fuel = Done (users, log) ->
                    requested_in_order fuel log)
  /\ (forall email_filter users,
        UserActivityLastCommitByEmail.get_all_users_matching email_filter srv fuel
        = Done (users, log) ->
        requested_in_order fuel log)
  /\ (forall rows, GetProjects.get_all_project_ids srv fuel = Done (rows, log) ->
                   requested_in_order fuel log).
Proof.
  split; [|split; [|split; [|split; [|split]]]].
  - intros c H. exact (event_pages_in_order _ _ _ _ _ _ H).
  - intros username rows H. exact (event_pages_in_order _ _ _ _ _ _ H).
  - intros summary H. unfold UserActivityLastCommit.get_user_push_count in H.
    destruct (event_pages _ srv fuel 1 _ []) as [[st log']| |] eqn:Hrun;
      cbn [bind] in H; try discriminate.
    injection H as _ <-. exact (event_pages_in_order _ _ _ _ _ _ Hrun).
  - intros users H. exact (user_pages_in_order _ _ _ _ _ H).
  - intros email_filter users H. exact (user_pages_in_order _ _ _ _ _ H).
  - intros rows H. apply projects_loop_log in H as (k & Hk & ->).
    apply requested_in_order_seq, Hk.
Qed.

Lemma X12_pages_requested_in_order_witness : requested_in_order 4 [1; 2].
Proof.
  exact (proj1 (X12_pages_requested_in_order four_pages 4 [1; 2]) 101 eq_refl).
Defined.

(** ** The counts of the scripts *)

Lemma scan_event_counts (e : json) (st st1 : UserActivityLastCommit.push_state) :
  UserActivityLastCommit.scan_event e st = Done st1 ->
  UserActivity.count_event e (UserActivityLastCommit.push_count st)
  = Done (UserActivityLastCommit.push_count st1).
Proof.
  intros H. destruct e as [| | | |l|d]; try discriminate H.
  rewrite count_event_dict. destruct (relevant (JDict d)) eqn:Hrel.
  - unfold UserActivityLastCommit.scan_event in H. rewrite get_action_name in H.
    cbn [bind] in H. fold (relevant (JDict d)) in H. rewrite Hrel in H.
    bind_cases; injection H as <-; reflexivity.
  - apply (scan_event_skip _ _ _ Hrel) in H. now subst.
Qed.

Lemma scan_events_count (events : list json) :
  forall st st',
    for_each UserActivityLastCommit.scan_event events st = Done st' ->
    for_each UserActivity.count_event events (UserActivityLastCommit.push_count st)
    = Done (UserActivityLastCommit.push_count st').
Proof.
  induction events as [|e events IH]; intros st st' H.
  - now injection H as <-.
  - apply for_each_cons_Done in H as (st1 & He & Hrest).
    cbn [for_each]. rewrite (scan_event_counts e st st1 He). cbn [bind].
    apply IH, Hrest.
Qed.

Lemma event_pages_count (srv : endpoint) (fuel : nat) :
  forall page st st' log log',
    event_pages UserActivityLastCommit.scan_event srv fuel page st log = Done (st', log') ->
    event_pages UserActivity.count_event srv fuel page
      (UserActivityLastCommit.push_count st) log
    = Done (UserActivityLastCommit.push_count st', log').
Proof.
  induction fuel as [|fuel IH]; intros page st st' log log' H; [discriminate|].
  cbn [event_pages] in H |- *.
  destruct (srv page) as [events|]; [|now injection H as <- <-].
  destruct events as [|e l]; cbn [is_empty] in H |- *; [now injection H as <- <-|].
  destruct (for_each UserActivityLastCommit.scan_event (e :: l) st) as [s1| |] eqn:Hbody;
    cbn [bind] in H; try discriminate.
  rewrite (scan_events_count (e :: l) st s1 Hbody). cbn [bind].
  destruct (List.length (e :: l) <? EVENTS_PER_PAGE).
  - now injection H as <- <-.
  - apply IH, H.
Qed.

(** X13.  The scripts agree on the count: whenever the last-push
    reducer returns for a user, the counting reducer of [user_activity.py]
    returns the same count from the same answers, after the same
    requests. *)
Theorem X13_reducers_agree_on_count (srv : endpoint) (fuel n : nat) (date : date_cell)
    (sha : json) (log : list nat) :
  UserActivityLastCommit.get_user_push_count srv fuel = Done (n, date, sha, log) ->
  UserActivity.get_user_push_count srv fuel = Done (n, log).
Proof.
  intros H. unfold UserActivityLastCommit.get_user_push_count in H.
  destruct (event_pages UserActivityLastCommit.scan_event srv fuel 1
              UserActivityLastCommit.initial_state []) as [[st log']| |] eqn:Hrun;
    cbn [bind] in H; try discriminate.
  cbn [fst snd] in H. unfold UserActivityLastCommit.summary_of in H.
  injection H as <- _ _ <-.
  exact (event_pages_count srv fuel 1 _ _ _ _ Hrun).
Qed.

Lemma X13_reducers_agree_on_count_witness :
  UserActivity.get_user_push_count three_pushes 1 = Done (3, [1]).
Proof.
  exact (X13_reducers_agree_on_count three_pushes 1 3 (DateText 2024 3 3 10 0 0)
           (JStr "c3") [1] eq_refl).
Defined.

Lemma list_sum_perm (xs ys : list nat) : Permutation xs ys -> list_sum xs = list_sum ys.
Proof.
  induction 1 as [|x xs ys _ IH|x y xs|xs ys zs _ IH1 _ IH2].
  - reflexivity.
  - rewrite !list_sum_cons. now rewrite IH.
  - rewrite !list_sum_cons. lia.
  - now rewrite IH1.
Qed.

Lemma dict_set_sum (d : list (json * nat)) (k : json) (c : nat) :
  list_sum (map snd (dict_set d k c)) <= list_sum (map snd d) + c.
Proof.
  induction d as [|[k0 v0] d IH]; cbn [dict_set map snd].
  - rewrite list_sum_cons. cbn. lia.
  - destruct (key_eqb k0 k); cbn [map snd]; rewrite !list_sum_cons; lia.
Qed.

Lemma visit_users_sum (events_api : json -> endpoint) (fuel : nat)
    (users : list UserActivity.user_entry) :
  forall st st',
    for_each (UserActivity.visit_user events_api fuel) users st = Done st' ->
    list_sum (map snd (fst st)) <= snd st ->
    list_sum (map snd (fst st')) <= snd st'.
Proof.
  induction users as [|u users IH]; intros st st' H Hle.
  - now injection H as <-.
  - apply for_each_cons_Done in H as (st1 & Hu & Hrest).
    apply visit_user_Done in Hu as (c & _ & ->).
    apply (IH _ _ Hrest). destruct (0 <? c); [|exact Hle].
    cbn [fst snd]. pose proof (dict_set_sum (fst st) (UserActivity.username u) c). lia.
Qed.

Lemma contributors_sum (users : list UserActivity.user_entry) (counts : list nat) :
  List.length users = List.length counts ->
  list_sum (map snd (contributors users counts)) = list_sum counts.
Proof.
  revert counts; induction users as [|u users IH]; intros [|c counts] Hlen;
    try discriminate; [reflexivity|].
  injection Hlen as Hlen. rewrite contributors_cons, list_sum_cons.
  destruct (0 <? c) eqn:Hc.
  - cbn [map snd]. rewrite list_sum_cons, IH by exact Hlen. reflexivity.
  - apply Nat.ltb_ge in Hc. rewrite IH by exact Hlen. lia.
Qed.

(** X14.  The rows of the report of [user_activity.py] never add up to
    more than the total it prints: the total adds every count that was
    stored, a row holds the last count stored under its username.  The
    table has the rows of the mapping, so it adds up to the same, and
    when no two users share a username the rows add up to the total. *)
Theorem X14_rows_add_up_to_at_most_total (configured : bool) (users_api : endpoint)
    (events_api : json -> endpoint) (fuel : nat) (rep : UserActivity.report) :
  UserActivity.main configured users_api events_api fuel = Done (Some rep) ->
  list_sum (map snd (UserActivity.table rep))
  = list_sum (map snd (UserActivity.results rep))
  /\ list_sum (map snd (UserActivity.results rep)) <= UserActivity.total_pushes rep
  /\ exists users log,
       UserActivity.get_all_users users_api fuel = Done (Some users, log)
       /\ (distinct_usernames users ->
           list_sum (map snd (UserActivity.results rep))
           = UserActivity.total_pushes rep).
Proof.
  unfold UserActivity.main. destruct configured; [|discriminate].
  destruct (UserActivity.get_all_users users_api fuel) as [[users log]| |];
    cbn [bind fst]; try discriminate.
  destruct users as [[|u users]|]; try discriminate.
  destruct (for_each _ (u :: users) _) as [st| |] eqn:Hloop; cbn [bind];
    try discriminate.
  intros H. injection H as <-.
  cbn [UserActivity.table UserActivity.results UserActivity.total_pushes].
  split; [|split].
  - apply list_sum_perm, Permutation_map, sorted_reverse_perm.
  - apply (visit_users_sum _ _ _ _ _ Hloop). cbn. lia.
  - exists (u :: users), log. split; [reflexivity|]. intros Hdist.
    apply visit_users_Done in Hloop as (counts & Hcounts & Hsum & _ & Hrows).
    rewrite (Hrows Hdist) by (intros k u' []). cbn [fst snd app] in *.
    rewrite Hsum. apply contributors_sum. now apply Forall2_same_length in Hcounts.
Qed.

Lemma X14_rows_add_up_to_at_most_total_witness :
  list_sum (map snd [(JStr "A", 3)]) <= 5.
Proof.
  exact (proj1 (proj2 (X14_rows_add_up_to_at_most_total true namesakes three_users_events 2
                         {| UserActivity.results := [(JStr "A", 3)];
                            UserActivity.table := [(JStr "A", 3)];
                            UserActivity.unique_contributors := 1;
                            UserActivity.total_pushes := 5 |} eq_refl))).
Defined.

Lemma contributors_nil_iff (users : list UserActivity.user_entry) (counts : list nat) :
  List.length users = List.length counts ->
  contributors users counts = [] <-> list_sum counts = 0.
Proof.
  revert counts; induction users as [|u users IH]; intros [|c counts] Hlen;
    try discriminate; [split; reflexivity|].
  injection Hlen as Hlen. rewrite contributors_cons, list_sum_cons.
  destruct (0 <? c) eqn:Hc.
  - apply Nat.ltb_lt in Hc. split; [discriminate|lia].
  - apply Nat.ltb_ge in Hc. rewrite (IH counts Hlen). lia.
Qed.

(** X15.  [user_activity_commit.py] calls [save_to_excel] exactly when
    somebody pushed, and the export can still fail: in a run that reports,
    no workbook is written if and only if the total it prints is 0 or the
    export raised inside [save_to_excel]; a workbook that is written has
    one detailed row per push of the total.  The table has no row exactly
    when the total is 0. *)
Theorem X15_workbook_iff_pushes (sort_values : frame_sort) (export_ok configured : bool)
    (users_api : endpoint) (events_api : json -> endpoint) (fuel : nat)
    (rep : UserActivityCommit.report) :
  UserActivityCommit.main sort_values export_ok configured users_api events_api fuel
  = Done (Some rep) ->
  (UserActivityCommit.spreadsheet rep = None
   <-> UserActivityCommit.total_pushes rep = 0 \/ export_ok = false)
  /\ (forall book,
        UserActivityCommit.spreadsheet rep = Some book ->
        List.length (UserActivityCommit.Detailed_Activity book)
        = UserActivityCommit.total_pushes rep)
  /\ (UserActivityCommit.table rep = [] <-> UserActivityCommit.total_pushes rep = 0).
Proof.
  unfold UserActivityCommit.main. destruct configured; [|discriminate].
  destruct (UserActivityCommit.get_all_users users_api fuel) as [[users log]| |];
    cbn [bind fst]; try discriminate.
  destruct users as [[|u users]|]; try discriminate.
  destruct (for_each _ (u :: users) _) as [st| |] eqn:Hloop; cbn [bind];
    try discriminate.
  intros H. injection H as <-.
  apply visit_users_commit_Done in Hloop as (counts & Hcounts & Hsum & Hrows & Hdet).
  cbn [UserActivityCommit.acc_pushes UserActivityCommit.acc_summary
         UserActivityCommit.acc_detailed app List.length Nat.add] in *.
  cbn [UserActivityCommit.spreadsheet UserActivityCommit.total_pushes
         UserActivityCommit.table].
  rewrite Hsum. unfold UserActivityCommit.save_to_excel. split; [|split].
  - destruct (UserActivityCommit.acc_detailed st) as [|row rows]; cbn [is_empty].
    + cbn in Hdet. split; [left; lia|reflexivity].
    + cbn [List.length] in Hdet. destruct export_ok.
      * split; [discriminate|intros [H|H]; [lia|discriminate]].
      * split; [right; reflexivity|reflexivity].
  - intros book.
    destruct (is_empty (UserActivityCommit.acc_detailed st)); [discriminate|].
    destruct export_ok; [|discriminate].
    intros H. injection H as <-. exact Hdet.
  - rewrite Hrows.
    rewrite <- (contributors_nil_iff (u :: users) counts)
      by (now apply Forall2_same_length in Hcounts).
    split.
    + intros Hnil. apply Permutation_nil. rewrite <- Hnil.
      apply sorted_reverse_perm.
    + intros ->. reflexivity.
Qed.

Lemma X15_workbook_iff_pushes_witness :
  exists rep,
    UserActivityCommit.main tie_reversing_sort false true three_users
      three_users_events 2 = Done (Some rep)
    /\ (UserActivityCommit.spreadsheet rep = None
        <-> UserActivityCommit.total_pushes rep = 0 \/ false = false)
    /\ UserActivityCommit.spreadsheet rep = None
    /\ UserActivityCommit.total_pushes rep = 5.
Proof.
  eexists. split; [reflexivity|]. split; [|split; reflexivity].
  eapply proj1.
  eapply (X15_workbook_iff_pushes tie_reversing_sort false true three_users
            three_users_events 2).
  reflexivity.
Defined.

(** ** The report of the last push *)

Lemma last_count_date (srv : endpoint) (fuel n : nat) (date : date_cell) (sha : json)
    (log : list nat) :
  UserActivityLastCommit.get_user_push_count srv fuel = Done (n, date, sha, log) ->
  0 < n -> date <> DateNA.
Proof.
  unfold UserActivityLastCommit.get_user_push_count.
  destruct (event_pages _ srv fuel 1 _ []) as [[st log']| |]; cbn [bind];
    try discriminate.
  cbn [fst snd]. unfold UserActivityLastCommit.summary_of.
  intros H Hpos. injection H as Hn Hdate _ _. rewrite Hn in Hdate.
  rewrite (proj2 (Nat.ltb_lt _ _) Hpos) in Hdate. rewrite <- Hdate. discriminate.
Qed.

(** One user of the main loop of [user_activity_last_commit.py] *)
Lemma visit_user_last_Done (events_api : json -> endpoint) (fuel : nat)
    (u : UserActivity.user_entry)
    (st st1 : list (json * UserActivityLastCommit.details) * nat) :
  UserActivityLastCommit.visit_user events_api fuel u st = Done st1 ->
  st1 = st
  \/ exists n date sha,
       0 < n /\ date <> DateNA
       /\ st1 = (dict_set (fst st) (UserActivity.username u)
                   {| UserActivityLastCommit.count := n;
                      UserActivityLastCommit.last_date := date;
                      UserActivityLastCommit.last_commit := sha |},
                 snd st + n).
Proof.
  unfold UserActivityLastCommit.visit_user. intros H.
  destruct (UserActivityLastCommit.get_user_push_count _ fuel)
    as [[[[n date] sha] log]| |] eqn:Hget; cbn [bind fst snd] in H; try discriminate.
  destruct (0 <? n) eqn:Hn; [|left; now injection H].
  apply Nat.ltb_lt in Hn. right. exists n, date, sha.
  split; [exact Hn|]. split; [exact (last_count_date _ _ _ _ _ _ Hget Hn)|].
  unfold py_setitem in H. destruct (hashable _); cbn [bind] in H; [|discriminate].
  destruct (py_format_width _); cbn [bind] in H; try discriminate.
  destruct (py_slice8 sha); cbn [bind] in H; try discriminate.
  now injection H.
Qed.

Lemma visit_users_last_rows (events_api : json -> endpoint) (fuel : nat)
    (users : list UserActivity.user_entry) :
  forall st st',
    for_each (UserActivityLastCommit.visit_user events_api fuel) users st = Done st' ->
    (forall row, In row (fst st) ->
       0 < UserActivityLastCommit.count (snd row)
       /\ UserActivityLastCommit.last_date (snd row) <> DateNA) ->
    forall row, In row (fst st') ->
      0 < UserActivityLastCommit.count (snd row)
      /\ UserActivityLastCommit.last_date (snd row) <> DateNA.
Proof.
  induction users as [|u users IH]; intros st st' H Hst.
  - now injection H as <-.
  - apply for_each_cons_Done in H as (st1 & Hu & Hrest).
    apply (IH _ _ Hrest).
    apply visit_user_last_Done in Hu as [->|(n & date & sha & Hn & Hdate & ->)];
      [exact Hst|].
    cbn [fst]. intros row Hrow.
    apply dict_set_values in Hrow as [Hrow| ->]; [apply Hst, Hrow|].
    cbn. auto.
Qed.

Lemma print_rows_Done (rows : list (json * UserActivityLastCommit.details)) :
  forall u,
    for_each UserActivityLastCommit.print_row rows tt = Done u ->
    forall row, In row rows ->
      exists s, UserActivityLastCommit.last_commit (snd row) = JStr s.
Proof.
  induction rows as [|r rows IH]; intros u H row Hin; [destruct Hin|].
  apply for_each_cons_Done in H as ([] & Hr & Hrest).
  destruct Hin as [<-|Hin]; [|exact (IH _ Hrest row Hin)].
  unfold UserActivityLastCommit.print_row in Hr.
  destruct (py_format_width (fst r)); cbn [bind] in Hr; try discriminate.
  destruct (UserActivityLastCommit.last_commit (snd r)) as [| | |s|l|d];
    cbn in Hr; try discriminate Hr.
  eauto.
Qed.

(** X16.  A row of the report of [user_activity_last_commit.py] always
    has pushes, a date and a commit text: in a run that reports, every
    row of the mapping and of the table has a positive count, a date that
    is not ["N/A"], and a commit that is a string (a row whose commit is
    no string stops the run with [TypeError] when it is printed).
    [save_to_xlsx] is called exactly when the mapping has a row, and the
    export can still fail: no sheet is written if and only if the mapping
    is empty or the export raised inside [save_to_xlsx].  For every sort
    that orders as pandas documents, a sheet that is written holds rows
    of this kind in descending order of the count. *)
Theorem X16_report_rows_are_dated (sort_values : frame_sort) (export_ok configured : bool)
    (users_api : endpoint) (events_api : json -> endpoint) (fuel : nat)
    (rep : UserActivityLastCommit.report) :
  UserActivityLastCommit.main sort_values export_ok configured users_api events_api fuel
  = Done (Some rep) ->
  Forall dated_row (UserActivityLastCommit.results_details rep)
  /\ Forall dated_row (UserActivityLastCommit.table rep)
  /\ (UserActivityLastCommit.spreadsheet rep = None
      <-> UserActivityLastCommit.results_details rep = [] \/ export_ok = false)
  /\ (sorts_descending sort_values ->
      forall sheet,
        UserActivityLastCommit.spreadsheet rep = Some sheet ->
        Forall dated_row sheet
        /\ descending (fun row => UserActivityLastCommit.count (snd row)) sheet).
Proof.
  unfold UserActivityLastCommit.main. destruct configured; [|discriminate].
  destruct (UserActivityLastCommit.get_all_users users_api fuel) as [[users log]| |];
    cbn [bind fst]; try discriminate.
  destruct users as [[|u users]|]; try discriminate.
  destruct (for_each _ (u :: users) _) as [st| |] eqn:Hloop; cbn [bind];
    try discriminate.
  destruct (for_each UserActivityLastCommit.print_row _ tt) as [done| |] eqn:Hprint;
    cbn [bind]; try discriminate.
  intros H. injection H as <-.
  cbn [UserActivityLastCommit.results_details UserActivityLastCommit.table
         UserActivityLastCommit.spreadsheet].
  pose proof (sorted_reverse_perm
                (fun row => UserActivityLastCommit.count (snd row)) (fst st)) as Hperm.
  assert (Htable : Forall dated_row
                     (sorted_reverse
                        (fun row => UserActivityLastCommit.count (snd row)) (fst st))).
  { apply Forall_forall. intros row Hrow. unfold dated_row.
    destruct (visit_users_last_rows _ _ _ _ _ Hloop (fun r (F : In r []) => match F with end)
                row (Permutation_in _ Hperm Hrow)) as [Hn Hdate].
    split; [exact Hn|]. split; [exact Hdate|].
    exact (print_rows_Done _ _ Hprint row Hrow). }
  assert (Hresults : Forall dated_row (fst st))
    by exact (Permutation_Forall Hperm Htable).
  split; [exact Hresults|]. split; [exact Htable|]. split.
  - unfold UserActivityLastCommit.save_to_xlsx.
    destruct (fst st); cbn [is_empty].
    + split; [left; reflexivity|reflexivity].
    + destruct export_ok.
      * split; [discriminate|intros [H|H]; discriminate].
      * split; [right; reflexivity|reflexivity].
  - intros Hsort sheet Hsheet.
    destruct (is_empty (fst st)); [discriminate|].
    unfold UserActivityLastCommit.save_to_xlsx in Hsheet.
    destruct export_ok; [|discriminate]. injection Hsheet as <-.
    destruct (Hsort _ (fun row => UserActivityLastCommit.count (snd row)) (fst st))
      as [Hp Hd].
    split; [|exact Hd].
    exact (Permutation_Forall (Permutation_sym Hp) Hresults).
Qed.

Lemma X16_report_rows_are_dated_witness :
  exists rep,
    UserActivityLastCommit.main tie_reversing_sort false true three_users
      three_users_events 2
    = Done (Some rep)
    /\ Forall dated_row (UserActivityLastCommit.table rep)
    /\ map fst (UserActivityLastCommit.table rep) = [JStr "C"; JStr "A"]
    /\ UserActivityLastCommit.spreadsheet rep = None.
Proof.
  eexists. split; [reflexivity|]. split; [|split; reflexivity].
  eapply proj1. eapply proj2.
  eapply (X16_report_rows_are_dated tie_reversing_sort false true three_users
            three_users_events 2).
  reflexivity.
Defined.

(** ** The order of the console tables *)

(** X17.  The table each of the three reports prints is made by
    [sorted(..., reverse=True)] on the count: in a run that reports, the
    table holds the rows of the mapping (of the list, in
    [user_activity_commit.py]), in descending order of the count, and the
    rows of one count stand in the order in which they were stored.
    Counts [{A: 5, B: 5, C: 3}] stored in this order are printed
    [A, B, C]. *)
Theorem X17_console_table_is_stable :
  (forall configured users_api events_api fuel rep,
      UserActivity.main configured users_api events_api fuel = Done (Some rep) ->
      Permutation (UserActivity.table rep) (UserActivity.results rep)
      /\ descending snd (UserActivity.table rep)
      /\ (forall c, filter (fun r => snd r =? c) (UserActivity.table rep)
                    = filter (fun r => snd r =? c) (UserActivity.results rep)))
  /\ (forall sort_values export_ok configured users_api events_api fuel rep,
        UserActivityCommit.main sort_values export_ok configured users_api events_api
          fuel = Done (Some rep) ->
        Permutation (UserActivityCommit.table rep) (UserActivityCommit.summary_results rep)
        /\ descending snd (UserActivityCommit.table rep)
        /\ (forall c, filter (fun r => snd r =? c) (UserActivityCommit.table rep)
                      = filter (fun r => snd r =? c)
                          (UserActivityCommit.summary_results rep)))
  /\ (forall sort_values export_ok configured users_api events_api fuel rep,
        UserActivityLastCommit.main sort_values export_ok configured users_api
          events_api fuel = Done (Some rep) ->
        let count := fun row : json * UserActivityLastCommit.details =>
                       UserActivityLastCommit.count (snd row) in
        Permutation (UserActivityLastCommit.table rep)
          (UserActivityLastCommit.results_details rep)
        /\ descending count (UserActivityLastCommit.table rep)
        /\ (forall c, filter (fun r => count r =? c) (UserActivityLastCommit.table rep)
                      = filter (fun r => count r =? c)
                          (UserActivityLastCommit.results_details rep)))
  /\ sorted_reverse snd abc_counts = abc_counts.
Proof.
  split; [|split; [|split; [|reflexivity]]].
  - intros configured users_api events_api fuel rep.
    unfold UserActivity.main. destruct configured; [|discriminate].
    destruct (UserActivity.get_all_users users_api fuel) as [[users log]| |];
      cbn [bind fst]; try discriminate.
    destruct users as [[|u users]|]; try discriminate.
    destruct (for_each _ (u :: users) _) as [st| |]; cbn [bind]; try discriminate.
    intros H. injection H as <-. cbn [UserActivity.table UserActivity.results].
    split; [apply sorted_reverse_perm|].
    split; [apply sorted_reverse_descending|]. intros c. apply sorted_reverse_stable.
  - intros sort_values export_ok configured users_api events_api fuel rep.
    unfold UserActivityCommit.main. destruct configured; [|discriminate].
    destruct (UserActivityCommit.get_all_users users_api fuel) as [[users log]| |];
      cbn [bind fst]; try discriminate.
    destruct users as [[|u users]|]; try discriminate.
    destruct (for_each _ (u :: users) _) as [st| |]; cbn [bind]; try discriminate.
    intros H. injection H as <-.
    cbn [UserActivityCommit.table UserActivityCommit.summary_results].
    split; [apply sorted_reverse_perm|].
    split; [apply sorted_reverse_descending|]. intros c. apply sorted_reverse_stable.
  - intros sort_values export_ok configured users_api events_api fuel rep.
    unfold UserActivityLastCommit.main. destruct configured; [|discriminate].
    destruct (UserActivityLastCommit.get_all_users users_api fuel) as [[users log]| |];
      cbn [bind fst]; try discriminate.
    destruct users as [[|u users]|]; try discriminate.
    destruct (for_each _ (u :: users) _) as [st| |]; cbn [bind]; try discriminate.
    destruct (for_each UserActivityLastCommit.print_row _ tt) as [done| |];
      cbn [bind]; try discriminate.
    intros H. injection H as <-.
    cbn [UserActivityLastCommit.table UserActivityLastCommit.results_details].
    split; [apply sorted_reverse_perm|].
    split; [apply sorted_reverse_descending|]. intros c.
    apply (sorted_reverse_stable
             (fun row : json * UserActivityLastCommit.details =>
                UserActivityLastCommit.count (snd row))).
Qed.

Lemma X17_console_table_is_stable_witness :
  UserActivity.main true three_users three_users_events 2 = Done (Some three_users_report)
  /\ Permutation (UserActivity.table three_users_report)
       (UserActivity.results three_users_report)
  /\ UserActivity.results three_users_report = [(JStr "A", 2); (JStr "C", 3)]
  /\ UserActivity.table three_users_report = [(JStr "C", 3); (JStr "A", 2)].
Proof.
  split; [reflexivity|]. split; [|split; reflexivity].
  eapply proj1.
  exact (proj1 X17_console_table_is_stable true three_users three_users_events 2
           three_users_report eq_refl).
Defined.
